(** * Ryanair fare extraction: the pipeline of [index.ts] and [index3.ts]

    A shallow embedding of the extraction and reconciliation code of the
    repository (the wait for the date prices and the [page.evaluate] blocks
    of [checkRyanairPrice], the fallback tiers that follow them, and the
    cheapest-flight fold of [main]), with the properties of its specification
    stated and settled on it. *)

From Stdlib Require Import List Bool Arith NArith ZArith QArith String Ascii Lia.
From Stdlib Require Import DecimalString.
Import ListNotations.

Local Open Scope N_scope.
Local Open Scope list_scope.

(** ** JavaScript strings

    A string is its sequence of UTF-16 code units.  Literals of the source are
    ASCII and are written [js "..."]. *)

Definition char := N.
Definition jsstring := list char.

Definition js (s : string) : jsstring :=
  map N_of_ascii (list_ascii_of_string s).

(** [\d] of a regular expression without the [u] flag. *)
Definition isDigit (c : char) : bool := (48 <=? c) && (c <=? 57).

(** [\s], and the characters [trim()] strips: WhiteSpace and LineTerminator. *)
Definition isWhiteSpace (c : char) : bool :=
  ((9 <=? c) && (c <=? 13)) || (c =? 32) || (c =? 160) || (c =? 5760)
  || ((8192 <=? c) && (c <=? 8202)) || (c =? 8232) || (c =? 8233)
  || (c =? 8239) || (c =? 8287) || (c =? 12288) || (c =? 65279).

Definition isComma (c : char) : bool := c =? 44.
Definition isPeriod (c : char) : bool := c =? 46.

(** The class [[\d,.]]. *)
Definition isAmountChar (c : char) : bool := isDigit c || isComma c || isPeriod c.

(** The class [[\d\s,.]], and its complement [[^\d\s,.]]. *)
Definition isAmountOrSpace (c : char) : bool :=
  isDigit c || isWhiteSpace c || isComma c || isPeriod c.
Definition isCurrencyChar (c : char) : bool := negb (isAmountOrSpace c).

(** The class [[^0-9.]] of the second script. *)
Definition isNotDigitOrPeriod (c : char) : bool := negb (isDigit c || isPeriod c).

Fixpoint dropWhile {A} (p : A -> bool) (l : list A) : list A :=
  match l with
  | [] => []
  | x :: t => if p x then dropWhile p t else l
  end.

Fixpoint takeWhile {A} (p : A -> bool) (l : list A) : list A :=
  match l with
  | [] => []
  | x :: t => if p x then x :: takeWhile p t else []
  end.

(** [s.trim()]. *)
Definition trim (s : jsstring) : jsstring :=
  rev (dropWhile isWhiteSpace (rev (dropWhile isWhiteSpace s))).

(** [s.match(/[cls]+/)]: without the [g] flag the result is the leftmost
    match, and [+] is greedy; [None] is JavaScript's [null], [Some m] the
    matched text [result[0]]. *)
Definition regexMatch (cls : char -> bool) (s : jsstring) : option jsstring :=
  match dropWhile (fun c => negb (cls c)) s with
  | [] => None
  | r => Some (takeWhile cls r)
  end.

(** [s.replace(/[cls]+/g, '')] and [s.replace(/[cls]/g, '')]: every character
    of the class is deleted. *)
Definition replaceAll (cls : char -> bool) (s : jsstring) : jsstring :=
  filter (fun c => negb (cls c)) s.

(** [a || d] where [a] is a string, [undefined] or [null]. *)
Definition orElse (a : option jsstring) (d : jsstring) : jsstring :=
  match a with
  | Some (c :: t) => c :: t
  | _ => d
  end.

Definition jsstring_eqb (a b : jsstring) : bool :=
  if list_eq_dec N.eq_dec a b then true else false.

(** ** JavaScript numbers, as far as prices need them

    A number is [NaN], positive infinity, or a finite binary64 value, which is
    a rational and is kept as such, in lowest terms.  Prices are never
    negative, so negative values and the sign of zero are left out. *)

Inductive number : Type :=
| NaN
| Infinity
| Num (q : Q).

Definition Qltb (x y : Q) : bool :=
  (Qnum x * Zpos (Qden y) <? Qnum y * Zpos (Qden x))%Z.

(** [a < b]: false as soon as one side is [NaN]. *)
Definition ltNumber (a b : number) : bool :=
  match a, b with
  | Num x, Num y => Qltb x y
  | Num _, Infinity => true
  | _, _ => false
  end.

(** [n / d] rounded to the nearest integer, a tie going to the even one. *)
Definition roundHalfEven (n d : Z) : Z :=
  let q := (n / d)%Z in
  let r := (n mod d)%Z in
  match (2 * r ?= d)%Z with
  | Lt => q
  | Gt => (q + 1)%Z
  | Eq => if Z.even q then q else (q + 1)%Z
  end.

(** The exponent [e] with [2^e <= n / d < 2^(e+1)], for positive [n], [d]. *)
Definition binade (n d : Z) : Z :=
  let e0 := (Z.log2 n - Z.log2 d)%Z in
  let reached :=
    if (0 <=? e0)%Z then (d * 2 ^ e0 <=? n)%Z else (d <=? n * 2 ^ (- e0))%Z in
  if reached then e0 else (e0 - 1)%Z.

(** From this value on a decimal rounds to infinity: the middle between the
    largest binary64, [(2^53 - 1) * 2^971], and [2^1024]. *)
Definition overflowThreshold : Q := inject_Z (2 ^ 1024 - 2 ^ 970).

(** The binary64 value of a non-negative rational: round to nearest, ties to
    even, with 53 bits of precision, the least exponent [-1074] of the
    subnormal numbers, and infinity on overflow. *)
Definition toDouble (x : Q) : number :=
  let n := Qnum x in
  let d := Zpos (Qden x) in
  if (n <=? 0)%Z then Num 0
  else if Qle_bool overflowThreshold x then Infinity
  else
    let p := Z.max (binade n d - 52) (- 1074) in
    if (0 <=? p)%Z
    then Num (Qred (inject_Z (roundHalfEven n (d * 2 ^ p) * 2 ^ p)))
    else Num (Qred (Qmake (roundHalfEven (n * 2 ^ (- p)) d)
                          (Z.to_pos (2 ^ (- p))))).

Definition digitValue (c : char) : N := c - 48.

Definition digitsValue (ds : list char) : N :=
  fold_left (fun acc c => 10 * acc + digitValue c) ds 0.

(** [parseFloat(s)] for [s] over digits and periods, which is all it is
    applied to here: the longest prefix of the form digits, digits [.]
    digits, digits [.] or [.] digits is read, and its decimal value is
    rounded to binary64; when there is no such prefix the result is [NaN]. *)
Definition parseFloat (s : jsstring) : number :=
  let intPart := takeWhile isDigit s in
  let fracPart :=
    match dropWhile isDigit s with
    | c :: r => if isPeriod c then takeWhile isDigit r else []
    | [] => []
    end in
  match intPart ++ fracPart with
  | [] => NaN
  | ds => toDouble (Qmake (Z.of_N (digitsValue ds))
                          (Z.to_pos (10 ^ Z.of_nat (List.length fracPart))))
  end.

(** [x || Infinity] on a number: [NaN] and [0] are falsy. *)
Definition orInfinity (x : number) : number :=
  match x with
  | NaN => Infinity
  | Infinity => Infinity
  | Num q => if Qeq_bool q 0 then Infinity else Num q
  end.

(** [getPriceNumeric] of [main] ([index.ts] and [index3.ts]). *)
Definition getPriceNumeric (price : jsstring) : number :=
  match regexMatch isAmountChar price with
  | Some m => parseFloat (replaceAll isComma m)
  | None => Infinity
  end.

(** The price of the second script of [index.ts]:
    [parseFloat(price.replace(/[^0-9.]/g, '')) || Infinity]. *)
Definition priceNumber2 (price : jsstring) : number :=
  orInfinity (parseFloat (replaceAll isNotDigitOrPeriod price)).

(** ** Price text

    The two regular-expression scans that the extractors apply to a price
    text. *)

(** [index.ts], lines 121-124: the price and the currency of a date item. *)
Definition priceAndCurrency (priceText : jsstring) : jsstring * jsstring :=
  let priceMatch := regexMatch isAmountChar priceText in
  let currencyMatch := regexMatch isCurrencyChar priceText in
  let price := match priceMatch with Some m => m | None => js "N/A" end in
  let currency := match currencyMatch with Some m => m | None => js "N/A" end in
  (price, currency).

(** [index.ts], lines 191-192 and 271-272, [index3.ts], lines 122-123: the
    currency of a flight card. *)
Definition currencyOf (price : jsstring) : jsstring :=
  let currencyMatch := regexMatch isCurrencyChar price in
  match currencyMatch with Some m => m | None => [] end.

(** ** Records of the source *)

Module DatePrice.
Record t : Type := mk {
  date : jsstring;
  weekday : jsstring;
  price : jsstring;
  currency : jsstring;
  isSelected : bool
}.
End DatePrice.

(** [FlightData]; [containerText] is the extra debugging property that only the
    objects of the alternative-selector extractor carry. *)
Module FlightData.
Record t : Type := mk {
  flightNumber : jsstring;
  departureTime : jsstring;
  arrivalTime : jsstring;
  price : jsstring;
  currency : jsstring;
  duration : jsstring;
  fromAirport : jsstring;
  toAirport : jsstring;
  containerText : option jsstring
}.
End FlightData.

(** The objects of [timeOptions]. *)
Module TimeOption.
Record t : Type := mk {
  departureTime : jsstring;
  arrivalTime : jsstring;
  price : jsstring;
  flightNumber : jsstring;
  fromCity : jsstring;
  toCity : jsstring
}.
End TimeOption.

(** The object of [additionalInfo]. *)
Module AdditionalInfo.
Record t : Type := mk {
  route : jsstring;
  directInfo : jsstring;
  dateInfo : jsstring;
  fromAirport : jsstring;
  toAirport : jsstring
}.
End AdditionalInfo.

Module FlightPriceResult.
Record t : Type := mk {
  flights : list FlightData.t;
  datePrices : list DatePrice.t
}.
End FlightPriceResult.

(** ** The cheapest flight of [main]

    The three scripts declare [FlightData] with different fields; the fold
    reads the [price] field only, so it is written once over the record type
    and its [price] projection. *)

Section Cheapest.
Variable Flight : Type.
Variable price : Flight -> jsstring.

(** The callback of [reduce] in [index.ts] and [index3.ts]:
    [priceA < priceB ? min : flight]. *)
Definition cheaper (min flight : Flight) : Flight :=
  let priceA := getPriceNumeric (price min) in
  let priceB := getPriceNumeric (price flight) in
  if ltNumber priceA priceB then min else flight.

(** [flights.reduce(...)] without an initial value, under the guard
    [flights.length > 0]; [None] is the branch that prints
    ['No flights found for this date.']. *)
Definition cheapestFlight (flights : list Flight) : option Flight :=
  match flights with
  | [] => None
  | first :: rest => Some (fold_left cheaper rest first)
  end.

(** The same fold in the second script of [index.ts], with its own price
    conversion. *)
Definition cheaper2 (min flight : Flight) : Flight :=
  let priceA := priceNumber2 (price min) in
  let priceB := priceNumber2 (price flight) in
  if ltNumber priceA priceB then min else flight.

Definition cheapestFlight2 (flights : list Flight) : option Flight :=
  match flights with
  | [] => None
  | first :: rest => Some (fold_left cheaper2 rest first)
  end.

End Cheapest.

Arguments cheaper {Flight} price min flight.
Arguments cheapestFlight {Flight} price flights.
Arguments cheaper2 {Flight} price min flight.
Arguments cheapestFlight2 {Flight} price flights.

(** ** Selectors *)

Module Sel.
Local Open Scope string_scope.

Definition dq : string := String (ascii_of_nat 34) EmptyString.

(** [[name="value"]] and [[name*="value"]]. *)
Definition attr (name value : string) : string :=
  "[" ++ name ++ "=" ++ dq ++ value ++ dq ++ "]".
Definition attrHas (name value : string) : string :=
  "[" ++ name ++ "*=" ++ dq ++ value ++ dq ++ "]".

Definition join (l : list string) : string := String.concat "," l.

Definition dateItem := ".date-item".
Definition dateItemSelected := "date-item--selected".
Definition dayOfMonth := ".date-item__day-of-month".
Definition month := ".date-item__month".
Definition dayOfWeek := ".date-item__day-of-week".
Definition datePrice := ".date-item__price".

Definition timeSlots := ".flight-header__min-price, .flight-info, .journey-info".
Definition hour := ".flight-info__hour".
Definition city := ".flight-info__city".
Definition slotPrice := ".price, .amount, .fare".
Definition flightNum := ".card-flight-num__content".

Definition flightCards :=
  attr "data-e2e" "flight-card" ++ ", .flight-card, .card-flight".
Definition departure :=
  attr "data-ref" "flight-segment.departure" ++ " .flight-info__hour".
Definition arrival :=
  attr "data-ref" "flight-segment.arrival" ++ " .flight-info__hour".
Definition cardPrice :=
  attr "data-e2e" "flight-card-price"
  ++ ", .flight-card__price, .card-flight__price, .price".
Definition cardDuration :=
  attr "data-ref" "flight_duration"
  ++ ", .flight-card__duration, .card-flight__duration, .flight-time".

Definition allFlightContainers :=
  "div" ++ attrHas "class" "flight" ++ ", div" ++ attrHas "class" "card"
  ++ ", tr" ++ attrHas "class" "flight" ++ ", div" ++ attrHas "class" "journey".
Definition timeSelectors :=
  [attrHas "class" "time"; attrHas "class" "hour"; "strong"; ".bold"].
Definition priceSelectors :=
  [attrHas "class" "price"; attrHas "class" "amount"; attrHas "class" "fare"].
Definition flightNumberSelectors :=
  [attrHas "class" "flight-number"; attrHas "class" "number";
   attrHas "class" "code"].
Definition airportSelectors :=
  [attrHas "class" "airport"; attrHas "class" "station"; attrHas "class" "code"].
Definition durationSelectors :=
  [attrHas "class" "duration"; attrHas "class" "time"; attrHas "class" "length"].

Definition route := ".flight-header__route, .route-title".
Definition direct := ".flight-header__stops, .flight-header__direct".
Definition headerDate := ".flight-header__date".
Definition fromCode :=
  ".flight-header__airport-code--from, .airport-code:first-child".
Definition toCode :=
  ".flight-header__airport-code--to, .airport-code:last-child".

End Sel.

(** ** The DOM query capability

    What the code asks of the rendered page: [querySelectorAll] under a scope
    (the matches in document order), the text of an element and class
    membership.  [document] is the scope of the whole page. *)

Class Dom : Type := {
  Element : Type;
  document : Element;
  querySelectorAll : Element -> string -> list Element;
  textContent : Element -> jsstring;
  classListContains : Element -> string -> bool
}.

Definition filterNotNull {A} (l : list (option A)) : list A :=
  flat_map (fun x => match x with Some a => [a] | None => [] end) l.

(** ** Outcomes of an [async] function

    An [async] function returns a value or rejects with an error.  The error
    that the pipeline raises on a rendered page is the [TimeoutError] of
    [page.waitForSelector]. *)

Inductive error : Type := TimeoutError.

Inductive outcome (A : Type) : Type :=
| Returned (a : A)
| Thrown (e : error).

Arguments Returned {A} a.
Arguments Thrown {A} e.

Section Extraction.
Context `{D : Dom}.

(** [scope.querySelector(selector)]: the first match, or [null]. *)
Definition querySelector (scope : Element) (selector : string) : option Element :=
  hd_error (querySelectorAll scope selector).

(** [e.textContent?.trim()] on an element. *)
Definition trimmedText (e : Element) : jsstring := trim (textContent e).

(** [l[i]?.textContent?.trim()]. *)
Definition textAt (l : list Element) (i : nat) : option jsstring :=
  option_map trimmedText (nth_error l i).

(** *** Date prices ([index.ts], lines 98-134) *)

(** Lines 119-120: the price text of a date item. *)
Definition datePriceText (item : Element) : jsstring :=
  match querySelector item Sel.datePrice with
  | Some priceElement => orElse (Some (trimmedText priceElement)) (js "N/A")
  | None => js "N/A"
  end.

Definition datePriceOf (item : Element) : DatePrice.t :=
  let isSelected := classListContains item Sel.dateItemSelected in
  let day :=
    match querySelector item Sel.dayOfMonth with
    | Some dayElement => orElse (Some (trimmedText dayElement)) []
    | None => []
    end in
  let month :=
    match querySelector item Sel.month with
    | Some monthElement => orElse (Some (trimmedText monthElement)) []
    | None => []
    end in
  let date := day ++ js " " ++ month in
  let weekday :=
    match querySelector item Sel.dayOfWeek with
    | Some weekdayElement => orElse (Some (trimmedText weekdayElement)) []
    | None => []
    end in
  let priceText := datePriceText item in
  let (price, currency) := priceAndCurrency priceText in
  DatePrice.mk date weekday price currency isSelected.

Definition datePrices : list DatePrice.t :=
  map datePriceOf (querySelectorAll document Sel.dateItem).

(** *** Time options of the selected date (lines 138-162) *)

Definition timeOptionOf (slot : Element) : TimeOption.t :=
  let times := querySelectorAll slot Sel.hour in
  let departureTime := orElse (textAt times 0) (js "N/A") in
  let arrivalTime := orElse (textAt times 1) (js "N/A") in
  let cities := querySelectorAll slot Sel.city in
  let fromCity := orElse (textAt cities 0) (js "N/A") in
  let toCity := orElse (textAt cities 1) (js "N/A") in
  let price :=
    match querySelector slot Sel.slotPrice with
    | Some priceElement => trimmedText priceElement
    | None => js "N/A"
    end in
  let flightNumber :=
    match querySelector slot Sel.flightNum with
    | Some flightElement => trimmedText flightElement
    | None => js "N/A"
    end in
  TimeOption.mk departureTime arrivalTime price flightNumber fromCity toCity.

Definition timeSlots : list Element := querySelectorAll document Sel.timeSlots.

Definition timeOptions : list TimeOption.t := map timeOptionOf timeSlots.

(** *** Flight cards (lines 171-208) *)

(** Lines 184-188: the price of a flight card. *)
Definition cardPriceText (card : Element) : jsstring :=
  match querySelector card Sel.cardPrice with
  | Some priceElement => orElse (Some (trimmedText priceElement)) (js "N/A")
  | None => js "N/A"
  end.

Definition flightOf (destination origin : jsstring) (card : Element)
  : FlightData.t :=
  let departureTime :=
    orElse (option_map trimmedText (querySelector card Sel.departure)) (js "N/A") in
  let arrivalTime :=
    orElse (option_map trimmedText (querySelector card Sel.arrival)) (js "N/A") in
  let flightNumber :=
    orElse (option_map trimmedText (querySelector card Sel.flightNum)) (js "N/A") in
  let price := cardPriceText card in
  let currency := currencyOf price in
  let duration :=
    orElse (option_map trimmedText (querySelector card Sel.cardDuration)) (js "N/A") in
  FlightData.mk flightNumber departureTime arrivalTime price currency duration
                origin destination None.

Definition flightCards : list Element := querySelectorAll document Sel.flightCards.

Definition cardFlights (destination origin : jsstring) : list FlightData.t :=
  map (flightOf destination origin) flightCards.

(** *** Alternative selectors (lines 218-288)

    [getText] and [getTextMultiSelector] are written in a writer monad whose
    log is the sequence of [querySelector] calls made, scope and selector, in
    the order they are made. *)

Definition Logged (A : Type) : Type := (A * list (Element * string))%type.

Definition ret {A} (a : A) : Logged A := (a, []).

Definition bind {A B} (m : Logged A) (k : A -> Logged B) : Logged B :=
  let (a, l1) := m in
  let (b, l2) := k a in
  (b, l1 ++ l2).

Definition value {A} (m : Logged A) : A := fst m.
Definition queries {A} (m : Logged A) : list (Element * string) := snd m.

Definition loggedQuerySelector (scope : Element) (selector : string)
  : Logged (option Element) :=
  (querySelector scope selector, [(scope, selector)]).

Definition getText (container : Element) (selector : string)
  : Logged (option jsstring) :=
  bind (loggedQuerySelector container selector) (fun element =>
  ret (match element with
       | Some e => Some (trimmedText e)
       | None => None
       end)).

Fixpoint getTextMultiSelector (container : Element) (selectors : list string)
  : Logged jsstring :=
  match selectors with
  | [] => ret (js "N/A")
  | selector :: more =>
      bind (getText container selector) (fun text =>
      match text with
      | Some (c :: t) => ret (c :: t)
      | _ => getTextMultiSelector container more
      end)
  end.

Definition alternativeFlightOf (container : Element) : option FlightData.t :=
  let hasTime := querySelector container (Sel.join Sel.timeSelectors) in
  let hasPrice := querySelector container (Sel.join Sel.priceSelectors) in
  match hasTime, hasPrice with
  | Some _, Some _ =>
      let times := querySelectorAll container (Sel.join Sel.timeSelectors) in
      let departureTime := orElse (textAt times 0) (js "N/A") in
      let arrivalTime :=
        match times with
        | _ :: second :: _ => trimmedText second
        | _ => js "N/A"
        end in
      let price := value (getTextMultiSelector container Sel.priceSelectors) in
      let flightNumber :=
        value (getTextMultiSelector container Sel.flightNumberSelectors) in
      let airports := querySelectorAll container (Sel.join Sel.airportSelectors) in
      let fromAirport := orElse (textAt airports 0) (js "N/A") in
      let toAirport :=
        match airports with
        | _ :: second :: _ => trimmedText second
        | _ => js "N/A"
        end in
      let duration := value (getTextMultiSelector container Sel.durationSelectors) in
      let currency := currencyOf price in
      Some (FlightData.mk flightNumber departureTime arrivalTime price currency
                          duration fromAirport toAirport
                          (Some (firstn 100 (trimmedText container))))
  | _, _ => None
  end.

Definition allFlightContainers : list Element :=
  querySelectorAll document Sel.allFlightContainers.

Definition moreFlights : list FlightData.t :=
  filterNotNull (map alternativeFlightOf allFlightContainers).

(** Lines 211-294: [flights] after the block guarded by [flights.length === 0]. *)
Definition withAlternative (flights : list FlightData.t) : list FlightData.t :=
  if (List.length flights =? 0)%nat then
    if (0 <? List.length moreFlights)%nat then flights ++ moreFlights else flights
  else flights.

(** *** The selected date price (lines 297-337) *)

Definition additionalInfo : AdditionalInfo.t :=
  let text (selector : string) :=
    match querySelector document selector with
    | Some e => trimmedText e
    | None => []
    end in
  AdditionalInfo.mk (text Sel.route) (text Sel.direct) (text Sel.headerDate)
                    (text Sel.fromCode) (text Sel.toCode).

Definition genericFlight (origin destination : jsstring)
  (selectedDatePrice : DatePrice.t) : FlightData.t :=
  FlightData.mk
    (orElse (Some (AdditionalInfo.directInfo additionalInfo)) (js "Direct"))
    (js "Check website")
    (js "Check website")
    (DatePrice.price selectedDatePrice)
    (replaceAll isAmountOrSpace (DatePrice.price selectedDatePrice))
    (js "Check website")
    (orElse (Some (AdditionalInfo.fromAirport additionalInfo)) origin)
    (orElse (Some (AdditionalInfo.toAirport additionalInfo)) destination)
    None.

Definition withSelectedDatePrice (origin destination : jsstring)
  (flights : list FlightData.t) : list FlightData.t :=
  if (List.length flights =? 0)%nat && (0 <? List.length datePrices)%nat then
    match find DatePrice.isSelected datePrices with
    | Some selectedDatePrice =>
        flights ++ [genericFlight origin destination selectedDatePrice]
    | None => flights
    end
  else flights.

(** *** Time options in place of the generic entry (lines 340-357) *)

Definition flightOfTimeOption (origin destination : jsstring)
  (option : TimeOption.t) : FlightData.t :=
  FlightData.mk
    (orElse (Some (TimeOption.flightNumber option)) (js "Direct flight"))
    (TimeOption.departureTime option)
    (TimeOption.arrivalTime option)
    (TimeOption.price option)
    (orElse (Some (replaceAll isAmountOrSpace (TimeOption.price option))) (js "Ft"))
    (js "See website")
    origin
    destination
    None.

(** The condition of line 340. *)
Definition onlyGenericEntry (flights : list FlightData.t) : bool :=
  (List.length flights =? 1)%nat
  && match flights with
     | first :: _ =>
         jsstring_eqb (FlightData.departureTime first) (js "Check website")
     | [] => false
     end
  && (0 <? List.length timeOptions)%nat.

Definition withTimeOptions (origin destination : jsstring)
  (flights : list FlightData.t) : list FlightData.t :=
  if onlyGenericEntry flights
  then map (flightOfTimeOption origin destination) timeOptions
  else flights.

(** *** The extraction of [checkRyanairPrice] (lines 96-365)

    The value of [{ flights, datePrices }] at the [return] of line 362, as
    the [page.evaluate] blocks and the blocks between them compute it from
    the rendered page. *)

Definition extractResult (origin destination : jsstring)
  : FlightPriceResult.t :=
  let flights := cardFlights destination origin in
  let flights := withAlternative flights in
  let flights := withSelectedDatePrice origin destination flights in
  let flights := withTimeOptions origin destination flights in
  FlightPriceResult.mk flights datePrices.

(** *** [checkRyanairPrice] (lines 45-374)

    [await page.waitForSelector(selector, { timeout })] returns the element
    once one matches the selector and rejects with [TimeoutError] when none
    does within the timeout.  The page is taken at rest: the document that
    the wait looks at is the one that the extraction reads. *)

Definition waitForSelector (selector : string) : outcome Element :=
  match querySelector document selector with
  | Some element => Returned element
  | None => Thrown TimeoutError
  end.

(** Line 94 waits for a date price before anything is extracted; the [catch]
    of line 366 logs the error and throws it again.  Launching the browser,
    the navigation and the cookie dialog, whose own errors are caught at line
    85, come before and are not modelled. *)

Definition checkRyanairPrice (origin destination : jsstring)
  : outcome FlightPriceResult.t :=
  match waitForSelector Sel.datePrice with
  | Returned _ => Returned (extractResult origin destination)
  | Thrown e => Thrown e
  end.

(** The files written by a run: the screenshot of line 215, taken past the
    wait when no flight card was found. *)

Definition screenshots (origin destination : jsstring) : list string :=
  match waitForSelector Sel.datePrice with
  | Returned _ =>
      if (List.length (cardFlights destination origin) =? 0)%nat
      then ["ryanair-debug.png"%string]
      else []
  | Thrown _ => []
  end.

End Extraction.

(** ** The variant of [index3.ts] *)

Module Index3.

Module DatePrice.
Record t : Type := mk {
  date : jsstring;
  day : jsstring;
  price : jsstring;
  isSelected : bool
}.
End DatePrice.

Module FlightData.
Record t : Type := mk {
  flightNumber : jsstring;
  departureTime : jsstring;
  arrivalTime : jsstring;
  price : jsstring;
  currency : jsstring;
  duration : jsstring
}.
End FlightData.

Module FlightPriceResult.
Record t : Type := mk {
  flights : list FlightData.t;
  datePrices : list DatePrice.t
}.
End FlightPriceResult.

Module Sel3.
Local Open Scope string_scope.
Definition dayMonth := ".date-item__day-month".
Definition day := ".date-item__day".
Definition flightCards := Sel.attr "data-e2e" "flight-card" ++ ", .flight-card".
Definition departure :=
  Sel.attr "data-e2e" "flight-card-departure-time"
  ++ ", .flight-card__departure-time".
Definition arrival :=
  Sel.attr "data-e2e" "flight-card-arrival-time" ++ ", .flight-card__arrival-time".
Definition flightNumber :=
  Sel.attr "data-e2e" "flight-card-flight-number"
  ++ ", .flight-card__flight-number".
Definition price := Sel.attr "data-e2e" "flight-card-price" ++ ", .flight-card__price".
Definition duration :=
  Sel.attr "data-e2e" "flight-card-duration" ++ ", .flight-card__duration".
End Sel3.

Section Extraction.
Context `{D : Dom}.

(** Lines 85-100. *)
Definition datePriceOf (item : Element) : DatePrice.t :=
  let isSelected := classListContains item Sel.dateItemSelected in
  let date :=
    orElse (option_map trimmedText (querySelector item Sel3.dayMonth)) [] in
  let day := orElse (option_map trimmedText (querySelector item Sel3.day)) [] in
  let price :=
    orElse (option_map trimmedText (querySelector item Sel.datePrice)) (js "N/A") in
  DatePrice.mk date day price isSelected.

Definition datePrices : list DatePrice.t :=
  map datePriceOf (querySelectorAll document Sel.dateItem).

(** Lines 106-138. *)
Definition flightOf (card : Element) : FlightData.t :=
  let departureTime :=
    orElse (option_map trimmedText (querySelector card Sel3.departure)) (js "N/A") in
  let arrivalTime :=
    orElse (option_map trimmedText (querySelector card Sel3.arrival)) (js "N/A") in
  let flightNumber :=
    orElse (option_map trimmedText (querySelector card Sel3.flightNumber))
           (js "N/A") in
  let priceText :=
    orElse (option_map trimmedText (querySelector card Sel3.price)) (js "N/A") in
  let currency := currencyOf priceText in
  let price := priceText in
  let duration :=
    orElse (option_map trimmedText (querySelector card Sel3.duration)) (js "N/A") in
  FlightData.mk flightNumber departureTime arrivalTime price currency duration.

Definition cardFlights : list FlightData.t :=
  map flightOf (querySelectorAll document Sel3.flightCards).

(** Lines 141-155. *)
Definition genericFlight (selectedDatePrice : DatePrice.t) : FlightData.t :=
  FlightData.mk (js "N/A") (js "N/A") (js "N/A")
                (DatePrice.price selectedDatePrice)
                (replaceAll isAmountOrSpace (DatePrice.price selectedDatePrice))
                (js "N/A").

Definition withSelectedDatePrice (flights : list FlightData.t)
  : list FlightData.t :=
  if (List.length flights =? 0)%nat && (0 <? List.length datePrices)%nat then
    match find DatePrice.isSelected datePrices with
    | Some selectedDatePrice => flights ++ [genericFlight selectedDatePrice]
    | None => flights
    end
  else flights.

(** The extraction of [checkRyanairPrice] (lines 83-163). *)
Definition extractResult : FlightPriceResult.t :=
  FlightPriceResult.mk (withSelectedDatePrice cardFlights) datePrices.

(** [checkRyanairPrice] (lines 35-172): the wait of line 81 for a date price,
    then the extraction; the [catch] of line 164 throws the error again. *)
Definition checkRyanairPrice : outcome FlightPriceResult.t :=
  match waitForSelector Sel.datePrice with
  | Returned _ => Returned extractResult
  | Thrown e => Thrown e
  end.

End Extraction.
End Index3.

(** ** The extraction of the second script of [index.ts] (lines 571-604)

    The flight cards of the results page that the second script reaches
    through the search form.  The wait for [.flight-card__wrapper] of line 560
    precedes it and is not modelled. *)

Module Script2.

Module FlightData.
Record t : Type := mk {
  flightNumber : jsstring;
  departureTime : jsstring;
  arrivalTime : jsstring;
  price : jsstring;
  currency : jsstring
}.
End FlightData.

Module Sel2.
Local Open Scope string_scope.
Definition wrapper := ".flight-card__wrapper".
Definition time := ".flight-card__time".
Definition flightNumber := ".flight-card__flight-number".
Definition price := ".flight-card-summary__price".
Definition currency := ".price__currency".
End Sel2.

(** The pound sign, U+00A3. *)
Definition pound : jsstring := [163].

Section Extraction.
Context `{D : Dom}.

Definition flightOf (card : Element) : FlightData.t :=
  let times := querySelectorAll card Sel2.time in
  let departureTime := orElse (textAt times 0) (js "N/A") in
  let arrivalTime := orElse (textAt times 1) (js "N/A") in
  let flightNumber :=
    orElse (option_map trimmedText (querySelector card Sel2.flightNumber))
           (js "N/A") in
  let price :=
    match querySelector card Sel2.price with
    | Some priceElement => orElse (Some (trimmedText priceElement)) (js "N/A")
    | None => js "N/A"
    end in
  let currency :=
    orElse (option_map trimmedText (querySelector card Sel2.currency)) pound in
  FlightData.mk flightNumber departureTime arrivalTime price currency.

Definition flightCards : list Element := querySelectorAll document Sel2.wrapper.

Definition flights : list FlightData.t := map flightOf flightCards.

End Extraction.
End Script2.

(** ** The card cascade of the page analysis script

    The loop over [cardSelectors]: the matches of the first selector that has
    any, with that selector, and the log of the selectors queried. *)

Section CardCascade.
Context `{D : Dom}.

Fixpoint cardCascade (cardSelectors : list string)
  : Logged (list Element * string) :=
  match cardSelectors with
  | [] => ret ([], EmptyString)
  | selector :: more =>
      let elements := querySelectorAll document selector in
      bind (elements, [(document, selector)]) (fun elements =>
      if (0 <? List.length elements)%nat then ret (elements, selector)
      else cardCascade more)
  end.

End CardCascade.

(** ** Tag names and class attributes

    The selector of line 220,
    [div[class*="flight"], div[class*="card"], tr[class*="flight"],
    div[class*="journey"]], reads the tag name and the [class] attribute of
    the elements: [div[class*="flight"]] matches the [div] elements whose
    [class] attribute has the substring [flight], and a list of selectors
    matches the elements that match one of its members, in document order. *)

Class Markup `{D : Dom} : Type := {
  allElements : list Element;
  localName : Element -> string;
  className : Element -> string
}.

(** [part] is a substring of [whole]. *)
Fixpoint contains (part whole : string) : bool :=
  String.prefix part whole
  || match whole with
     | EmptyString => false
     | String _ rest => contains part rest
     end.

Section Containers.
Context `{M : Markup}.
Local Open Scope string_scope.

(** The elements that the selector of line 220 matches. *)
Definition isFlightContainer (e : Element) : bool :=
  (String.eqb (localName e) "div" && contains "flight" (className e))
  || (String.eqb (localName e) "div" && contains "card" (className e))
  || (String.eqb (localName e) "tr" && contains "flight" (className e))
  || (String.eqb (localName e) "div" && contains "journey" (className e)).

(** [querySelectorAll] answers the selector of line 220 by the markup. *)
Definition containersByMarkup : Prop :=
  querySelectorAll document Sel.allFlightContainers
  = filter isFlightContainer allElements.

(** The scanned elements in the words of the specification: all elements
    whose class attribute contains a flight, card or journey token. *)
Definition hasFlightLikeClass (e : Element) : bool :=
  contains "flight" (className e) || contains "card" (className e)
  || contains "journey" (className e).

End Containers.

(** ** The scans as the specification words them

    The specification describes both scans of a price text as taking the
    longest contiguous run of the class.  [longestRun] follows those words:
    all maximal runs, left to right, and the longest of them (the earliest
    when several are longest); the empty string when there is none. *)

Fixpoint runsFrom (cls : char -> bool) (current : jsstring) (s : jsstring)
  : list jsstring :=
  match s with
  | [] => match current with [] => [] | _ => [rev current] end
  | c :: t =>
      if cls c then runsFrom cls (c :: current) t
      else match current with
           | [] => runsFrom cls [] t
           | _ => rev current :: runsFrom cls [] t
           end
  end.

Definition longestRun (cls : char -> bool) (s : jsstring) : jsstring :=
  fold_left (fun best r => if (List.length best <? List.length r)%nat then r else best)
            (runsFrom cls [] s) [].

(** [parseMoney] in the words of the specification: amount and currency
    symbol. *)
Definition parseMoneySpec (text : jsstring) : jsstring * jsstring :=
  (match longestRun isAmountChar text with [] => js "N/A" | r => r end,
   longestRun isCurrencyChar text).

(** [r] is the leftmost maximal run of the class [cls] in [text], or [dflt]
    when no character of [text] is in the class. *)
Definition leftmostRun (cls : char -> bool) (text r dflt : jsstring) : Prop :=
  (exists before after,
      text = before ++ r ++ after
      /\ Forall (fun c => cls c = false) before
      /\ r <> []
      /\ Forall (fun c => cls c = true) r
      /\ (after = [] \/ exists c rest, after = c :: rest /\ cls c = false))
  \/ (Forall (fun c => cls c = false) text /\ r = dflt).

(** ** Sample pages and offers

    A page is given by tables: the matches of a selector under a node, the
    text of a node, the classes of a node.  Node [0] is the document. *)

Module Sample.
Local Open Scope string_scope.
Local Open Scope nat_scope.

Record Page : Type := {
  matches : list (nat * string * list nat);
  texts : list (nat * string);
  classes : list (nat * string)
}.

Definition pageQuery (p : Page) (scope : nat) (selector : string) : list nat :=
  match find (fun e => Nat.eqb (fst (fst e)) scope && String.eqb (snd (fst e)) selector)
             (matches p) with
  | Some e => snd e
  | None => nil
  end.

Definition pageText (p : Page) (e : nat) : jsstring :=
  match find (fun x => Nat.eqb (fst x) e) (texts p) with
  | Some x => js (snd x)
  | None => nil
  end.

Definition pageHasClass (p : Page) (e : nat) (c : string) : bool :=
  existsb (fun x => Nat.eqb (fst x) e && String.eqb (snd x) c) (classes p).

Definition domOf (p : Page) : Dom :=
  {| Element := nat;
     document := 0;
     querySelectorAll := pageQuery p;
     textContent := pageText p;
     classListContains := pageHasClass p |}.

(** The markup of a page: its elements in document order, each with its tag
    name and its class attribute. *)
Definition markupOf (p : Page) (elements : list (nat * (string * string)))
  : Markup (D := domOf p) :=
  @Build_Markup (domOf p)
    (map fst elements)
    (fun e : nat =>
       match find (fun x => Nat.eqb (fst x) e) elements with
       | Some x => fst (snd x)
       | None => EmptyString
       end)
    (fun e : nat =>
       match find (fun x => Nat.eqb (fst x) e) elements with
       | Some x => snd (snd x)
       | None => EmptyString
       end).

(** Nothing matches. *)
Definition emptyPage : Page := {| matches := nil; texts := nil; classes := nil |}.

(** A date price and nothing else.

      <span class="date-item__price">45 Ft</span> *)
Definition pricesOnlyPage : Page :=
  {| matches := (0, Sel.datePrice, 1 :: nil) :: nil;
     texts := (1, "45 Ft") :: nil;
     classes := nil |}.

(** Two date items, the second selected; no flight card, no time slot.
    Nodes are numbered in the order of the tables.

      <li class="date-item">
        <span class="date-item__price">89 Ft</span></li>
      <li class="date-item date-item--selected">
        <span class="date-item__day-of-month">22</span>
        <span class="date-item__month">Aug</span>
        <span class="date-item__price"> 45 Ft </span></li> *)
Definition datesPage : Page :=
  {| matches :=
       (0, Sel.dateItem, 1 :: 2 :: nil)
       :: (0, Sel.datePrice, 3 :: 4 :: nil)
       :: (1, Sel.datePrice, 3 :: nil)
       :: (2, Sel.datePrice, 4 :: nil)
       :: (2, Sel.dayOfMonth, 5 :: nil)
       :: (2, Sel.month, 6 :: nil)
       :: nil;
     texts := (3, "89 Ft") :: (4, " 45 Ft ") :: (5, "22") :: (6, "Aug") :: nil;
     classes := (2, Sel.dateItemSelected) :: nil |}.

(** The same date strip, and the airport code of the origin in the header.

      <span class="flight-header__airport-code--from"> LHBP </span> *)
Definition headerPage : Page :=
  {| matches := matches datesPage ++ (0, Sel.fromCode, 7 :: nil) :: nil;
     texts := texts datesPage ++ (7, " LHBP ") :: nil;
     classes := classes datesPage |}.

(** The same date strip, and two time slots.

      <section class="journey-info">
        <span class="flight-info__hour">06:10</span>
        <span class="flight-info__hour">08:05</span>
        <span class="price">52 Ft</span></section>
      <section class="journey-info">
        <span class="flight-info__hour">17:40</span>
        <span class="flight-info__hour">19:35</span></section> *)
Definition slotsPage : Page :=
  {| matches :=
       matches datesPage
       ++ (0, Sel.timeSlots, 7 :: 8 :: nil)
       :: (7, Sel.hour, 9 :: 10 :: nil)
       :: (8, Sel.hour, 11 :: 12 :: nil)
       :: (7, Sel.slotPrice, 13 :: nil)
       :: (7, Sel.join Sel.timeSelectors, 9 :: 10 :: nil)
       :: (8, Sel.join Sel.timeSelectors, 11 :: 12 :: nil)
       :: (7, Sel.join Sel.priceSelectors, 13 :: nil)
       :: nil;
     texts :=
       texts datesPage
       ++ (9, "06:10") :: (10, "08:05") :: (11, "17:40") :: (12, "19:35")
       :: (13, "52 Ft") :: nil;
     classes := classes datesPage |}.

(** No flight card; two candidate containers, the first with time-like and
    price-like elements, the second with a time-like element only; one date
    item, not selected.

      <div class="flight-row">
        <span class="dep-time">06:10</span> <span class="arr-time">08:05</span>
        <span class="amount">45 Ft</span></div>
      <div class="card-banner"><strong>Flights</strong></div>
      <li class="date-item">
        <span class="date-item__price">45 Ft</span></li> *)
Definition containersPage : Page :=
  {| matches :=
       (0, Sel.allFlightContainers, 1 :: 5 :: nil)
       :: (1, Sel.join Sel.timeSelectors, 2 :: 3 :: nil)
       :: (1, Sel.join Sel.priceSelectors, 4 :: nil)
       :: (1, Sel.attrHas "class" "amount", 4 :: nil)
       :: (1, Sel.attrHas "class" "time", 2 :: 3 :: nil)
       :: (5, Sel.join Sel.timeSelectors, 6 :: nil)
       :: (0, Sel.dateItem, 7 :: nil)
       :: (0, Sel.datePrice, 8 :: nil)
       :: (7, Sel.datePrice, 8 :: nil)
       :: nil;
     texts :=
       (1, "06:10 08:05 45 Ft") :: (2, "06:10") :: (3, "08:05") :: (4, "45 Ft")
       :: (5, "Flights") :: (6, "Flights") :: (8, "45 Ft") :: nil;
     classes := nil |}.

(** Two flight cards, a time slot, and one date item, not selected.

      <div class="flight-card">
        <div data-ref="flight-segment.departure">
          <span class="flight-info__hour">06:10</span></div>
        <div data-ref="flight-segment.arrival">
          <span class="flight-info__hour">08:05</span></div>
        <span class="flight-card__price"> 89 Ft </span></div>
      <div class="flight-card">
        <span class="flight-card__price">45 Ft</span></div>
      <section class="journey-info"></section>
      <li class="date-item">
        <span class="date-item__price">45 Ft</span></li> *)
Definition cardsPage : Page :=
  {| matches :=
       (0, Sel.flightCards, 1 :: 2 :: nil)
       :: (1, Sel.cardPrice, 3 :: nil)
       :: (2, Sel.cardPrice, 4 :: nil)
       :: (1, Sel.departure, 5 :: nil)
       :: (1, Sel.arrival, 6 :: nil)
       :: (0, Sel.timeSlots, 7 :: nil)
       :: (0, Sel.allFlightContainers, 1 :: 2 :: nil)
       :: (0, Sel.dateItem, 8 :: nil)
       :: (0, Sel.datePrice, 9 :: nil)
       :: (8, Sel.datePrice, 9 :: nil)
       :: nil;
     texts :=
       (3, " 89 Ft ") :: (4, "45 Ft") :: (5, "06:10") :: (6, "08:05")
       :: (9, "45 Ft") :: nil;
     classes := nil |}.

(** One flight card whose departure-time element reads [Check website], a
    time slot, and one date item, not selected.

      <div class="flight-card">
        <span class="flight-card__price">45 Ft</span>
        <div data-ref="flight-segment.departure">
          <span class="flight-info__hour">Check website</span></div></div>
      <section class="journey-info"></section>
      <li class="date-item">
        <span class="date-item__price">45 Ft</span></li> *)
Definition placeholderCardPage : Page :=
  {| matches :=
       (0, Sel.flightCards, 1 :: nil)
       :: (1, Sel.cardPrice, 2 :: nil)
       :: (1, Sel.departure, 3 :: nil)
       :: (0, Sel.timeSlots, 4 :: nil)
       :: (0, Sel.allFlightContainers, 1 :: nil)
       :: (0, Sel.dateItem, 5 :: nil)
       :: (0, Sel.datePrice, 6 :: nil)
       :: (5, Sel.datePrice, 6 :: nil)
       :: nil;
     texts := (2, "45 Ft") :: (3, "Check website") :: (6, "45 Ft") :: nil;
     classes := nil |}.

(** Two flight cards, priced [45 Ft] and [n.a.], and one date item, not
    selected.

      <div class="flight-card">
        <span class="flight-card__price">45 Ft</span></div>
      <div class="flight-card">
        <span class="flight-card__price">n.a.</span></div>
      <li class="date-item">
        <span class="date-item__price">45 Ft</span></li> *)
Definition unparsablePage : Page :=
  {| matches :=
       (0, Sel.flightCards, 1 :: 2 :: nil)
       :: (1, Sel.cardPrice, 3 :: nil)
       :: (2, Sel.cardPrice, 4 :: nil)
       :: (0, Sel.allFlightContainers, 1 :: 2 :: nil)
       :: (0, Sel.dateItem, 5 :: nil)
       :: (0, Sel.datePrice, 6 :: nil)
       :: (5, Sel.datePrice, 6 :: nil)
       :: nil;
     texts := (3, "45 Ft") :: (4, "n.a.") :: (6, "45 Ft") :: nil;
     classes := nil |}.

(** Two cards of the results page of the second script.

      <div class="flight-card__wrapper">
        <span class="flight-card__time">06:10</span>
        <span class="flight-card__time">08:05</span>
        <span class="flight-card-summary__price">45.99</span></div>
      <div class="flight-card__wrapper">
        <span class="flight-card-summary__price">free</span></div> *)
Definition wrappersPage : Page :=
  {| matches :=
       (0, Script2.Sel2.wrapper, 1 :: 2 :: nil)
       :: (1, Script2.Sel2.time, 3 :: 4 :: nil)
       :: (1, Script2.Sel2.price, 5 :: nil)
       :: (2, Script2.Sel2.price, 6 :: nil)
       :: nil;
     texts := (3, "06:10") :: (4, "08:05") :: (5, "45.99") :: (6, "free") :: nil;
     classes := nil |}.

(** A date strip with three items, the second and the third both marked
    selected.

      <li class="date-item">
        <span class="date-item__price">89 Ft</span></li>
      <li class="date-item date-item--selected">
        <span class="date-item__price">45 Ft</span></li>
      <li class="date-item date-item--selected">
        <span class="date-item__price">30 Ft</span></li> *)
Definition twoSelectedPage : Page :=
  {| matches :=
       (0, Sel.dateItem, 1 :: 2 :: 3 :: nil)
       :: (0, Sel.datePrice, 4 :: 5 :: 6 :: nil)
       :: (1, Sel.datePrice, 4 :: nil)
       :: (2, Sel.datePrice, 5 :: nil)
       :: (3, Sel.datePrice, 6 :: nil)
       :: nil;
     texts := (4, "89 Ft") :: (5, "45 Ft") :: (6, "30 Ft") :: nil;
     classes := (2, Sel.dateItemSelected) :: (3, Sel.dateItemSelected) :: nil |}.

(** The elements of the page with time slots. *)
Definition slotsMarkup : Markup (D := domOf slotsPage) :=
  markupOf slotsPage
    ((1, ("li", "date-item"))
     :: (3, ("span", "date-item__price"))
     :: (2, ("li", "date-item date-item--selected"))
     :: (5, ("span", "date-item__day-of-month"))
     :: (6, ("span", "date-item__month"))
     :: (4, ("span", "date-item__price"))
     :: (7, ("section", "journey-info"))
     :: (9, ("span", "flight-info__hour"))
     :: (10, ("span", "flight-info__hour"))
     :: (13, ("span", "price"))
     :: (8, ("section", "journey-info"))
     :: (11, ("span", "flight-info__hour"))
     :: (12, ("span", "flight-info__hour"))
     :: nil).

(** The elements of the page of two containers. *)
Definition containersMarkup : Markup (D := domOf containersPage) :=
  markupOf containersPage
    ((1, ("div", "flight-row"))
     :: (2, ("span", "dep-time"))
     :: (3, ("span", "arr-time"))
     :: (4, ("span", "amount"))
     :: (5, ("div", "card-banner"))
     :: (6, ("strong", EmptyString))
     :: (7, ("li", "date-item"))
     :: (8, ("span", "date-item__price"))
     :: nil).

Definition twoSelectedDom : Dom := domOf twoSelectedPage.
Definition pricesOnlyDom : Dom := domOf pricesOnlyPage.
Definition headerDom : Dom := domOf headerPage.
Definition wrappersDom : Dom := domOf wrappersPage.
Definition emptyDom : Dom := domOf emptyPage.
Definition unparsableDom : Dom := domOf unparsablePage.
Definition datesDom : Dom := domOf datesPage.
Definition slotsDom : Dom := domOf slotsPage.
Definition containersDom : Dom := domOf containersPage.
Definition cardsDom : Dom := domOf cardsPage.
Definition placeholderCardDom : Dom := domOf placeholderCardPage.

Definition offer (number price : string) : FlightData.t :=
  FlightData.mk (js number) (js "06:10") (js "08:05") (js price) (js "Ft")
                (js "N/A") (js "BUD") (js "MAN") None.

Definition threeOffers : list FlightData.t :=
  offer "FR 1" "89 Ft" :: offer "FR 2" "45 Ft" :: offer "FR 3" "N/A" :: nil.

Definition tiedOffers : list FlightData.t :=
  offer "FR 1" "45 Ft" :: offer "FR 2" "45 Ft" :: nil.

Definition unparsableOffers : list FlightData.t :=
  offer "FR 1" "45 Ft" :: offer "FR 2" "n.a." :: nil.

End Sample.

(** ** Predicates used in the statements *)

(** Order of two price values, neither of which is [NaN]. *)
Definition numLe (a b : number) : Prop := ltNumber b a = false.
Definition numLt (a b : number) : Prop := ltNumber a b = true.

Section Predicates.
Context `{D : Dom}.

(** The strategy [selector] matches an element under [container] and the
    trimmed text of its first match is [text], which is not empty. *)
Definition yieldsText (container : Element) (selector : string) (text : jsstring)
  : Prop :=
  exists e, querySelector container selector = Some e
            /\ trimmedText e = text /\ text <> [].

(** The strategy matches nothing, or its first match has no text. *)
Definition yieldsNothing (container : Element) (selector : string) : Prop :=
  querySelector container selector = None
  \/ exists e, querySelector container selector = Some e /\ trimmedText e = [].

(** The two-feature test: a time-like and a price-like element under
    [container]. *)
Definition hasTimeAndPrice (container : Element) : bool :=
  match querySelectorAll container (Sel.join Sel.timeSelectors),
        querySelectorAll container (Sel.join Sel.priceSelectors) with
  | _ :: _, _ :: _ => true
  | _, _ => false
  end.

(** The offers of the first tier: the flight cards, or else the containers
    found by the alternative selectors. *)
Definition tier1 (origin destination : jsstring) : list FlightData.t :=
  withAlternative (cardFlights destination origin).

(** The offers after the second tier. *)
Definition tier2 (origin destination : jsstring) : list FlightData.t :=
  withSelectedDatePrice origin destination (tier1 origin destination).

(** The airport texts that the alternative-selector extractor reads under a
    container. *)
Definition scrapedAirports (container : Element) : jsstring * jsstring :=
  let airports := querySelectorAll container (Sel.join Sel.airportSelectors) in
  (orElse (textAt airports 0) (js "N/A"),
   match airports with
   | _ :: second :: _ => trimmedText second
   | _ => js "N/A"
   end).

End Predicates.

(** ** The day cell of the date picker (second script of [index.ts])

    Line 505 splits the date at the hyphens and reads each part with
    [parseInt]; line 542 builds from the three numbers the selector of the
    day cell.  The navigation of the calendar between the two lines does not
    change them and is not modelled. *)

(** [s.split(sep)] for a separator of one code unit; [current] is the part
    being read, in reverse. *)
Fixpoint splitOn (sep : char) (current : jsstring) (s : jsstring)
  : list jsstring :=
  match s with
  | [] => [rev current]
  | c :: t =>
      if c =? sep then rev current :: splitOn sep [] t
      else splitOn sep (c :: current) t
  end.

(** The values of [parseInt]: [NaN], an infinity, or an integer that
    binary64 holds.  The sign of zero does not show in [toString()] and is
    left out. *)
Inductive integerNumber : Type :=
| NaNInt
| InfinityInt (negative : bool)
| Integer (z : Z).

(** [parseInt(s, 10)]: leading white space, a sign, then the longest run of
    digits, whose value is rounded to binary64. *)
Definition parseInt (s : jsstring) : integerNumber :=
  let s := dropWhile isWhiteSpace s in
  let (negative, s) :=
    match s with
    | c :: t => if c =? 45 then (true, t) else if c =? 43 then (false, t)
                else (false, s)
    | [] => (false, s)
    end in
  match takeWhile isDigit s with
  | [] => NaNInt
  | ds =>
      match toDouble (inject_Z (Z.of_N (digitsValue ds))) with
      | Num q =>
          let z := (Qnum q / Zpos (Qden q))%Z in
          Integer (if negative then (- z)%Z else z)
      | Infinity => InfinityInt negative
      | NaN => NaNInt
      end
  end.

(** The decimal digits of an integer. *)
Definition decimalDigits (z : Z) : jsstring :=
  js (NilZero.string_of_int (Z.to_int z)).

(** The decimal [v] is read as the binary64 integer [z]. *)
Definition readsAs (z v : Z) : bool :=
  match toDouble (inject_Z v) with
  | Num q => Qeq_bool q (inject_Z z)
  | _ => false
  end.

(** Among the decimals of [k] significant digits, the one nearest to [z]
    that is read as [z], when there is one: it is one of the two that
    enclose [z]; [digits] is the number of digits of [z]. *)
Definition candidate (z : Z) (digits k : nat) : option Z :=
  let unit := (10 ^ Z.of_nat (digits - k))%Z in
  let low := (z / unit * unit)%Z in
  let high := (low + unit)%Z in
  match readsAs z low, readsAs z high with
  | true, true =>
      Some (if (z - low <? high - z)%Z then low
            else if (high - z <? z - low)%Z then high
            else if Z.even (low / unit) then low else high)
  | true, false => Some low
  | false, true => Some high
  | false, false => None
  end.

(** The decimal of the fewest significant digits that is read as [z]. *)
Fixpoint shortest (z : Z) (digits : nat) (ks : list nat) : Z :=
  match ks with
  | [] => z
  | k :: more =>
      match candidate z digits k with
      | Some v => v
      | None => shortest z digits more
      end
  end.

(** [toString()] of a positive binary64 integer: the digits of its shortest
    decimal when there are at most 21, and the exponent form otherwise. *)
Definition positiveToString (z : Z) : jsstring :=
  let v := shortest z (List.length (decimalDigits z)) (seq 1 17) in
  let ds := decimalDigits v in
  let n := List.length ds in
  if (n <=? 21)%nat then ds
  else
    match rev (dropWhile (fun c => c =? 48) (rev ds)) with
    | [] => ds
    | [d] => d :: js "e+" ++ decimalDigits (Z.of_nat (n - 1))
    | d :: rest => d :: 46 :: rest ++ js "e+" ++ decimalDigits (Z.of_nat (n - 1))
    end.

(** The string of a value of [parseInt], as [toString()] and a template
    literal give it. *)
Definition intToString (x : integerNumber) : jsstring :=
  match x with
  | NaNInt => js "NaN"
  | InfinityInt negative => (if negative then js "-" else []) ++ js "Infinity"
  | Integer z =>
      if (z =? 0)%Z then js "0"
      else if (z <? 0)%Z then 45 :: positiveToString (- z)
      else positiveToString z
  end.

(** [s.padStart(targetLength, fill)] for a fill of one code unit. *)
Definition padStart (targetLength : nat) (fill : char) (s : jsstring)
  : jsstring :=
  repeat fill (targetLength - List.length s) ++ s.

(** The selector of line 542; [None] is the [TypeError] of [toString] on an
    [undefined] month or day, when the date has fewer than three parts. *)
Definition daySelector (date : jsstring) : option jsstring :=
  match map parseInt (splitOn 45 [] date) with
  | year :: month :: day :: _ =>
      Some (js "div[data-id=" ++ [34] ++ intToString year ++ js "-"
            ++ padStart 2 48 (intToString month) ++ js "-"
            ++ padStart 2 48 (intToString day)
            ++ [34] ++ js "] .calendar-body__cell")
  | _ => None
  end.

(** The digits. *)
Definition digitChars : list char := [48; 49; 50; 51; 52; 53; 54; 55; 56; 57].

(** A string that neither begins nor ends with white space. *)
Definition isTrimmed (s : jsstring) : Prop :=
  (forall c t, s = c :: t -> isWhiteSpace c = false)
  /\ (forall c t, rev s = c :: t -> isWhiteSpace c = false).

(** * Properties *)

(** ** Lists and scans *)

Lemma Some_eq {A} (a b : A) : Some a = Some b -> a = b.
Proof. intros H; injection H as ->; reflexivity. Qed.

Lemma takeWhile_dropWhile {A} (p : A -> bool) (l : list A) :
  takeWhile p l ++ dropWhile p l = l.
Proof.
  induction l as [|x t IH]; simpl; [reflexivity|].
  destruct (p x); simpl; [now rewrite IH | reflexivity].
Qed.

Lemma takeWhile_all {A} (p : A -> bool) (l : list A) :
  Forall (fun x => p x = true) (takeWhile p l).
Proof.
  induction l as [|x t IH]; simpl; [constructor|].
  destruct (p x) eqn:E; constructor; assumption.
Qed.

Lemma dropWhile_head {A} (p : A -> bool) (l : list A) x t :
  dropWhile p l = x :: t -> p x = false.
Proof.
  induction l as [|y u IH]; simpl; [discriminate|].
  destruct (p y) eqn:E; [exact IH|].
  intros H; injection H as -> _; exact E.
Qed.

Lemma dropWhile_nil_all {A} (p : A -> bool) (l : list A) :
  dropWhile p l = [] -> Forall (fun x => p x = true) l.
Proof.
  induction l as [|y u IH]; simpl; [constructor|].
  destruct (p y) eqn:E; [|discriminate].
  intros H; constructor; auto.
Qed.

Lemma negb_true_false (cls : char -> bool) (l : jsstring) :
  Forall (fun c => negb (cls c) = true) l -> Forall (fun c => cls c = false) l.
Proof.
  intros H; eapply Forall_impl; [|exact H].
  intros c Hc; now apply negb_true_iff.
Qed.

(** [match(/[cls]+/)] returns the leftmost maximal run of the class. *)
Lemma regexMatch_leftmost (cls : char -> bool) (text dflt : jsstring) :
  leftmostRun cls text
    (match regexMatch cls text with Some m => m | None => dflt end) dflt.
Proof.
  unfold regexMatch.
  pose proof (takeWhile_dropWhile (fun c => negb (cls c)) text) as Hsplit.
  pose proof (takeWhile_all (fun c => negb (cls c)) text) as Hpre.
  destruct (dropWhile (fun c => negb (cls c)) text) as [|x r] eqn:Hdrop.
  - right. split; [|reflexivity].
    apply negb_true_false. now apply dropWhile_nil_all.
  - left.
    assert (Hx : cls x = true).
    { apply dropWhile_head in Hdrop. now apply negb_false_iff. }
    exists (takeWhile (fun c => negb (cls c)) text), (dropWhile cls (x :: r)).
    repeat split.
    + now rewrite takeWhile_dropWhile.
    + now apply negb_true_false.
    + simpl. rewrite Hx. discriminate.
    + apply takeWhile_all.
    + destruct (dropWhile cls (x :: r)) as [|c rest] eqn:E; [now left|].
      right. exists c, rest. split; [reflexivity|].
      eapply dropWhile_head; exact E.
Qed.

Lemma priceAndCurrency_price (text : jsstring) :
  leftmostRun isAmountChar text (fst (priceAndCurrency text)) (js "N/A").
Proof. unfold priceAndCurrency; simpl. apply regexMatch_leftmost. Qed.

Lemma priceAndCurrency_currency (text : jsstring) :
  leftmostRun isCurrencyChar text (snd (priceAndCurrency text)) (js "N/A").
Proof. unfold priceAndCurrency; simpl. apply regexMatch_leftmost. Qed.

Lemma currencyOf_leftmost (text : jsstring) :
  leftmostRun isCurrencyChar text (currencyOf text) [].
Proof. unfold currencyOf. apply regexMatch_leftmost. Qed.

(** C2 (as amended). Each scan of a price text returns the leftmost maximal
    run of its class, not the longest one: the price of a date item is the
    leftmost maximal run of digits, commas and periods, or ["N/A"] when the
    text has none; the currency is the leftmost maximal run of characters that
    are not digits, white space, commas or periods, and when the text has
    none it is ["N/A"] for a date item and the empty string for a flight
    card. *)
Theorem priceAndCurrency_leftmost (text : jsstring) :
  leftmostRun isAmountChar text (fst (priceAndCurrency text)) (js "N/A")
  /\ leftmostRun isCurrencyChar text (snd (priceAndCurrency text)) (js "N/A")
  /\ leftmostRun isCurrencyChar text (currencyOf text) [].
Proof.
  split; [|split].
  - apply priceAndCurrency_price.
  - apply priceAndCurrency_currency.
  - apply currencyOf_leftmost.
Qed.

(** C2 (counterexample). On the text ["1 234 Ft"] the longest run of digits,
    commas and periods is ["234"], and the code takes ["1"]. *)
Lemma priceAndCurrency_not_longest :
  priceAndCurrency (js "1 234 Ft") = (js "1", js "Ft")
  /\ parseMoneySpec (js "1 234 Ft") = (js "234", js "Ft")
  /\ fst (priceAndCurrency (js "1 234 Ft")) <> fst (parseMoneySpec (js "1 234 Ft")).
Proof.
  repeat split; try reflexivity.
  vm_compute. discriminate.
Qed.

(** ** Price values and the cheapest flight *)

Lemma Qltb_lt (x y : Q) : Qltb x y = true <-> (x < y)%Q.
Proof. unfold Qltb, Qlt. apply Z.ltb_lt. Qed.

Lemma Qltb_ge (x y : Q) : Qltb x y = false <-> (y <= x)%Q.
Proof. unfold Qltb, Qle. apply Z.ltb_ge. Qed.

Lemma numLe_refl (a : number) : numLe a a.
Proof.
  unfold numLe. destruct a as [| |x]; simpl; try reflexivity.
  apply Qltb_ge, Qle_refl.
Qed.

Lemma numLe_trans (a b c : number) :
  b <> NaN -> numLe a b -> numLe b c -> numLe a c.
Proof.
  unfold numLe.
  destruct a as [| |x], b as [| |y], c as [| |z]; simpl; intros Hb H1 H2;
    try reflexivity; try discriminate; try congruence.
  apply Qltb_ge. apply Qltb_ge in H1. apply Qltb_ge in H2.
  eapply Qle_trans; eassumption.
Qed.

Lemma numLe_lt_trans (a b c : number) :
  a <> NaN -> numLe a b -> numLt b c -> numLt a c.
Proof.
  unfold numLe, numLt.
  destruct a as [| |x], b as [| |y], c as [| |z]; simpl; intros Ha H1 H2;
    try reflexivity; try discriminate; try congruence.
  apply Qltb_lt. apply Qltb_ge in H1. apply Qltb_lt in H2.
  eapply Qle_lt_trans; eassumption.
Qed.

Lemma numLt_le (a b : number) : numLt a b -> numLe a b.
Proof.
  unfold numLe, numLt.
  destruct a as [| |x], b as [| |y]; simpl; intros H;
    try reflexivity; try discriminate.
  apply Qltb_ge. apply Qltb_lt in H. now apply Qlt_le_weak.
Qed.

Section CheapestProofs.
Variable Flight : Type.
Variable price : Flight -> jsstring.

Lemma cheaper_cases (m f : Flight) :
  (numLt (getPriceNumeric (price m)) (getPriceNumeric (price f))
   /\ cheaper price m f = m)
  \/ (numLe (getPriceNumeric (price f)) (getPriceNumeric (price m))
      /\ cheaper price m f = f).
Proof.
  unfold cheaper, numLt, numLe.
  destruct (ltNumber (getPriceNumeric (price m)) (getPriceNumeric (price f)));
    [left | right]; split; reflexivity.
Qed.

(** The fold keeps the last of the offers of least price value. *)
Lemma fold_cheaper_last (first : Flight) (rest : list Flight) :
  (forall o, In o (first :: rest) -> getPriceNumeric (price o) <> NaN) ->
  exists before o after,
    first :: rest = before ++ o :: after
    /\ fold_left (cheaper price) rest first = o
    /\ (forall x, In x before ->
          numLe (getPriceNumeric (price o)) (getPriceNumeric (price x)))
    /\ (forall x, In x after ->
          numLt (getPriceNumeric (price o)) (getPriceNumeric (price x))).
Proof.
  induction rest as [|last rest IH] using rev_ind; intros Hnan.
  - exists [], first, []. simpl. repeat split; intros x [].
  - destruct IH as (before & o & after & Hsplit & Hfold & Hbefore & Hafter).
    { intros x Hx. apply Hnan. simpl in Hx |- *.
      destruct Hx as [Hx | Hx]; [now left | right; apply in_or_app; now left]. }
    rewrite fold_left_app; simpl. rewrite Hfold.
    assert (Ho : getPriceNumeric (price o) <> NaN).
    { apply Hnan. rewrite app_comm_cons, Hsplit.
      apply in_or_app; left. apply in_or_app; right; now left. }
    assert (Hlast : getPriceNumeric (price last) <> NaN).
    { apply Hnan. rewrite app_comm_cons. apply in_or_app; right; now left. }
    destruct (cheaper_cases o last) as [[Hlt Heq] | [Hle Heq]]; rewrite Heq.
    + exists before, o, (after ++ [last]). repeat split.
      * rewrite app_comm_cons, Hsplit, <- app_assoc. reflexivity.
      * exact Hbefore.
      * intros x Hx. apply in_app_or in Hx.
        destruct Hx as [Hx | [<- | []]]; [now apply Hafter | exact Hlt].
    + exists (before ++ o :: after), last, []. repeat split.
      * rewrite app_comm_cons, Hsplit. reflexivity.
      * intros x Hx. apply in_app_or in Hx.
        destruct Hx as [Hx | [<- | Hx]].
        -- eapply numLe_trans; [exact Ho | exact Hle | now apply Hbefore].
        -- exact Hle.
        -- apply numLt_le. eapply numLe_lt_trans; [exact Hlast | exact Hle |].
           now apply Hafter.
      * intros x [].
Qed.

(** C1 (as amended). For offers none of whose prices converts to [NaN]:
    the cheapest flight of an empty sequence is none, and of a non-empty
    sequence it is an offer of least price value, the value being the
    binary64 number or the infinity that [getPriceNumeric] returns, found by
    one left-to-right pass; among offers of equal least value the last one
    met is kept: every offer before it costs at least as much, every offer
    after it strictly more. *)
Theorem cheapestFlight_last_minimum (offers : list Flight) :
  (forall o, In o offers -> getPriceNumeric (price o) <> NaN) ->
  (offers = [] -> cheapestFlight price offers = None)
  /\ (offers <> [] ->
      exists before o after,
        offers = before ++ o :: after
        /\ cheapestFlight price offers = Some o
        /\ (forall x, In x before ->
              numLe (getPriceNumeric (price o)) (getPriceNumeric (price x)))
        /\ (forall x, In x after ->
              numLt (getPriceNumeric (price o)) (getPriceNumeric (price x)))).
Proof.
  intros Hnan. split.
  - intros ->. reflexivity.
  - intros Hne. destruct offers as [|first rest]; [congruence|].
    destruct (fold_cheaper_last first rest Hnan)
      as (before & o & after & Hsplit & Hfold & Hbefore & Hafter).
    exists before, o, after. simpl. rewrite Hfold. auto.
Qed.

End CheapestProofs.

Lemma threeOffers_no_NaN :
  forall o, In o Sample.threeOffers ->
            getPriceNumeric (FlightData.price o) <> NaN.
Proof.
  intros o [<- | [<- | [<- | []]]]; vm_compute; discriminate.
Qed.

(** C1 (witness): the three offers priced ["89 Ft"], ["45 Ft"] and ["N/A"]. *)
Lemma cheapestFlight_last_minimum_witness :
  (forall o, In o Sample.threeOffers ->
             getPriceNumeric (FlightData.price o) <> NaN)
  /\ (Sample.threeOffers <> [] ->
      exists before o after,
        Sample.threeOffers = before ++ o :: after
        /\ cheapestFlight FlightData.price Sample.threeOffers = Some o
        /\ (forall x, In x before ->
              numLe (getPriceNumeric (FlightData.price o))
                    (getPriceNumeric (FlightData.price x)))
        /\ (forall x, In x after ->
              numLt (getPriceNumeric (FlightData.price o))
                    (getPriceNumeric (FlightData.price x)))).
Proof.
  split.
  - exact threeOffers_no_NaN.
  - exact (proj2 (cheapestFlight_last_minimum FlightData.t FlightData.price
                    Sample.threeOffers threeOffers_no_NaN)).
Defined.

(** Over the offers priced ["89 Ft"], ["45 Ft"] and ["N/A"] the cheapest
    flight is the one priced ["45 Ft"]. *)
Example cheapestFlight_three_offers :
  cheapestFlight FlightData.price Sample.threeOffers
  = Some (Sample.offer "FR 2" "45 Ft").
Proof. reflexivity. Qed.

(** C1 (counterexample). Two offers of equal price value: the fold returns
    the second, not the first one met. *)
Lemma cheapestFlight_tie_keeps_later :
  getPriceNumeric (FlightData.price (Sample.offer "FR 1" "45 Ft"))
  = getPriceNumeric (FlightData.price (Sample.offer "FR 2" "45 Ft"))
  /\ Sample.tiedOffers = [Sample.offer "FR 1" "45 Ft"; Sample.offer "FR 2" "45 Ft"]
  /\ cheapestFlight FlightData.price Sample.tiedOffers
     = Some (Sample.offer "FR 2" "45 Ft")
  /\ cheapestFlight FlightData.price Sample.tiedOffers
     <> Some (Sample.offer "FR 1" "45 Ft").
Proof.
  repeat split; try reflexivity.
  vm_compute. discriminate.
Qed.

(** [parseFloat] is only applied to digits and periods. *)
Lemma getPriceNumeric_argument (price m : jsstring) :
  regexMatch isAmountChar price = Some m ->
  Forall (fun c => isDigit c || isPeriod c = true) (replaceAll isComma m).
Proof.
  unfold regexMatch.
  destruct (dropWhile (fun c => negb (isAmountChar c)) price) as [|x r];
    [discriminate|].
  intros H; injection H as <-.
  unfold replaceAll. apply Forall_forall. intros c Hc.
  apply filter_In in Hc. destruct Hc as [Hin Hcomma].
  pose proof (takeWhile_all isAmountChar (x :: r)) as Hall.
  rewrite Forall_forall in Hall. specialize (Hall c Hin).
  unfold isAmountChar in Hall.
  destruct (isDigit c), (isComma c), (isPeriod c); simpl in *; congruence.
Qed.

Lemma dropWhile_incl {A} (p : A -> bool) (l : list A) (x : A) :
  In x (dropWhile p l) -> In x l.
Proof.
  induction l as [|y u IH]; simpl; [tauto|].
  destruct (p y); simpl; [right; auto | tauto].
Qed.

(** A price text without digit, comma or period, as ["N/A"], converts to
    [Infinity]. *)
Lemma getPriceNumeric_no_amount (price : jsstring) :
  Forall (fun c => isAmountChar c = false) price ->
  getPriceNumeric price = Infinity.
Proof.
  intros H. unfold getPriceNumeric, regexMatch.
  destruct (dropWhile (fun c => negb (isAmountChar c)) price) as [|x r] eqn:E;
    [reflexivity|].
  exfalso.
  assert (Hin : In x price).
  { apply (dropWhile_incl (fun c => negb (isAmountChar c))). rewrite E. now left. }
  apply dropWhile_head in E. apply negb_false_iff in E.
  rewrite Forall_forall in H. rewrite (H x Hin) in E. discriminate.
Qed.

(** An offer whose price converts to [Infinity] loses against one whose price
    converts to a number, on either side of the comparison. *)
Lemma cheaper_Infinity_loses {Flight} (price : Flight -> jsstring)
  (a b : Flight) (q : Q) :
  getPriceNumeric (price a) = Num q ->
  getPriceNumeric (price b) = Infinity ->
  cheaper price a b = a /\ cheaper price b a = a.
Proof.
  intros Ha Hb. unfold cheaper. rewrite Ha, Hb. simpl. split; reflexivity.
Qed.

(** C6 (the failing input). A page with two flight cards priced ["45 Ft"]
    and ["n.a."], and a date price, so that [checkRyanairPrice] returns its
    result.  The price text ["n.a."] has the run ["."], which
    [parseFloat] cannot read: [getPriceNumeric] returns [NaN], not
    [Infinity], every comparison with [NaN] is false, and the fold returns
    the offer priced ["n.a."] although the offer before it is priced
    ["45 Ft"].  The fold of the second script, which ends its conversion in
    [|| Infinity], returns the offer priced ["45 Ft"]. *)
Theorem getPriceNumeric_NaN_wins :
  checkRyanairPrice (D := Sample.unparsableDom) (js "BUD") (js "MAN")
  = Returned (extractResult (D := Sample.unparsableDom) (js "BUD") (js "MAN"))
  /\ map FlightData.price
         (FlightPriceResult.flights
            (extractResult (D := Sample.unparsableDom) (js "BUD") (js "MAN")))
     = [js "45 Ft"; js "n.a."]
  /\ option_map FlightData.price
       (cheapestFlight FlightData.price
          (FlightPriceResult.flights
             (extractResult (D := Sample.unparsableDom) (js "BUD") (js "MAN"))))
     = Some (js "n.a.")
  /\ getPriceNumeric (js "N/A") = Infinity
  /\ getPriceNumeric (js "45 Ft") = Num (45 # 1)
  /\ getPriceNumeric (js "n.a.") = NaN
  /\ cheapestFlight FlightData.price Sample.unparsableOffers
     = Some (Sample.offer "FR 2" "n.a.")
  /\ priceNumber2 (js "n.a.") = Infinity
  /\ cheapestFlight2 FlightData.price Sample.unparsableOffers
     = Some (Sample.offer "FR 1" "45 Ft").
Proof. repeat split; reflexivity. Qed.

(** ** The selector cascade *)

Section CascadeProofs.
Context `{D : Dom}.

Lemma getText_eq (container : Element) (selector : string) :
  getText container selector
  = (match querySelector container selector with
     | Some e => Some (trimmedText e)
     | None => None
     end, [(container, selector)]).
Proof. reflexivity. Qed.

Lemma getTextMultiSelector_hit (container : Element) (selector : string)
  (more : list string) (text : jsstring) :
  yieldsText container selector text ->
  getTextMultiSelector container (selector :: more)
  = (text, [(container, selector)]).
Proof.
  intros (e & Hq & Ht & Hne).
  cbn [getTextMultiSelector]. rewrite getText_eq, Hq, Ht. unfold bind, ret.
  destruct text as [|c t]; [congruence | reflexivity].
Qed.

Lemma getTextMultiSelector_miss (container : Element) (selector : string)
  (more : list string) :
  yieldsNothing container selector ->
  getTextMultiSelector container (selector :: more)
  = (value (getTextMultiSelector container more),
     (container, selector) :: queries (getTextMultiSelector container more)).
Proof.
  intros H. cbn [getTextMultiSelector]. rewrite getText_eq.
  unfold bind, value, queries.
  destruct (getTextMultiSelector container more) as [v l].
  destruct H as [Hq | (e & Hq & Ht)]; rewrite Hq; [|rewrite Ht]; reflexivity.
Qed.

Lemma getTextMultiSelector_all_miss (container : Element)
  (selectors : list string) :
  Forall (yieldsNothing container) selectors ->
  getTextMultiSelector container selectors
  = (js "N/A", map (pair container) selectors).
Proof.
  induction 1 as [|s more Hs _ IH]; [reflexivity|].
  rewrite (getTextMultiSelector_miss _ _ _ Hs), IH. reflexivity.
Qed.

(** Every selector either yields a text or yields nothing. *)
Lemma yields_dichotomy (container : Element) (selector : string) :
  yieldsNothing container selector
  \/ exists text, yieldsText container selector text.
Proof.
  unfold yieldsNothing, yieldsText.
  destruct (querySelector container selector) as [e|]; [|left; left; reflexivity].
  destruct (trimmedText e) as [|c t] eqn:E.
  - left. right. exists e. split; [reflexivity | exact E].
  - right. exists (c :: t), e.
    split; [reflexivity | split; [exact E | discriminate]].
Qed.

(** C3. [getTextMultiSelector] tries the selectors in the order of the list.
    When the selectors before [s] yield nothing and [s] matches an element
    whose trimmed text is not empty, that text is the result and the
    [querySelector] calls made are exactly those of the selectors up to [s]:
    none of the later selectors is evaluated.  When no selector yields text
    the result is ["N/A"], after one call per selector. *)
Theorem getTextMultiSelector_first_match (container : Element)
  (selectors : list string) :
  (forall before s after text,
      selectors = before ++ s :: after ->
      Forall (yieldsNothing container) before ->
      yieldsText container s text ->
      getTextMultiSelector container selectors
      = (text, map (pair container) (before ++ [s])))
  /\ (Forall (yieldsNothing container) selectors ->
      getTextMultiSelector container selectors
      = (js "N/A", map (pair container) selectors)).
Proof.
  split; [|apply getTextMultiSelector_all_miss].
  intros before s after text -> Hbefore Hs.
  induction Hbefore as [|s' before' Hs' _ IH]; simpl app.
  - now apply getTextMultiSelector_hit.
  - rewrite (getTextMultiSelector_miss _ _ _ Hs'), IH. reflexivity.
Qed.

(** The card cascade of the analysis script stops in the same way at the
    first selector that matches any element. *)
Lemma cardCascade_first_match (before : list string) (s : string)
  (after : list string) :
  Forall (fun s' => querySelectorAll document s' = []) before ->
  querySelectorAll document s <> [] ->
  cardCascade (before ++ s :: after)
  = ((querySelectorAll document s, s), map (pair document) (before ++ [s])).
Proof.
  intros Hbefore Hs.
  induction Hbefore as [|s' before' Hs' _ IH]; simpl.
  - destruct (querySelectorAll document s) as [|e l]; [congruence|reflexivity].
  - rewrite Hs'. simpl. rewrite IH. reflexivity.
Qed.

End CascadeProofs.

(** C3 (witness): the price cascade under the first container of the sample
    page; the first selector matches nothing, the second yields ["45 Ft"],
    the third is not queried. *)
Lemma getTextMultiSelector_first_match_witness :
  Sel.priceSelectors
  = [Sel.attrHas "class" "price"] ++ Sel.attrHas "class" "amount"
    :: [Sel.attrHas "class" "fare"]
  /\ Forall (yieldsNothing (D := Sample.containersDom) 1%nat)
            [Sel.attrHas "class" "price"]
  /\ yieldsText (D := Sample.containersDom) 1%nat
                (Sel.attrHas "class" "amount") (js "45 Ft")
  /\ getTextMultiSelector (D := Sample.containersDom) 1%nat Sel.priceSelectors
     = (js "45 Ft",
        [(1%nat, Sel.attrHas "class" "price");
         (1%nat, Sel.attrHas "class" "amount")]).
Proof.
  assert (H1 : Sel.priceSelectors
               = [Sel.attrHas "class" "price"] ++ Sel.attrHas "class" "amount"
                 :: [Sel.attrHas "class" "fare"]) by reflexivity.
  assert (H2 : Forall (yieldsNothing (D := Sample.containersDom) 1%nat)
                      [Sel.attrHas "class" "price"]).
  { constructor; [left; reflexivity | constructor]. }
  assert (H3 : yieldsText (D := Sample.containersDom) 1%nat
                          (Sel.attrHas "class" "amount") (js "45 Ft")).
  { exists 4%nat. repeat split; [vm_compute; discriminate]. }
  split; [exact H1 | split; [exact H2 | split; [exact H3 |]]].
  exact (proj1 (getTextMultiSelector_first_match (D := Sample.containersDom)
                  1%nat Sel.priceSelectors) _ _ _ _ H1 H2 H3).
Defined.

(** ** The tiers of the reconciliation *)

Section TierProofs.
Context `{D : Dom}.

Lemma withAlternative_cons (f : FlightData.t) (flights : list FlightData.t) :
  withAlternative (f :: flights) = f :: flights.
Proof. reflexivity. Qed.

Lemma withAlternative_nil : withAlternative [] = moreFlights.
Proof.
  unfold withAlternative; simpl.
  destruct moreFlights; reflexivity.
Qed.

Lemma withSelectedDatePrice_cons (origin destination : jsstring)
  (f : FlightData.t) (flights : list FlightData.t) :
  withSelectedDatePrice origin destination (f :: flights) = f :: flights.
Proof. reflexivity. Qed.

Lemma withSelectedDatePrice_nil (origin destination : jsstring) :
  withSelectedDatePrice origin destination []
  = match find DatePrice.isSelected datePrices with
    | Some selected => [genericFlight origin destination selected]
    | None => []
    end.
Proof.
  unfold withSelectedDatePrice; simpl.
  destruct datePrices; reflexivity.
Qed.

Lemma find_selected (l : list DatePrice.t) :
  (exists p, In p l /\ DatePrice.isSelected p = true) ->
  exists selected,
    find DatePrice.isSelected l = Some selected
    /\ In selected l /\ DatePrice.isSelected selected = true.
Proof.
  intros (p & Hin & Hp).
  destruct (find DatePrice.isSelected l) as [s|] eqn:E.
  - exists s. split; [reflexivity|]. eapply find_some; exact E.
  - rewrite (find_none _ _ E p Hin) in Hp. discriminate.
Qed.

Lemma onlyGenericEntry_no_slots (flights : list FlightData.t) :
  timeSlots = [] -> onlyGenericEntry flights = false.
Proof.
  intros H. unfold onlyGenericEntry, timeOptions. rewrite H. simpl.
  now rewrite andb_false_r.
Qed.

Lemma onlyGenericEntry_generic (origin destination : jsstring)
  (selected : DatePrice.t) :
  timeSlots <> [] ->
  onlyGenericEntry [genericFlight origin destination selected] = true.
Proof.
  intros H. unfold onlyGenericEntry, timeOptions.
  destruct timeSlots; [congruence | reflexivity].
Qed.

Lemma jsstring_eqb_eq (a b : jsstring) : jsstring_eqb a b = true <-> a = b.
Proof.
  unfold jsstring_eqb. destruct (list_eq_dec N.eq_dec a b); split;
    congruence.
Qed.


(** C4 (as amended). When the first tier yields no offer, some date price is
    selected and the page has no time-slot element, the result holds exactly
    one offer: its price is the price of the first selected date price, and
    its departure time, arrival time and duration are the placeholder text
    ["Check website"]. *)
Theorem selected_date_offer (origin destination : jsstring) :
  tier1 origin destination = [] ->
  (exists p, In p datePrices /\ DatePrice.isSelected p = true) ->
  timeSlots = [] ->
  exists selected offer,
    find DatePrice.isSelected datePrices = Some selected
    /\ In selected datePrices
    /\ DatePrice.isSelected selected = true
    /\ FlightPriceResult.flights (extractResult origin destination) = [offer]
    /\ FlightData.price offer = DatePrice.price selected
    /\ FlightData.departureTime offer = js "Check website"
    /\ FlightData.arrivalTime offer = js "Check website"
    /\ FlightData.duration offer = js "Check website".
Proof.
  intros Htier1 Hsel Hslots.
  destruct (find_selected _ Hsel) as (selected & Hfind & Hin & Htrue).
  exists selected, (genericFlight origin destination selected).
  repeat split; try assumption.
  unfold extractResult; simpl.
  unfold tier1 in Htier1. rewrite Htier1.
  rewrite withSelectedDatePrice_nil, Hfind.
  unfold withTimeOptions. now rewrite onlyGenericEntry_no_slots.
Qed.

Lemma onlyGenericEntry_iff (flights : list FlightData.t) :
  onlyGenericEntry flights = true
  <-> (exists o, flights = [o]
                 /\ FlightData.departureTime o = js "Check website")
      /\ timeSlots <> [].
Proof.
  unfold onlyGenericEntry, timeOptions. rewrite length_map. split.
  - intros H. apply andb_true_iff in H. destruct H as [H Hslots].
    apply andb_true_iff in H. destruct H as [Hlen Hdep].
    destruct flights as [|o [|o' rest]]; try discriminate.
    apply jsstring_eqb_eq in Hdep. split; [now exists o|].
    destruct timeSlots; [discriminate | discriminate].
  - intros [(o & -> & Hdep) Hslots].
    apply jsstring_eqb_eq in Hdep. cbn [List.length Nat.eqb andb]. rewrite Hdep.
    destruct timeSlots; [congruence | reflexivity].
Qed.

(** C5. The guard of the third tier holds exactly of a list of one offer
    whose departure time is the text ["Check website"], on a page with a
    time slot.  The second tier is applied only when the first yields no
    offer, and the third tier replaces the synthetic offer of the second.
    But an offer of the first tier whose departure time reads
    ["Check website"] passes the guard as well: when it is the only offer
    and the page has a time slot, it is discarded and the result is one offer
    per time slot.  In every other case the offers of a first tier that is
    not empty are the result. *)
Theorem third_tier_guard (origin destination : jsstring) :
  (forall flights,
      onlyGenericEntry flights = true
      <-> (exists o, flights = [o]
                     /\ FlightData.departureTime o = js "Check website")
          /\ timeSlots <> [])
  /\ (tier1 origin destination <> [] ->
      tier2 origin destination = tier1 origin destination)
  /\ (tier1 origin destination = [] ->
      (exists p, In p datePrices /\ DatePrice.isSelected p = true) ->
      timeSlots <> [] ->
      List.length (tier2 origin destination) = 1%nat
      /\ FlightPriceResult.flights (extractResult origin destination)
         = map (fun slot => flightOfTimeOption origin destination (timeOptionOf slot))
               timeSlots)
  /\ (forall first,
        tier1 origin destination = [first] ->
        FlightData.departureTime first = js "Check website" ->
        timeSlots <> [] ->
        FlightPriceResult.flights (extractResult origin destination)
        = map (fun slot => flightOfTimeOption origin destination (timeOptionOf slot))
              timeSlots)
  /\ (tier1 origin destination <> [] ->
      List.length (tier1 origin destination) <> 1%nat
      \/ (forall o, In o (tier1 origin destination) ->
                    FlightData.departureTime o <> js "Check website")
      \/ timeSlots = [] ->
      FlightPriceResult.flights (extractResult origin destination)
      = tier1 origin destination).
Proof.
  unfold tier2. split; [|split; [|split; [|split]]].
  - apply onlyGenericEntry_iff.
  - intros Hne. destruct (tier1 origin destination); [congruence|].
    apply withSelectedDatePrice_cons.
  - intros Hnil Hsel Hslots.
    destruct (find_selected _ Hsel) as (selected & Hfind & _).
    split.
    + rewrite Hnil, withSelectedDatePrice_nil, Hfind. reflexivity.
    + unfold extractResult; simpl. unfold tier1 in Hnil. rewrite Hnil.
      rewrite withSelectedDatePrice_nil, Hfind.
      unfold withTimeOptions. rewrite (onlyGenericEntry_generic _ _ _ Hslots).
      unfold timeOptions. now rewrite map_map.
  - intros first Hfirst Hdep Hslots. unfold extractResult; simpl.
    fold (tier1 origin destination). rewrite Hfirst.
    rewrite withSelectedDatePrice_cons. unfold withTimeOptions.
    assert (Hguard : onlyGenericEntry [first] = true).
    { apply onlyGenericEntry_iff. split; [now exists first | exact Hslots]. }
    rewrite Hguard. unfold timeOptions. now rewrite map_map.
  - intros Hne Hcase. unfold extractResult; simpl.
    fold (tier1 origin destination).
    destruct (tier1 origin destination) as [|f rest] eqn:E; [congruence|].
    rewrite withSelectedDatePrice_cons. unfold withTimeOptions.
    destruct (onlyGenericEntry (f :: rest)) eqn:Hguard; [|reflexivity].
    exfalso. apply onlyGenericEntry_iff in Hguard.
    destruct Hguard as [(o & Ho & Hdep) Hslots].
    destruct Hcase as [Hlen | [Hother | Hnone]].
    + apply Hlen. now rewrite Ho.
    + apply (Hother o); [rewrite Ho; now left | exact Hdep].
    + exact (Hslots Hnone).
Qed.

Lemma checkRyanairPrice_returned (origin destination : jsstring) :
  querySelectorAll document Sel.datePrice <> [] ->
  checkRyanairPrice origin destination
  = Returned (extractResult origin destination).
Proof.
  intros H. unfold checkRyanairPrice, waitForSelector, querySelector.
  destruct (querySelectorAll document Sel.datePrice); [congruence | reflexivity].
Qed.

Lemma checkRyanairPrice_thrown (origin destination : jsstring) :
  querySelectorAll document Sel.datePrice = [] ->
  checkRyanairPrice origin destination = Thrown TimeoutError.
Proof.
  intros H. unfold checkRyanairPrice, waitForSelector, querySelector.
  now rewrite H.
Qed.

Lemma extractResult_no_markup (origin destination : jsstring) :
  (forall selector, selector <> Sel.datePrice ->
                    querySelectorAll document selector = []) ->
  extractResult origin destination = FlightPriceResult.mk [] [].
Proof.
  intros H.
  assert (Hcards : querySelectorAll document Sel.flightCards = [])
    by (apply H; vm_compute; discriminate).
  assert (Hcontainers : querySelectorAll document Sel.allFlightContainers = [])
    by (apply H; vm_compute; discriminate).
  assert (Hitems : querySelectorAll document Sel.dateItem = [])
    by (apply H; vm_compute; discriminate).
  unfold extractResult, cardFlights, flightCards.
  rewrite Hcards. simpl map.
  rewrite withAlternative_nil.
  unfold moreFlights, allFlightContainers. rewrite Hcontainers. simpl.
  rewrite withSelectedDatePrice_nil.
  unfold datePrices. rewrite Hitems. simpl.
  reflexivity.
Qed.

(** C7 (as amended). On a document in which no element matches the selector
    of the date prices, so on an empty document, [checkRyanairPrice] does not
    return: the wait of line 94 rejects with [TimeoutError], which the
    [catch] throws again.  When an element matches it, [checkRyanairPrice]
    returns the extracted result, and that result is
    [{ flights: [], datePrices: [] }] when no other selector matches under
    the document.  Under a card, a date item or a time slot without any
    matching element every field takes its fallback value. *)
Theorem missing_markup_result (origin destination : jsstring) :
  ((forall selector, querySelectorAll document selector = []) ->
   checkRyanairPrice origin destination = Thrown TimeoutError)
  /\ (checkRyanairPrice origin destination = Thrown TimeoutError
      <-> querySelectorAll document Sel.datePrice = [])
  /\ (querySelectorAll document Sel.datePrice <> [] ->
      checkRyanairPrice origin destination
      = Returned (extractResult origin destination))
  /\ (querySelectorAll document Sel.datePrice <> [] ->
      (forall selector, selector <> Sel.datePrice ->
                        querySelectorAll document selector = []) ->
      checkRyanairPrice origin destination
      = Returned (FlightPriceResult.mk [] []))
  /\ (forall card,
        (forall selector, querySelectorAll card selector = []) ->
        flightOf destination origin card
        = FlightData.mk (js "N/A") (js "N/A") (js "N/A") (js "N/A") (js "N/A")
                        (js "N/A") origin destination None)
  /\ (forall item,
        (forall selector, querySelectorAll item selector = []) ->
        datePriceOf item
        = DatePrice.mk (js " ") [] (js "N/A") (js "N/A")
                       (classListContains item Sel.dateItemSelected))
  /\ (forall slot,
        (forall selector, querySelectorAll slot selector = []) ->
        timeOptionOf slot
        = TimeOption.mk (js "N/A") (js "N/A") (js "N/A") (js "N/A")
                        (js "N/A") (js "N/A")).
Proof.
  split; [|split; [|split; [|split; [|split; [|split]]]]].
  - intros H. apply checkRyanairPrice_thrown. apply H.
  - split.
    + unfold checkRyanairPrice, waitForSelector, querySelector.
      destruct (querySelectorAll document Sel.datePrice);
        [reflexivity | discriminate].
    + apply checkRyanairPrice_thrown.
  - apply checkRyanairPrice_returned.
  - intros Hprice Hother.
    rewrite (checkRyanairPrice_returned _ _ Hprice).
    now rewrite (extractResult_no_markup _ _ Hother).
  - intros card H. unfold flightOf, cardPriceText, querySelector.
    rewrite !H. reflexivity.
  - intros item H. unfold datePriceOf, datePriceText, querySelector.
    rewrite !H. reflexivity.
  - intros slot H. unfold timeOptionOf, querySelector. rewrite !H. reflexivity.
Qed.

End TierProofs.

(** ** The extractors *)

Lemma in_filterNotNull {A} (l : list (option A)) (a : A) :
  In a (filterNotNull l) <-> In (Some a) l.
Proof.
  unfold filterNotNull. rewrite in_flat_map. split.
  - intros ([b|] & Hin & Ha); simpl in Ha; [|tauto].
    destruct Ha as [<- | []]. exact Hin.
  - intros H. exists (Some a). split; [exact H | now left].
Qed.

Lemma filterNotNull_map {A B} (f : A -> option B) (p : A -> bool) (l : list A) :
  (forall a, p a = true <-> exists b, f a = Some b) ->
  map Some (filterNotNull (map f l)) = map f (filter p l).
Proof.
  intros Hp. induction l as [|a l IH]; [reflexivity|].
  simpl. destruct (f a) as [b|] eqn:E.
  - assert (Hpa : p a = true) by (apply Hp; now exists b).
    rewrite Hpa. simpl. now rewrite IH, E.
  - destruct (p a) eqn:Hpa; [|exact IH].
    apply Hp in Hpa. destruct Hpa as (b & Hb). congruence.
Qed.

Section ExtractorProofs.
Context `{D : Dom}.

Lemma alternativeFlightOf_some (container : Element) :
  hasTimeAndPrice container = true
  <-> exists o, alternativeFlightOf container = Some o.
Proof.
  unfold hasTimeAndPrice, alternativeFlightOf, querySelector.
  destruct (querySelectorAll container (Sel.join Sel.timeSelectors)) as [|t ts];
    simpl.
  - split; [discriminate | intros (o & H); discriminate].
  - destruct (querySelectorAll container (Sel.join Sel.priceSelectors))
      as [|p ps]; simpl.
    + split; [discriminate | intros (o & H); discriminate].
    + split; [eauto | reflexivity].
Qed.

Lemma alternativeFlightOf_airports (container : Element) (o : FlightData.t) :
  alternativeFlightOf container = Some o ->
  FlightData.fromAirport o = fst (scrapedAirports container)
  /\ FlightData.toAirport o = snd (scrapedAirports container).
Proof.
  unfold alternativeFlightOf, scrapedAirports.
  destruct (querySelector container (Sel.join Sel.timeSelectors));
    [|discriminate].
  destruct (querySelector container (Sel.join Sel.priceSelectors));
    [|discriminate].
  intros H; injection H as <-. split; reflexivity.
Qed.

Lemma moreFlights_filter :
  map Some moreFlights
  = map alternativeFlightOf (filter hasTimeAndPrice allFlightContainers).
Proof. apply filterNotNull_map. intros a. apply alternativeFlightOf_some. Qed.

Lemma tier1_cards (origin destination : jsstring) :
  flightCards <> [] -> tier1 origin destination = cardFlights destination origin.
Proof.
  unfold tier1, cardFlights. intros H.
  destruct flightCards; [congruence | reflexivity].
Qed.

Lemma tier1_no_cards (origin destination : jsstring) :
  flightCards = [] -> tier1 origin destination = moreFlights.
Proof. unfold tier1, cardFlights. intros ->. apply withAlternative_nil. Qed.

Lemma yields_orElse (scope : Element) (selector : string) (dflt : jsstring) :
  (forall text, yieldsText scope selector text ->
     orElse (Some (match querySelector scope selector with
                   | Some e => trimmedText e
                   | None => []
                   end)) dflt = text)
  /\ (yieldsNothing scope selector ->
      orElse (Some (match querySelector scope selector with
                    | Some e => trimmedText e
                    | None => []
                    end)) dflt = dflt).
Proof.
  split.
  - intros text (e & -> & <- & Hne).
    destruct (trimmedText e); [congruence | reflexivity].
  - intros [-> | (e & -> & ->)]; reflexivity.
Qed.

(** C9 (as amended). An offer of a flight card and an offer converted from a
    time slot have the origin and the destination of the query.  The
    synthetic offer of the selected date has, for each of the two fields, the
    text of the page-level airport-code element when that element exists and
    its text is not empty, and the value of the query otherwise.  An offer of
    the alternative-selector extractor has the texts of the first and second
    airport-like elements under its container, with ["N/A"] where there is
    none, and never the values of the query.  Every offer of the result is of
    one of these four kinds. *)
Theorem airports_by_extractor (origin destination : jsstring) :
  (forall card,
      FlightData.fromAirport (flightOf destination origin card) = origin
      /\ FlightData.toAirport (flightOf destination origin card) = destination)
  /\ (forall option,
        FlightData.fromAirport (flightOfTimeOption origin destination option)
        = origin
        /\ FlightData.toAirport (flightOfTimeOption origin destination option)
           = destination)
  /\ (forall selected,
        (forall text,
            yieldsText document Sel.fromCode text ->
            FlightData.fromAirport (genericFlight origin destination selected)
            = text)
        /\ (yieldsNothing document Sel.fromCode ->
            FlightData.fromAirport (genericFlight origin destination selected)
            = origin)
        /\ (forall text,
              yieldsText document Sel.toCode text ->
              FlightData.toAirport (genericFlight origin destination selected)
              = text)
        /\ (yieldsNothing document Sel.toCode ->
            FlightData.toAirport (genericFlight origin destination selected)
            = destination))
  /\ (forall container o,
        alternativeFlightOf container = Some o ->
        (querySelectorAll container (Sel.join Sel.airportSelectors) = [] ->
         FlightData.fromAirport o = js "N/A" /\ FlightData.toAirport o = js "N/A")
        /\ (forall first rest,
              querySelectorAll container (Sel.join Sel.airportSelectors)
              = first :: rest ->
              (trimmedText first <> [] ->
               FlightData.fromAirport o = trimmedText first)
              /\ (trimmedText first = [] -> FlightData.fromAirport o = js "N/A")
              /\ (rest = [] -> FlightData.toAirport o = js "N/A")
              /\ (forall second others,
                     rest = second :: others ->
                     FlightData.toAirport o = trimmedText second)))
  /\ (forall o,
        In o (FlightPriceResult.flights (extractResult origin destination)) ->
        (exists card, In card flightCards /\ o = flightOf destination origin card)
        \/ (flightCards = []
            /\ exists container,
                 In container allFlightContainers
                 /\ alternativeFlightOf container = Some o)
        \/ (tier1 origin destination = []
            /\ timeSlots = []
            /\ exists selected,
                 find DatePrice.isSelected datePrices = Some selected
                 /\ o = genericFlight origin destination selected)
        \/ (timeSlots <> []
            /\ exists slot,
                 In slot timeSlots
                 /\ o = flightOfTimeOption origin destination (timeOptionOf slot))).
Proof.
  split; [|split; [|split; [|split]]].
  - intros card. split; reflexivity.
  - intros option. split; reflexivity.
  - intros selected.
    unfold genericFlight, additionalInfo;
      cbn [FlightData.fromAirport FlightData.toAirport
           AdditionalInfo.fromAirport AdditionalInfo.toAirport].
    split; [|split; [|split]].
    + apply (yields_orElse document Sel.fromCode origin).
    + apply (yields_orElse document Sel.fromCode origin).
    + apply (yields_orElse document Sel.toCode destination).
    + apply (yields_orElse document Sel.toCode destination).
  - intros container o Hsome.
    destruct (alternativeFlightOf_airports _ _ Hsome) as [Hfrom Hto].
    rewrite Hfrom, Hto. unfold scrapedAirports, textAt.
    split.
    + intros ->. split; reflexivity.
    + intros first rest ->. cbn [nth_error option_map fst snd].
      split; [|split; [|split]].
      * intros Hne. destruct (trimmedText first); [congruence | reflexivity].
      * intros ->. reflexivity.
      * intros ->. reflexivity.
      * intros second others ->. reflexivity.
  - intros o. unfold extractResult; simpl. fold (tier1 origin destination).
    unfold withTimeOptions.
    destruct (onlyGenericEntry _) eqn:Hguard.
    + intros Hin. unfold timeOptions in Hin. rewrite map_map in Hin.
      apply in_map_iff in Hin. destruct Hin as (slot & <- & Hslot).
      right; right; right. split; [|now exists slot].
      intros Hnil. rewrite Hnil in Hslot. exact Hslot.
    + destruct (tier1 origin destination) as [|f rest] eqn:Htier.
      * rewrite withSelectedDatePrice_nil in *.
        destruct (find DatePrice.isSelected datePrices) as [selected|] eqn:E;
          [|intros []].
        intros [<- | []]. right; right; left.
        split; [reflexivity|]. split; [|now exists selected].
        destruct timeSlots as [|slot slots] eqn:Hslots; [reflexivity|].
        exfalso. simpl app in Hguard.
        rewrite onlyGenericEntry_generic in Hguard; [discriminate|].
        rewrite Hslots. discriminate.
      * rewrite withSelectedDatePrice_cons. rewrite <- Htier. clear Htier Hguard.
        destruct flightCards as [|card cards] eqn:Hcards.
        -- rewrite (tier1_no_cards _ _ Hcards). intros Hin.
           right; left. split; [reflexivity|].
           unfold moreFlights in Hin. apply in_filterNotNull in Hin.
           apply in_map_iff in Hin. destruct Hin as (container & Hsome & Hin).
           now exists container.
        -- rewrite tier1_cards by (rewrite Hcards; discriminate).
           unfold cardFlights. rewrite Hcards. intros Hin.
           apply in_map_iff in Hin. destruct Hin as (c & <- & Hc).
           left. now exists c.
Qed.

Lemma leftmostRun_chars (cls : char -> bool) (text r dflt : jsstring) :
  leftmostRun cls text r dflt ->
  r = dflt \/ (r <> [] /\ Forall (fun c => cls c = true) r).
Proof.
  intros [(before & after & _ & _ & Hne & Hall & _) | [_ ->]];
    [right; split; assumption | now left].
Qed.

Lemma leftmostRun_infix (cls : char -> bool) (text r : jsstring) :
  leftmostRun cls text r [] -> exists before after, text = before ++ r ++ after.
Proof.
  intros [(before & after & Heq & _) | [_ ->]].
  - now exists before, after.
  - now exists [], text.
Qed.

(** C10. The price of a date price is the numeric run of the price text alone
    (or ["N/A"] when the text has none), with the currency run of that text
    in the [currency] field; the price of an offer of a flight card is the
    trimmed text of the price element as it stands (or ["N/A"] when there is
    no such element or its text is empty), and the currency extracted into the
    [currency] field remains part of that price. *)
Theorem price_representations (origin destination : jsstring) :
  (forall p, In p datePrices ->
     exists item,
       In item (querySelectorAll document Sel.dateItem)
       /\ leftmostRun isAmountChar (datePriceText item) (DatePrice.price p) (js "N/A")
       /\ leftmostRun isCurrencyChar (datePriceText item) (DatePrice.currency p)
                      (js "N/A")
       /\ (DatePrice.price p = js "N/A"
           \/ (DatePrice.price p <> []
               /\ Forall (fun c => isAmountChar c = true) (DatePrice.price p))))
  /\ (forall o, In o (cardFlights destination origin) ->
        exists card,
          In card flightCards
          /\ ((exists priceElement,
                  querySelector card Sel.cardPrice = Some priceElement
                  /\ trimmedText priceElement <> []
                  /\ FlightData.price o = trimmedText priceElement)
              \/ (FlightData.price o = js "N/A"
                  /\ (querySelector card Sel.cardPrice = None
                      \/ exists priceElement,
                           querySelector card Sel.cardPrice = Some priceElement
                           /\ trimmedText priceElement = [])))
          /\ leftmostRun isCurrencyChar (FlightData.price o)
                         (FlightData.currency o) []
          /\ exists before after,
               FlightData.price o = before ++ FlightData.currency o ++ after).
Proof.
  split.
  - intros p Hin. unfold datePrices in Hin. apply in_map_iff in Hin.
    destruct Hin as (item & <- & Hitem).
    exists item. split; [exact Hitem|].
    pose proof (priceAndCurrency_price (datePriceText item)) as Ha.
    pose proof (priceAndCurrency_currency (datePriceText item)) as Hc.
    unfold datePriceOf.
    destruct (priceAndCurrency (datePriceText item)) as [price currency].
    simpl in *. repeat split; try assumption.
    eapply leftmostRun_chars; exact Ha.
  - intros o Hin. unfold cardFlights in Hin. apply in_map_iff in Hin.
    destruct Hin as (card & <- & Hcard).
    exists card. split; [exact Hcard|]. simpl.
    pose proof (currencyOf_leftmost (cardPriceText card)) as Hc.
    split; [|split; [exact Hc | eapply leftmostRun_infix; exact Hc]].
    unfold cardPriceText.
    destruct (querySelector card Sel.cardPrice) as [e|]; [|right; auto].
    destruct (trimmedText e) as [|c t] eqn:E.
    + right. split; [reflexivity|]. right. exists e. auto.
    + left. exists e. rewrite E. repeat split. discriminate.
Qed.

End ExtractorProofs.

(** ** The scan of the alternative selectors *)

Section ScanProofs.
Context `{M : Markup}.

Lemma isFlightContainer_iff (e : Element) :
  isFlightContainer e = true
  <-> (localName e = "div"%string
       /\ (contains "flight" (className e) = true
           \/ contains "card" (className e) = true
           \/ contains "journey" (className e) = true))
      \/ (localName e = "tr"%string /\ contains "flight" (className e) = true).
Proof.
  unfold isFlightContainer.
  rewrite !orb_true_iff, !andb_true_iff, !String.eqb_eq. tauto.
Qed.

(** C8 (as amended). The alternative-selector extractor contributes only
    when no flight card is found.  It scans the [div] elements whose class
    attribute contains [flight], [card] or [journey] and the [tr] elements
    whose class attribute contains [flight], and no element of another tag.
    A scanned element yields an offer exactly when it has both a time-like
    and a price-like element under it; the others yield none, so the offers
    are those of the scanned elements that pass the test, one each, in
    document order. *)
Theorem alternative_extractor_scan (origin destination : jsstring) :
  containersByMarkup ->
  (flightCards <> [] -> tier1 origin destination = cardFlights destination origin)
  /\ (flightCards = [] -> tier1 origin destination = moreFlights)
  /\ (forall e,
        In e allFlightContainers
        <-> In e allElements
            /\ ((localName e = "div"%string
                 /\ (contains "flight" (className e) = true
                     \/ contains "card" (className e) = true
                     \/ contains "journey" (className e) = true))
                \/ (localName e = "tr"%string
                    /\ contains "flight" (className e) = true)))
  /\ (forall container,
        (exists o, alternativeFlightOf container = Some o)
        <-> ((exists t, querySelector container (Sel.join Sel.timeSelectors) = Some t)
             /\ (exists p, querySelector container (Sel.join Sel.priceSelectors)
                           = Some p)))
  /\ map Some moreFlights
     = map alternativeFlightOf
           (filter hasTimeAndPrice (filter isFlightContainer allElements))
  /\ (forall o,
        In o moreFlights
        <-> exists container,
              In container allElements
              /\ isFlightContainer container = true
              /\ hasTimeAndPrice container = true
              /\ alternativeFlightOf container = Some o).
Proof.
  intros Hscan.
  assert (Hmap : map Some moreFlights
                 = map alternativeFlightOf
                       (filter hasTimeAndPrice
                               (filter isFlightContainer allElements))).
  { rewrite moreFlights_filter. unfold allFlightContainers.
    now rewrite Hscan. }
  split; [|split; [|split; [|split; [|split]]]].
  - apply tier1_cards.
  - apply tier1_no_cards.
  - intros e. unfold allFlightContainers. rewrite Hscan, filter_In.
    now rewrite isFlightContainer_iff.
  - intros container. unfold alternativeFlightOf.
    destruct (querySelector container (Sel.join Sel.timeSelectors)) as [t|];
      destruct (querySelector container (Sel.join Sel.priceSelectors)) as [p|];
      split; try (intros (o & H); discriminate);
      try (intros [(t' & H1) (p' & H2)]; discriminate); eauto.
  - exact Hmap.
  - intros o. split.
    + intros Hin. apply (in_map Some) in Hin. rewrite Hmap in Hin.
      apply in_map_iff in Hin. destruct Hin as (container & Hsome & Hin).
      apply filter_In in Hin. destruct Hin as [Hin Htest].
      apply filter_In in Hin. destruct Hin as [Hin Hscanned].
      exists container. repeat split; assumption.
    + intros (container & Hin & Hscanned & Htest & Hsome).
      unfold moreFlights. apply in_filterNotNull. rewrite <- Hsome.
      apply in_map. unfold allFlightContainers. rewrite Hscan.
      apply filter_In. split; assumption.
Qed.

End ScanProofs.

(** ** The variant of [index3.ts] *)

Section Index3Proofs.
Context `{D : Dom}.

(** In [index3.ts] there is no third tier: with no flight card and a selected
    date price the result is the one synthetic offer, which carries the price
    text of the first selected date price and ["N/A"] for times and
    duration. *)
Lemma index3_selected_date_offer :
  Index3.cardFlights = [] ->
  (exists p, In p Index3.datePrices /\ Index3.DatePrice.isSelected p = true) ->
  exists selected offer,
    find Index3.DatePrice.isSelected Index3.datePrices = Some selected
    /\ Index3.FlightPriceResult.flights Index3.extractResult = [offer]
    /\ Index3.FlightData.price offer = Index3.DatePrice.price selected
    /\ Index3.FlightData.departureTime offer = js "N/A"
    /\ Index3.FlightData.arrivalTime offer = js "N/A"
    /\ Index3.FlightData.duration offer = js "N/A".
Proof.
  intros Hcards (p & Hin & Hp).
  destruct (find Index3.DatePrice.isSelected Index3.datePrices) as [s|] eqn:E.
  - exists s, (Index3.genericFlight s). repeat split.
    unfold Index3.extractResult, Index3.withSelectedDatePrice; simpl.
    rewrite Hcards, E. simpl.
    destruct Index3.datePrices; [discriminate E | reflexivity].
  - rewrite (find_none _ _ E p Hin) in Hp. discriminate.
Qed.

End Index3Proofs.

(** ** The statements on the sample pages *)

(** C4 (witness): the page with two date items, the second selected and
    priced ["45 Ft"], and neither flight card nor time slot. *)
Lemma selected_date_offer_witness :
  tier1 (D := Sample.datesDom) (js "BUD") (js "MAN") = []
  /\ (exists p, In p (datePrices (D := Sample.datesDom))
                /\ DatePrice.isSelected p = true)
  /\ timeSlots (D := Sample.datesDom) = []
  /\ exists selected offer,
       find DatePrice.isSelected (datePrices (D := Sample.datesDom))
       = Some selected
       /\ In selected (datePrices (D := Sample.datesDom))
       /\ DatePrice.isSelected selected = true
       /\ FlightPriceResult.flights
            (extractResult (D := Sample.datesDom) (js "BUD") (js "MAN"))
          = [offer]
       /\ FlightData.price offer = DatePrice.price selected
       /\ FlightData.departureTime offer = js "Check website"
       /\ FlightData.arrivalTime offer = js "Check website"
       /\ FlightData.duration offer = js "Check website".
Proof.
  assert (H1 : tier1 (D := Sample.datesDom) (js "BUD") (js "MAN") = [])
    by reflexivity.
  assert (H2 : exists p, In p (datePrices (D := Sample.datesDom))
                         /\ DatePrice.isSelected p = true).
  { exists (datePriceOf (D := Sample.datesDom) 2%nat).
    split; [right; left; reflexivity | reflexivity]. }
  assert (H3 : timeSlots (D := Sample.datesDom) = []) by reflexivity.
  split; [exact H1 | split; [exact H2 | split; [exact H3 |]]].
  exact (selected_date_offer (D := Sample.datesDom) (js "BUD") (js "MAN")
           H1 H2 H3).
Defined.

(** On that page the synthetic offer is priced ["45"], the price of the
    selected date price; in [index3.ts] it is priced ["45 Ft"]. *)
Example selected_date_offer_prices :
  map FlightData.price
      (FlightPriceResult.flights
         (extractResult (D := Sample.datesDom) (js "BUD") (js "MAN")))
  = [js "45"]
  /\ map Index3.FlightData.price
         (Index3.FlightPriceResult.flights
            (Index3.extractResult (D := Sample.datesDom)))
     = [js "45 Ft"].
Proof. split; reflexivity. Qed.

(** C4 (counterexample). The same date strip with two time slots: the first
    tier yields no offer and a date price is selected, yet the result holds
    two offers, with the times and prices of the time slots. *)
Lemma selected_date_offer_replaced :
  tier1 (D := Sample.slotsDom) (js "BUD") (js "MAN") = []
  /\ map DatePrice.isSelected (datePrices (D := Sample.slotsDom)) = [false; true]
  /\ map FlightData.departureTime
         (FlightPriceResult.flights
            (extractResult (D := Sample.slotsDom) (js "BUD") (js "MAN")))
     = [js "06:10"; js "17:40"]
  /\ map FlightData.price
         (FlightPriceResult.flights
            (extractResult (D := Sample.slotsDom) (js "BUD") (js "MAN")))
     = [js "52 Ft"; js "N/A"]
  /\ List.length
       (FlightPriceResult.flights
          (extractResult (D := Sample.slotsDom) (js "BUD") (js "MAN")))
     <> 1%nat.
Proof.
  repeat split; try reflexivity.
  vm_compute. discriminate.
Qed.



Lemma placeholder_slots : timeSlots (D := Sample.placeholderCardDom) <> [].
Proof. vm_compute. discriminate. Defined.

(** C5 (witness): the page with one flight card whose departure-time
    element reads ["Check website"], a time slot and a date price.  The
    page passes the wait of line 94; the first tier yields the offer of the
    card, priced ["45 Ft"]; the guard of the third tier holds of it, and the
    result is the one offer of the time slot, priced ["N/A"]. *)
Lemma third_tier_guard_witness :
  checkRyanairPrice (D := Sample.placeholderCardDom) (js "BUD") (js "MAN")
  = Returned (extractResult (D := Sample.placeholderCardDom)
                            (js "BUD") (js "MAN"))
  /\ tier1 (D := Sample.placeholderCardDom) (js "BUD") (js "MAN")
     = [flightOf (D := Sample.placeholderCardDom) (js "MAN") (js "BUD") 1%nat]
  /\ FlightData.price
       (flightOf (D := Sample.placeholderCardDom) (js "MAN") (js "BUD") 1%nat)
     = js "45 Ft"
  /\ FlightPriceResult.flights
       (extractResult (D := Sample.placeholderCardDom) (js "BUD") (js "MAN"))
     = map (fun slot =>
              flightOfTimeOption (js "BUD") (js "MAN")
                (timeOptionOf (D := Sample.placeholderCardDom) slot))
           (timeSlots (D := Sample.placeholderCardDom))
  /\ map FlightData.price
         (FlightPriceResult.flights
            (extractResult (D := Sample.placeholderCardDom)
                           (js "BUD") (js "MAN")))
     = [js "N/A"].
Proof.
  pose proof (third_tier_guard (D := Sample.placeholderCardDom)
                               (js "BUD") (js "MAN"))
    as (_ & _ & _ & Hfirst & _).
  specialize (Hfirst _ eq_refl eq_refl placeholder_slots).
  split; [reflexivity|]. split; [reflexivity|]. split; [reflexivity|].
  split; [exact Hfirst | reflexivity].
Defined.

(** On the page with time slots and no flight card the third tier replaces
    the synthetic offer of the second; on the page with two flight cards and
    a time slot the result is the offers of the cards. *)
Example third_tier_samples :
  tier1 (D := Sample.slotsDom) (js "BUD") (js "MAN") = []
  /\ map FlightData.departureTime
         (tier2 (D := Sample.slotsDom) (js "BUD") (js "MAN"))
     = [js "Check website"]
  /\ map FlightData.departureTime
         (FlightPriceResult.flights
            (extractResult (D := Sample.slotsDom) (js "BUD") (js "MAN")))
     = [js "06:10"; js "17:40"]
  /\ FlightPriceResult.flights
       (extractResult (D := Sample.cardsDom) (js "BUD") (js "MAN"))
     = cardFlights (D := Sample.cardsDom) (js "MAN") (js "BUD").
Proof.
  repeat split; reflexivity.
Qed.

Lemma pricesOnly_other (selector : string) :
  selector <> Sel.datePrice ->
  querySelectorAll (Dom := Sample.pricesOnlyDom) document selector = [].
Proof.
  intros Hne. cbn [querySelectorAll document Sample.pricesOnlyDom Sample.domOf].
  unfold Sample.pageQuery.
  cbn [Sample.matches Sample.pricesOnlyPage find fst snd Nat.eqb andb].
  destruct (String.eqb Sel.datePrice selector) eqn:E; [|reflexivity].
  apply String.eqb_eq in E. congruence.
Defined.

Lemma pricesOnly_found :
  querySelectorAll (Dom := Sample.pricesOnlyDom) document Sel.datePrice <> [].
Proof. vm_compute. discriminate. Defined.

(** C7 (witness): the page with a date price and nothing else. *)
Lemma missing_markup_result_witness :
  querySelectorAll (Dom := Sample.pricesOnlyDom) document Sel.datePrice <> []
  /\ (forall selector,
         selector <> Sel.datePrice ->
         querySelectorAll (Dom := Sample.pricesOnlyDom) document selector = [])
  /\ checkRyanairPrice (D := Sample.pricesOnlyDom) (js "BUD") (js "MAN")
     = Returned (FlightPriceResult.mk [] []).
Proof.
  split; [exact pricesOnly_found|]. split; [exact pricesOnly_other|].
  pose proof (missing_markup_result (D := Sample.pricesOnlyDom)
                                    (js "BUD") (js "MAN"))
    as (_ & _ & _ & Hnone & _).
  exact (Hnone pricesOnly_found pricesOnly_other).
Defined.

(** C7 (counterexample). On the page on which nothing matches the pipeline
    does not return [{ flights: [], datePrices: [] }]: it rejects with
    [TimeoutError]. *)
Lemma empty_document_throws :
  (forall selector,
      querySelectorAll (Dom := Sample.emptyDom) document selector = [])
  /\ checkRyanairPrice (D := Sample.emptyDom) (js "BUD") (js "MAN")
     = Thrown TimeoutError
  /\ checkRyanairPrice (D := Sample.emptyDom) (js "BUD") (js "MAN")
     <> Returned (FlightPriceResult.mk [] [])
  /\ Index3.checkRyanairPrice (D := Sample.emptyDom) = Thrown TimeoutError.
Proof.
  split; [reflexivity|]. split; [reflexivity|].
  split; [discriminate | reflexivity].
Qed.

(** The other sample pages pass the wait of line 94, and the screenshot of
    line 215 is taken on those without a flight card. *)
Example sample_pages_returned :
  checkRyanairPrice (D := Sample.datesDom) (js "BUD") (js "MAN")
  = Returned (extractResult (D := Sample.datesDom) (js "BUD") (js "MAN"))
  /\ checkRyanairPrice (D := Sample.headerDom) (js "BUD") (js "MAN")
     = Returned (extractResult (D := Sample.headerDom) (js "BUD") (js "MAN"))
  /\ checkRyanairPrice (D := Sample.slotsDom) (js "BUD") (js "MAN")
     = Returned (extractResult (D := Sample.slotsDom) (js "BUD") (js "MAN"))
  /\ checkRyanairPrice (D := Sample.containersDom) (js "BUD") (js "MAN")
     = Returned (extractResult (D := Sample.containersDom) (js "BUD") (js "MAN"))
  /\ checkRyanairPrice (D := Sample.cardsDom) (js "BUD") (js "MAN")
     = Returned (extractResult (D := Sample.cardsDom) (js "BUD") (js "MAN"))
  /\ checkRyanairPrice (D := Sample.unparsableDom) (js "BUD") (js "MAN")
     = Returned (extractResult (D := Sample.unparsableDom) (js "BUD") (js "MAN"))
  /\ checkRyanairPrice (D := Sample.twoSelectedDom) (js "BUD") (js "MAN")
     = Returned (extractResult (D := Sample.twoSelectedDom) (js "BUD") (js "MAN"))
  /\ Index3.checkRyanairPrice (D := Sample.datesDom)
     = Returned (Index3.extractResult (D := Sample.datesDom))
  /\ screenshots (D := Sample.containersDom) (js "BUD") (js "MAN")
     = ["ryanair-debug.png"%string]
  /\ screenshots (D := Sample.cardsDom) (js "BUD") (js "MAN") = []
  /\ screenshots (D := Sample.emptyDom) (js "BUD") (js "MAN") = [].
Proof. repeat split; reflexivity. Qed.


Lemma containers_scan :
  containersByMarkup (D := Sample.containersDom) (M := Sample.containersMarkup).
Proof. reflexivity. Defined.

Lemma slots_scan :
  containersByMarkup (D := Sample.slotsDom) (M := Sample.slotsMarkup).
Proof. reflexivity. Defined.

(** C8 (witness): on the page of two containers, without a flight card, the
    first tier is the offers of the scanned containers; both [div] elements
    are scanned, and the first, with a time-like and a price-like element,
    yields the one offer. *)
Lemma alternative_extractor_scan_witness :
  containersByMarkup (D := Sample.containersDom) (M := Sample.containersMarkup)
  /\ flightCards (D := Sample.containersDom) = []
  /\ tier1 (D := Sample.containersDom) (js "BUD") (js "MAN")
     = moreFlights (D := Sample.containersDom)
  /\ allFlightContainers (D := Sample.containersDom) = [1%nat; 5%nat]
  /\ map Some (moreFlights (D := Sample.containersDom))
     = map (alternativeFlightOf (D := Sample.containersDom))
           (filter (hasTimeAndPrice (D := Sample.containersDom))
                   (filter (isFlightContainer (M := Sample.containersMarkup))
                           (allElements (Markup := Sample.containersMarkup))))
  /\ map FlightData.price (moreFlights (D := Sample.containersDom))
     = [js "45 Ft"].
Proof.
  pose proof (alternative_extractor_scan (M := Sample.containersMarkup)
                (js "BUD") (js "MAN") containers_scan)
    as (_ & Hnone & _ & _ & Hmap & _).
  split; [exact containers_scan|]. split; [reflexivity|].
  split; [exact (Hnone eq_refl)|]. split; [reflexivity|].
  split; [exact Hmap | reflexivity].
Defined.

(** Of the two containers of that page the first, with a time-like and a
    price-like element, yields an offer; the second yields none. *)
Example containers_offers :
  map (hasTimeAndPrice (D := Sample.containersDom))
      (allFlightContainers (D := Sample.containersDom))
  = [true; false]
  /\ map FlightData.price (moreFlights (D := Sample.containersDom))
     = [js "45 Ft"].
Proof. split; reflexivity. Qed.

(** C8 (counterexample). On the page with time slots the first
    [section class="journey-info"] has a class attribute that contains
    [journey], a time-like element ([flight-info__hour]) and a price-like
    element ([price]) under it, and no flight card is found; yet it is not
    scanned, being no [div], and the extractor yields no offer. *)
Lemma journey_section_not_scanned :
  containersByMarkup (D := Sample.slotsDom) (M := Sample.slotsMarkup)
  /\ flightCards (D := Sample.slotsDom) = []
  /\ In 7%nat (allElements (Markup := Sample.slotsMarkup))
  /\ localName (Markup := Sample.slotsMarkup) 7%nat = "section"%string
  /\ className (Markup := Sample.slotsMarkup) 7%nat = "journey-info"%string
  /\ hasFlightLikeClass (M := Sample.slotsMarkup) 7%nat = true
  /\ hasTimeAndPrice (D := Sample.slotsDom) 7%nat = true
  /\ ~ In 7%nat (allFlightContainers (D := Sample.slotsDom))
  /\ moreFlights (D := Sample.slotsDom) = []
  /\ tier1 (D := Sample.slotsDom) (js "BUD") (js "MAN") = [].
Proof.
  split; [exact slots_scan|]. split; [reflexivity|].
  split; [vm_compute; tauto|].
  split; [reflexivity|]. split; [reflexivity|]. split; [reflexivity|].
  split; [reflexivity|]. split; [intros []|]. split; reflexivity.
Qed.

Lemma header_from : yieldsText (D := Sample.headerDom) document Sel.fromCode (js "LHBP").
Proof.
  exists 7%nat. split; [reflexivity|]. split; [reflexivity | discriminate].
Defined.

Lemma header_to : yieldsNothing (D := Sample.headerDom) document Sel.toCode.
Proof. left. reflexivity. Defined.

(** C9 (witness): the page with a date strip and the airport code [LHBP] in
    the header, and neither flight card nor time slot.  The one offer of the
    result is the synthetic offer; its origin is the text of the header, not
    the origin ["BUD"] of the query, and its destination, which the page
    does not give, is the destination ["MAN"] of the query. *)
Lemma airports_by_extractor_witness :
  yieldsText (D := Sample.headerDom) document Sel.fromCode (js "LHBP")
  /\ yieldsNothing (D := Sample.headerDom) document Sel.toCode
  /\ FlightPriceResult.flights
       (extractResult (D := Sample.headerDom) (js "BUD") (js "MAN"))
     = [genericFlight (D := Sample.headerDom) (js "BUD") (js "MAN")
                      (datePriceOf (D := Sample.headerDom) 2%nat)]
  /\ FlightData.fromAirport
       (genericFlight (D := Sample.headerDom) (js "BUD") (js "MAN")
                      (datePriceOf (D := Sample.headerDom) 2%nat))
     = js "LHBP"
  /\ FlightData.toAirport
       (genericFlight (D := Sample.headerDom) (js "BUD") (js "MAN")
                      (datePriceOf (D := Sample.headerDom) 2%nat))
     = js "MAN".
Proof.
  pose proof (airports_by_extractor (D := Sample.headerDom) (js "BUD") (js "MAN"))
    as (_ & _ & Hgeneric & _).
  destruct (Hgeneric (datePriceOf (D := Sample.headerDom) 2%nat))
    as (Hfrom & _ & _ & Hto).
  split; [exact header_from|]. split; [exact header_to|].
  split; [reflexivity|].
  split; [exact (Hfrom _ header_from) | exact (Hto header_to)].
Defined.

(** C9 (counterexample). On the page of two containers the page-level
    airport codes are empty and the container has no airport-like element, so
    nothing on the page supplies an airport code; the one offer of the result
    has ["N/A"] for both airports, not the origin ["BUD"] and destination
    ["MAN"] of the query. *)
Lemma alternative_offer_airports :
  checkRyanairPrice (D := Sample.containersDom) (js "BUD") (js "MAN")
  = Returned (extractResult (D := Sample.containersDom) (js "BUD") (js "MAN"))
  /\ AdditionalInfo.fromAirport (additionalInfo (D := Sample.containersDom)) = []
  /\ AdditionalInfo.toAirport (additionalInfo (D := Sample.containersDom)) = []
  /\ querySelectorAll (Dom := Sample.containersDom) 1%nat
                      (Sel.join Sel.airportSelectors) = []
  /\ map FlightData.fromAirport
         (FlightPriceResult.flights
            (extractResult (D := Sample.containersDom) (js "BUD") (js "MAN")))
     = [js "N/A"]
  /\ map FlightData.toAirport
         (FlightPriceResult.flights
            (extractResult (D := Sample.containersDom) (js "BUD") (js "MAN")))
     = [js "N/A"]
  /\ js "N/A" <> js "BUD"
  /\ js "N/A" <> js "MAN".
Proof.
  repeat split; try reflexivity; vm_compute; discriminate.
Qed.

(** C10 (witness): the selected date item of the date strip and the first
    flight card of the page with cards. *)
Lemma price_representations_witness :
  In (datePriceOf (D := Sample.datesDom) 2%nat) (datePrices (D := Sample.datesDom))
  /\ (DatePrice.price (datePriceOf (D := Sample.datesDom) 2%nat) = js "N/A"
      \/ (DatePrice.price (datePriceOf (D := Sample.datesDom) 2%nat) <> []
          /\ Forall (fun c => isAmountChar c = true)
                    (DatePrice.price (datePriceOf (D := Sample.datesDom) 2%nat))))
  /\ In (flightOf (D := Sample.cardsDom) (js "MAN") (js "BUD") 1%nat)
        (cardFlights (D := Sample.cardsDom) (js "MAN") (js "BUD"))
  /\ exists before after,
       FlightData.price (flightOf (D := Sample.cardsDom) (js "MAN") (js "BUD") 1%nat)
       = before
         ++ FlightData.currency
              (flightOf (D := Sample.cardsDom) (js "MAN") (js "BUD") 1%nat)
         ++ after.
Proof.
  assert (Hdate : In (datePriceOf (D := Sample.datesDom) 2%nat)
                     (datePrices (D := Sample.datesDom)))
    by (right; left; reflexivity).
  assert (Hcard : In (flightOf (D := Sample.cardsDom) (js "MAN") (js "BUD") 1%nat)
                     (cardFlights (D := Sample.cardsDom) (js "MAN") (js "BUD")))
    by (left; reflexivity).
  pose proof (price_representations (D := Sample.datesDom) (js "BUD") (js "MAN"))
    as (Hdates & _).
  pose proof (price_representations (D := Sample.cardsDom) (js "BUD") (js "MAN"))
    as (_ & Hcards).
  destruct (Hdates _ Hdate) as (item & _ & _ & _ & Hchars).
  destruct (Hcards _ Hcard) as (card & _ & _ & _ & Hinfix).
  split; [exact Hdate | split; [exact Hchars | split; [exact Hcard | exact Hinfix]]].
Defined.

(** The date prices of the date strip hold the numeric runs, ["89"] and
    ["45"], with the currency apart; the offers of the flight cards hold the
    price texts, ["89 Ft"] and ["45 Ft"], and the currency as well. *)
Example price_representations_sample :
  map DatePrice.price (datePrices (D := Sample.datesDom)) = [js "89"; js "45"]
  /\ map DatePrice.currency (datePrices (D := Sample.datesDom))
     = [js "Ft"; js "Ft"]
  /\ map FlightData.price
         (cardFlights (D := Sample.cardsDom) (js "MAN") (js "BUD"))
     = [js "89 Ft"; js "45 Ft"]
  /\ map FlightData.currency
         (cardFlights (D := Sample.cardsDom) (js "MAN") (js "BUD"))
     = [js "Ft"; js "Ft"].
Proof. repeat split; reflexivity. Qed.

(** * Further properties of the code *)

(** ** Character classes and scans *)

Lemma isDigit_range (c : char) : isDigit c = true <-> 48 <= c <= 57.
Proof.
  unfold isDigit. rewrite andb_true_iff, !N.leb_le. reflexivity.
Qed.

Lemma isDigit_not_comma (c : char) : isDigit c = true -> isComma c = false.
Proof.
  intros H. apply isDigit_range in H. unfold isComma. apply N.eqb_neq. lia.
Qed.

Lemma isDigit_not_period (c : char) : isDigit c = true -> isPeriod c = false.
Proof.
  intros H. apply isDigit_range in H. unfold isPeriod. apply N.eqb_neq. lia.
Qed.

Lemma isDigit_amount (c : char) : isDigit c = true -> isAmountChar c = true.
Proof. intros H. unfold isAmountChar. now rewrite H. Qed.

Lemma isAmountChar_amountOrSpace (c : char) :
  isAmountChar c = true -> isAmountOrSpace c = true.
Proof.
  unfold isAmountChar, isAmountOrSpace.
  destruct (isDigit c), (isComma c), (isPeriod c), (isWhiteSpace c);
    simpl; congruence.
Qed.

Lemma takeWhile_app_all {A} (p : A -> bool) (a l : list A) :
  Forall (fun x => p x = true) a -> takeWhile p (a ++ l) = a ++ takeWhile p l.
Proof.
  induction 1 as [|x a Hx _ IH]; simpl; [reflexivity|].
  now rewrite Hx, IH.
Qed.

Lemma dropWhile_app_all {A} (p : A -> bool) (a l : list A) :
  Forall (fun x => p x = true) a -> dropWhile p (a ++ l) = dropWhile p l.
Proof.
  induction 1 as [|x a Hx _ IH]; simpl; [reflexivity|].
  now rewrite Hx.
Qed.

Lemma takeWhile_stop {A} (p : A -> bool) (l : list A) :
  l = [] \/ (exists x t, l = x :: t /\ p x = false) -> takeWhile p l = [].
Proof.
  intros [-> | (x & t & -> & Hx)]; simpl; [reflexivity | now rewrite Hx].
Qed.

Lemma dropWhile_stop {A} (p : A -> bool) (l : list A) :
  l = [] \/ (exists x t, l = x :: t /\ p x = false) -> dropWhile p l = l.
Proof.
  intros [-> | (x & t & -> & Hx)]; simpl; [reflexivity | now rewrite Hx].
Qed.

Lemma not_class_negb (cls : char -> bool) (l : jsstring) :
  Forall (fun c => cls c = false) l ->
  Forall (fun c => negb (cls c) = true) l.
Proof.
  intros H; eapply Forall_impl; [|exact H].
  intros c Hc; now apply negb_true_iff.
Qed.

(** A non-empty run of the class is its own match. *)
Lemma regexMatch_run (cls : char -> bool) (m : jsstring) :
  m <> [] -> Forall (fun c => cls c = true) m -> regexMatch cls m = Some m.
Proof.
  intros Hne Hall. unfold regexMatch.
  destruct m as [|x t]; [congruence|].
  inversion Hall as [|? ? Hx Ht]; subst.
  simpl. rewrite Hx. simpl. rewrite Hx. f_equal. f_equal.
  rewrite <- (app_nil_r t) at 1. rewrite (takeWhile_app_all _ _ _ Ht).
  simpl. apply app_nil_r.
Qed.

(** The match of a text that begins, after characters outside the class, with
    a run of the class that ends the text or is followed by a character
    outside the class. *)
Lemma regexMatch_at (cls : char -> bool) (before m after : jsstring) :
  Forall (fun c => cls c = false) before ->
  m <> [] ->
  Forall (fun c => cls c = true) m ->
  after = [] \/ (exists x t, after = x :: t /\ cls x = false) ->
  regexMatch cls (before ++ m ++ after) = Some m.
Proof.
  intros Hb Hne Hm Ha. unfold regexMatch.
  rewrite (dropWhile_app_all _ _ _ (not_class_negb _ _ Hb)).
  destruct m as [|x t]; [congruence|].
  inversion Hm as [|? ? Hx Ht]; subst.
  simpl. rewrite Hx. simpl. rewrite Hx. f_equal. f_equal.
  rewrite (takeWhile_app_all _ _ _ Ht), (takeWhile_stop _ _ Ha).
  apply app_nil_r.
Qed.

Lemma replaceAll_keep (cls : char -> bool) (l : jsstring) :
  Forall (fun c => cls c = false) l -> replaceAll cls l = l.
Proof.
  unfold replaceAll. induction 1 as [|x l Hx _ IH]; simpl; [reflexivity|].
  now rewrite Hx, IH.
Qed.

Lemma replaceAll_drop (cls : char -> bool) (l : jsstring) :
  Forall (fun c => cls c = true) l -> replaceAll cls l = [].
Proof.
  unfold replaceAll. induction 1 as [|x l Hx _ IH]; simpl; [reflexivity|].
  now rewrite Hx.
Qed.

Lemma replaceAll_app (cls : char -> bool) (a b : jsstring) :
  replaceAll cls (a ++ b) = replaceAll cls a ++ replaceAll cls b.
Proof. unfold replaceAll. apply filter_app. Qed.

Lemma replaceAll_chars (cls : char -> bool) (l : jsstring) :
  Forall (fun c => cls c = false) (replaceAll cls l).
Proof.
  unfold replaceAll. apply Forall_forall. intros c Hc.
  apply filter_In in Hc. destruct Hc as [_ Hc]. now apply negb_true_iff.
Qed.

Lemma digits_not_comma (l : jsstring) :
  Forall (fun c => isDigit c = true) l -> Forall (fun c => isComma c = false) l.
Proof.
  intros H; eapply Forall_impl; [|exact H]. apply isDigit_not_comma.
Qed.

Lemma digits_amount (l : jsstring) :
  Forall (fun c => isDigit c = true) l ->
  Forall (fun c => isAmountChar c = true) l.
Proof.
  intros H; eapply Forall_impl; [|exact H]. apply isDigit_amount.
Qed.

(** ** Rounding to binary64 *)

Lemma roundHalfEven_nonneg (n d : Z) :
  (0 <= n)%Z -> (0 < d)%Z -> (0 <= roundHalfEven n d)%Z.
Proof.
  intros Hn Hd. unfold roundHalfEven.
  pose proof (Z.div_pos n d Hn Hd) as Hq.
  destruct (2 * (n mod d) ?= d)%Z; [destruct (Z.even (n / d)) | |]; lia.
Qed.

Lemma roundHalfEven_exact (n : Z) : roundHalfEven n 1 = n.
Proof.
  unfold roundHalfEven. rewrite Z.mod_1_r, Z.div_1_r. reflexivity.
Qed.

Lemma Qred_nonneg (y : Q) : (0 <= y)%Q -> (0 <= Qred y)%Q.
Proof.
  intros H. eapply Qle_trans; [exact H|].
  apply Qle_lteq. right. symmetry. apply Qred_correct.
Qed.

Lemma Num_eq (a b : Q) : Num a = Num b -> a = b.
Proof. intros H; injection H as ->; reflexivity. Qed.

Lemma toDouble_nonneg (x q : Q) : toDouble x = Num q -> (0 <= q)%Q.
Proof.
  unfold toDouble.
  destruct (Qnum x <=? 0)%Z eqn:Hn.
  - intros H; injection H as <-. apply Qle_refl.
  - apply Z.leb_gt in Hn.
    destruct (Qle_bool overflowThreshold x); [discriminate|].
    set (p := Z.max (binade (Qnum x) (Zpos (Qden x)) - 52) (- 1074)).
    destruct (0 <=? p)%Z eqn:Hp; intros H; apply Num_eq in H; rewrite <- H;
      apply Qred_nonneg.
    + apply Z.leb_le in Hp.
      assert (0 <= roundHalfEven (Qnum x) (Zpos (Qden x) * 2 ^ p))%Z.
      { apply roundHalfEven_nonneg; [lia|].
        apply Z.mul_pos_pos; [reflexivity | now apply Z.pow_pos_nonneg]. }
      assert (0 < 2 ^ p)%Z by now apply Z.pow_pos_nonneg.
      change 0%Q with (inject_Z 0). rewrite <- Zle_Qle.
      apply Z.mul_nonneg_nonneg; lia.
    + assert (0 <= roundHalfEven (Qnum x * 2 ^ (- p)) (Zpos (Qden x)))%Z.
      { apply roundHalfEven_nonneg; [|reflexivity].
        apply Z.mul_nonneg_nonneg; [lia | apply Z.pow_nonneg; lia]. }
      unfold Qle; cbn [Qnum Qden]. lia.
Qed.

Lemma pow2_53_below_threshold :
  Qle_bool overflowThreshold (inject_Z (2 ^ 53)) = false.
Proof. vm_compute. reflexivity. Qed.

Lemma Qle_bool_false_below (t x y : Q) :
  Qle_bool t y = false -> (x <= y)%Q -> Qle_bool t x = false.
Proof.
  intros Hy Hxy. destruct (Qle_bool t x) eqn:E; [|reflexivity].
  apply Qle_bool_iff in E.
  assert (H : Qle_bool t y = true)
    by (apply Qle_bool_iff; eapply Qle_trans; eassumption).
  congruence.
Qed.

Lemma binade_integer (n : Z) :
  (0 < n < 2 ^ 53)%Z -> (binade n 1 <= 52)%Z.
Proof.
  intros [Hpos Hlt]. unfold binade.
  assert (Hlog : (Z.log2 n < 53)%Z) by (apply Z.log2_lt_pow2; lia).
  change (Z.log2 1) with 0%Z. rewrite Z.sub_0_r.
  destruct (if (0 <=? Z.log2 n)%Z then _ else _); lia.
Qed.

Lemma Qred_inject_Z (n : Z) : Qred (inject_Z n) = inject_Z n.
Proof.
  unfold Qred, inject_Z.
  pose proof (Z.ggcd_gcd n 1) as Hg.
  pose proof (Z.ggcd_correct_divisors n 1) as Hd.
  destruct (Z.ggcd n 1) as (g, (aa, bb)). simpl in Hg, Hd |- *.
  rewrite Z.gcd_1_r in Hg. subst g. destruct Hd as [H1 H2].
  assert (Ha : aa = n) by lia. assert (Hb : bb = 1%Z) by lia.
  rewrite Ha, Hb. reflexivity.
Qed.

(** Values of the rounding: one tenth; the ties above 2^53, which go to the
    even significand; the largest binary64 and the overflow next to it; the
    least subnormal number and the underflow to zero. *)
Example toDouble_samples :
  toDouble (1 # 10) = Num (3602879701896397 # 36028797018963968)
  /\ toDouble (inject_Z (2 ^ 53 + 1)) = Num (inject_Z (2 ^ 53))
  /\ toDouble (inject_Z (2 ^ 53 + 3)) = Num (inject_Z (2 ^ 53 + 4))
  /\ toDouble (inject_Z (2 ^ 1024 - 2 ^ 970 - 1))
     = Num (inject_Z (2 ^ 1024 - 2 ^ 971))
  /\ toDouble (inject_Z (2 ^ 1024 - 2 ^ 970)) = Infinity
  /\ toDouble (3 # Z.to_pos (2 ^ 1076)) = Num (1 # Z.to_pos (2 ^ 1074))
  /\ toDouble (1 # Z.to_pos (2 ^ 1075)) = Num 0.
Proof. repeat split; vm_compute; reflexivity. Qed.

(** An integer below [2^53] is a binary64 value: it is not rounded. *)
Lemma toDouble_integer (n : Z) :
  (0 <= n < 2 ^ 53)%Z -> toDouble (inject_Z n) = Num (inject_Z n).
Proof.
  intros [Hpos Hlt]. unfold toDouble.
  change (Qnum (inject_Z n)) with n. change (Zpos (Qden (inject_Z n))) with 1%Z.
  destruct (n <=? 0)%Z eqn:Hn.
  - apply Z.leb_le in Hn. assert (n = 0%Z) by lia. subst. reflexivity.
  - apply Z.leb_gt in Hn.
    rewrite (Qle_bool_false_below _ (inject_Z n) _ pow2_53_below_threshold)
      by (unfold Qle; simpl; lia).
    pose proof (binade_integer n (conj Hn Hlt)) as He.
    set (p := Z.max (binade n 1 - 52) (- 1074)).
    assert (Hp : (- 1074 <= p <= 0)%Z) by (unfold p; lia).
    destruct (0 <=? p)%Z eqn:Hp0.
    + apply Z.leb_le in Hp0. assert (Hz : p = 0%Z) by lia. rewrite Hz.
      change (1 * 2 ^ 0)%Z with 1%Z. rewrite roundHalfEven_exact.
      change (2 ^ 0)%Z with 1%Z. rewrite Z.mul_1_r.
      f_equal. apply Qred_inject_Z.
    + rewrite roundHalfEven_exact. f_equal.
      assert (Hpow : (0 < 2 ^ (- p))%Z) by (apply Z.pow_pos_nonneg; lia).
      rewrite <- (Qred_inject_Z n).
      apply Qred_complete. unfold Qeq; cbn [Qnum Qden inject_Z].
      rewrite Z2Pos.id by exact Hpow. lia.
Qed.

(** ** [parseFloat] and [getPriceNumeric] *)

Lemma parseFloat_nonneg (s : jsstring) (q : Q) :
  parseFloat s = Num q -> (0 <= q)%Q.
Proof.
  unfold parseFloat.
  destruct (takeWhile isDigit s ++ _) as [|d ds]; [discriminate|].
  apply toDouble_nonneg.
Qed.

Lemma parseFloat_digits (a : jsstring) (rest : jsstring) :
  a <> [] ->
  Forall (fun c => isDigit c = true) a ->
  rest = [] \/ (exists x t, rest = x :: t /\ isDigit x = false /\ isPeriod x = false) ->
  parseFloat (a ++ rest) = toDouble (Z.of_N (digitsValue a) # 1).
Proof.
  intros Hne Ha Hrest. unfold parseFloat.
  assert (Hstop : rest = [] \/ exists x t, rest = x :: t /\ isDigit x = false).
  { destruct Hrest as [-> | (x & t & -> & Hx & _)]; [now left | right; eauto]. }
  rewrite (takeWhile_app_all _ _ _ Ha), (takeWhile_stop _ _ Hstop), app_nil_r.
  rewrite (dropWhile_app_all _ _ _ Ha), (dropWhile_stop _ _ Hstop).
  assert (Hfrac : match rest with
                  | c :: r => if isPeriod c then takeWhile isDigit r else []
                  | [] => []
                  end = []).
  { destruct Hrest as [-> | (x & t & -> & _ & Hx)]; [reflexivity | now rewrite Hx]. }
  rewrite Hfrac, app_nil_r.
  destruct a as [|d ds]; [congruence | reflexivity].
Qed.

Lemma parseFloat_fraction (a b rest : jsstring) :
  a ++ b <> [] ->
  Forall (fun c => isDigit c = true) a ->
  Forall (fun c => isDigit c = true) b ->
  rest = [] \/ (exists x t, rest = x :: t /\ isDigit x = false) ->
  parseFloat (a ++ 46 :: b ++ rest)
  = toDouble (Z.of_N (digitsValue (a ++ b))
              # Z.to_pos (10 ^ Z.of_nat (List.length b))).
Proof.
  intros Hne Ha Hb Hrest. unfold parseFloat.
  assert (Hperiod : exists x t, 46 :: b ++ rest = x :: t /\ isDigit x = false).
  { exists 46, (b ++ rest). split; reflexivity. }
  rewrite (takeWhile_app_all _ _ _ Ha), (takeWhile_stop _ (46 :: b ++ rest)),
    app_nil_r by (right; exact Hperiod).
  rewrite (dropWhile_app_all _ _ _ Ha). simpl dropWhile.
  cbv beta iota. change (isPeriod 46) with true. cbv iota.
  rewrite (takeWhile_app_all _ _ _ Hb), (takeWhile_stop _ _ Hrest), app_nil_r.
  destruct (a ++ b) as [|d ds] eqn:E; [congruence | reflexivity].
Qed.

Lemma regexMatch_skip (cls : char -> bool) (before : jsstring) (x : char)
  (t : jsstring) :
  Forall (fun c => cls c = false) before ->
  cls x = true ->
  regexMatch cls (before ++ x :: t) = Some (takeWhile cls (x :: t)).
Proof.
  intros Hb Hx. unfold regexMatch.
  rewrite (dropWhile_app_all _ _ _ (not_class_negb _ _ Hb)).
  simpl dropWhile. rewrite Hx. reflexivity.
Qed.

Lemma regexMatch_none (cls : char -> bool) (s : jsstring) :
  regexMatch cls s = None <-> Forall (fun c => cls c = false) s.
Proof.
  unfold regexMatch. split.
  - destruct (dropWhile (fun c => negb (cls c)) s) eqn:E; [|discriminate].
    intros _. apply negb_true_false. now apply dropWhile_nil_all.
  - intros H.
    destruct (dropWhile (fun c => negb (cls c)) s) as [|x r] eqn:E;
      [reflexivity|].
    exfalso.
    assert (Hin : In x s).
    { apply (dropWhile_incl (fun c => negb (cls c))). rewrite E. now left. }
    apply dropWhile_head in E. apply negb_false_iff in E.
    rewrite Forall_forall in H. rewrite (H x Hin) in E. discriminate.
Qed.

Lemma length_takeWhile_dropWhile {A} (p : A -> bool) (l : list A) :
  (List.length (takeWhile p l) + List.length (dropWhile p l))%nat = List.length l.
Proof.
  rewrite <- length_app. now rewrite takeWhile_dropWhile.
Qed.

Lemma regexMatch_length (cls : char -> bool) (s m : jsstring) :
  regexMatch cls s = Some m -> (List.length m <= List.length s)%nat.
Proof.
  unfold regexMatch.
  pose proof (length_takeWhile_dropWhile (fun c => negb (cls c)) s) as H1.
  destruct (dropWhile (fun c => negb (cls c)) s) as [|x r]; [discriminate|].
  intros H. apply Some_eq in H. rewrite <- H.
  pose proof (length_takeWhile_dropWhile cls (x :: r)) as H2. lia.
Qed.

Lemma replaceAll_length (cls : char -> bool) (s : jsstring) :
  (List.length (replaceAll cls s) <= List.length s)%nat.
Proof. unfold replaceAll. apply filter_length_le. Qed.

Lemma digitsValue_bound (ds : jsstring) :
  Forall (fun c => isDigit c = true) ds ->
  (Z.of_N (digitsValue ds) < 10 ^ Z.of_nat (List.length ds))%Z.
Proof.
  intros H. unfold digitsValue.
  assert (Hacc : forall acc,
             fold_left (fun acc c => 10 * acc + digitValue c) ds acc + 1
             <= (acc + 1) * 10 ^ N.of_nat (List.length ds)).
  { induction H as [|c ds Hc _ IH]; intros acc.
    - simpl. lia.
    - cbn [fold_left List.length]. rewrite Nat2N.inj_succ, N.pow_succ_r'.
      specialize (IH (10 * acc + digitValue c)).
      apply isDigit_range in Hc. unfold digitValue in *.
      assert (Hstep : 10 * acc + (c - 48) + 1 <= (acc + 1) * 10) by lia.
      eapply N.le_trans; [exact IH|].
      rewrite N.mul_assoc.
      apply N.mul_le_mono_r. exact Hstep. }
  specialize (Hacc 0). rewrite N.mul_1_l in Hacc.
  assert (Hlt : fold_left (fun acc c => 10 * acc + digitValue c) ds 0
                < 10 ^ N.of_nat (List.length ds)) by lia.
  apply N2Z.inj_lt in Hlt. rewrite N2Z.inj_pow in Hlt.
  now rewrite nat_N_Z in Hlt.
Qed.

Lemma toDouble_Infinity (x : Q) :
  toDouble x = Infinity -> (overflowThreshold <= x)%Q.
Proof.
  unfold toDouble.
  destruct (Qnum x <=? 0)%Z; [discriminate|].
  destruct (Qle_bool overflowThreshold x) eqn:E;
    [intros _; now apply Qle_bool_iff|].
  destruct (0 <=? _)%Z; discriminate.
Qed.

Lemma pow10_308_below_threshold :
  (inject_Z (10 ^ 308) < overflowThreshold)%Q.
Proof.
  unfold overflowThreshold. rewrite <- Zlt_Qlt.
  apply Z.ltb_lt. vm_compute. reflexivity.
Qed.

(** A run of at most 308 characters does not overflow. *)
Lemma parseFloat_short (s : jsstring) :
  (List.length s <= 308)%nat -> parseFloat s <> Infinity.
Proof.
  intros Hlen. unfold parseFloat.
  pose proof (length_takeWhile_dropWhile isDigit s) as Hsplit.
  pose proof (takeWhile_all isDigit s) as Hint.
  set (intPart := takeWhile isDigit s) in *.
  set (fracPart := match dropWhile isDigit s with
                   | c :: r => if isPeriod c then takeWhile isDigit r else []
                   | [] => []
                   end).
  assert (Hfrac : Forall (fun c => isDigit c = true) fracPart
                  /\ (List.length fracPart <= List.length (dropWhile isDigit s))%nat).
  { unfold fracPart. destruct (dropWhile isDigit s) as [|c r];
      [split; [constructor | simpl; lia]|].
    destruct (isPeriod c); [|split; [constructor | simpl; lia]].
    split; [apply takeWhile_all|].
    pose proof (length_takeWhile_dropWhile isDigit r). simpl. lia. }
  destruct Hfrac as [Hfrac Hfraclen].
  assert (Hds : Forall (fun c => isDigit c = true) (intPart ++ fracPart))
    by (apply Forall_app; split; assumption).
  assert (Hdslen : (List.length (intPart ++ fracPart) <= 308)%nat)
    by (rewrite length_app; lia).
  destruct (intPart ++ fracPart) as [|d ds] eqn:E; [discriminate|].
  intros Hinf. apply toDouble_Infinity in Hinf.
  pose proof (digitsValue_bound _ Hds) as Hbound.
  set (v := Z.of_N (digitsValue (d :: ds))) in *.
  assert (Hv : (0 <= v)%Z) by apply N2Z.is_nonneg.
  assert (Hx : (v # Z.to_pos (10 ^ Z.of_nat (List.length fracPart))
                <= inject_Z v)%Q).
  { unfold Qle; cbn [Qnum Qden inject_Z]. nia. }
  assert (Hpow : (10 ^ Z.of_nat (List.length (d :: ds)) <= 10 ^ 308)%Z)
    by (apply Z.pow_le_mono_r; lia).
  assert (Hlt : (inject_Z v < inject_Z (10 ^ 308))%Q)
    by (rewrite <- Zlt_Qlt; eapply Z.lt_le_trans; eassumption).
  apply (Qlt_irrefl overflowThreshold).
  eapply Qle_lt_trans; [exact Hinf|].
  eapply Qle_lt_trans; [exact Hx|].
  eapply Qlt_trans; [exact Hlt | exact pow10_308_below_threshold].
Qed.

(** X1. [getPriceNumeric] returns [Infinity] for every price text without a
    digit, comma or period; for a text of at most 308 code units it returns
    [Infinity] only then (a longer run of digits overflows to [Infinity]);
    and a number it returns is never negative. *)
Theorem getPriceNumeric_Infinity_iff (price : jsstring) :
  (Forall (fun c => isAmountChar c = false) price ->
   getPriceNumeric price = Infinity)
  /\ ((List.length price <= 308)%nat ->
      getPriceNumeric price = Infinity ->
      Forall (fun c => isAmountChar c = false) price)
  /\ (forall q, getPriceNumeric price = Num q -> (0 <= q)%Q).
Proof.
  unfold getPriceNumeric. split; [|split].
  - intros H. apply regexMatch_none in H. now rewrite H.
  - intros Hlen.
    destruct (regexMatch isAmountChar price) as [m|] eqn:E.
    + intros Hinf. exfalso. revert Hinf. apply parseFloat_short.
      pose proof (regexMatch_length _ _ _ E).
      pose proof (replaceAll_length isComma m). lia.
    + intros _. now apply regexMatch_none.
  - intros q. destruct (regexMatch isAmountChar price) as [m|];
      [apply parseFloat_nonneg | discriminate].
Qed.

(** A run of 310 digits converts to [Infinity]; the integer
    9007199254740993 is read as 9007199254740992, so that two flights with
    these two prices tie and the later one is kept. *)
Example getPriceNumeric_rounds :
  getPriceNumeric (repeat 57 310) = Infinity
  /\ getPriceNumeric (js "9007199254740993") = Num (9007199254740992 # 1)
  /\ cheapestFlight FlightData.price
       [Sample.offer "FR 1" "9007199254740993";
        Sample.offer "FR 2" "9007199254740992"]
     = Some (Sample.offer "FR 2" "9007199254740992")
  /\ cheapestFlight FlightData.price
       [Sample.offer "FR 1" "9007199254740992";
        Sample.offer "FR 2" "9007199254740993"]
     = Some (Sample.offer "FR 2" "9007199254740993").
Proof. repeat split; vm_compute; reflexivity. Qed.

Lemma amount_run_grouped (a b : jsstring) :
  a <> [] ->
  Forall (fun c => isDigit c = true) a ->
  Forall (fun c => isDigit c = true) b ->
  a ++ 44 :: b <> []
  /\ Forall (fun c => isAmountChar c = true) (a ++ 44 :: b)
  /\ replaceAll isComma (a ++ 44 :: b) = a ++ b.
Proof.
  intros Hne Ha Hb. split; [|split].
  - destruct a; [congruence | discriminate].
  - apply Forall_app. split; [now apply digits_amount|].
    constructor; [reflexivity | now apply digits_amount].
  - rewrite replaceAll_app. change (44 :: b) with ([44] ++ b).
    rewrite replaceAll_app.
    rewrite (replaceAll_keep _ a (digits_not_comma _ Ha)).
    rewrite (replaceAll_keep _ b (digits_not_comma _ Hb)).
    reflexivity.
Qed.

(** X2. Commas are read as thousands separators and a period as the decimal
    point: where the first run of digits, commas and periods of a price text
    is [a,b] for digit groups [a] (not empty) and [b], the value is the
    binary64 number nearest to the integer written [ab], which is that
    integer itself when it is below 2^53; where the run is [a,b.c], the value
    is the binary64 number nearest to [abc] divided by ten to the number of
    digits of [c]. *)
Theorem getPriceNumeric_grouped (before a b c rest : jsstring) :
  Forall (fun x => isAmountChar x = false) before ->
  a <> [] ->
  Forall (fun x => isDigit x = true) a ->
  Forall (fun x => isDigit x = true) b ->
  Forall (fun x => isDigit x = true) c ->
  rest = [] \/ (exists x t, rest = x :: t /\ isAmountChar x = false) ->
  getPriceNumeric (before ++ (a ++ 44 :: b) ++ rest)
  = toDouble (Z.of_N (digitsValue (a ++ b)) # 1)
  /\ ((Z.of_N (digitsValue (a ++ b)) < 2 ^ 53)%Z ->
      getPriceNumeric (before ++ (a ++ 44 :: b) ++ rest)
      = Num (Z.of_N (digitsValue (a ++ b)) # 1))
  /\ getPriceNumeric (before ++ ((a ++ 44 :: b) ++ 46 :: c) ++ rest)
     = toDouble (Z.of_N (digitsValue ((a ++ b) ++ c))
                 # Z.to_pos (10 ^ Z.of_nat (List.length c))).
Proof.
  intros Hbefore Hne Ha Hb Hc Hrest.
  destruct (amount_run_grouped a b Hne Ha Hb) as (Hrun & Hamount & Hstrip).
  assert (Hab : a ++ b <> []) by (destruct a; [congruence | discriminate]).
  assert (Hdigits : Forall (fun x => isDigit x = true) (a ++ b))
    by (apply Forall_app; split; assumption).
  assert (Hfirst : getPriceNumeric (before ++ (a ++ 44 :: b) ++ rest)
                   = toDouble (Z.of_N (digitsValue (a ++ b)) # 1)).
  { unfold getPriceNumeric.
    rewrite (regexMatch_at _ _ _ _ Hbefore Hrun Hamount Hrest), Hstrip.
    rewrite <- (app_nil_r (a ++ b)) at 1.
    apply parseFloat_digits; [exact Hab | exact Hdigits | now left]. }
  split; [exact Hfirst | split].
  - intros Hsmall. rewrite Hfirst.
    apply (toDouble_integer (Z.of_N (digitsValue (a ++ b)))).
    split; [apply N2Z.is_nonneg | exact Hsmall].
  - unfold getPriceNumeric.
    rewrite (regexMatch_at _ before ((a ++ 44 :: b) ++ 46 :: c) rest Hbefore).
    + rewrite replaceAll_app, Hstrip. change (46 :: c) with ([46] ++ c).
      rewrite replaceAll_app, (replaceAll_keep _ c (digits_not_comma _ Hc)).
      change (replaceAll isComma [46]) with [46]. simpl app.
      rewrite <- (app_nil_r c) at 1.
      apply parseFloat_fraction; [| exact Hdigits | exact Hc | now left].
      destruct (a ++ b); [congruence | discriminate].
    + destruct (a ++ 44 :: b); [congruence | discriminate].
    + apply Forall_app. split; [exact Hamount|].
      constructor; [reflexivity | now apply digits_amount].
    + exact Hrest.
Qed.

(** X2 (witness): the price texts ["from 1,234 Ft"], read as 1234, and
    ["from 1,234.50 Ft"], read as 1234.5. *)
Lemma getPriceNumeric_grouped_witness :
  getPriceNumeric (js "from 1,234 Ft") = Num (1234 # 1)
  /\ getPriceNumeric (js "from 1,234.50 Ft") = Num (2469 # 2).
Proof.
  destruct (getPriceNumeric_grouped
              (js "from ") (js "1") (js "234") (js "50") (js " Ft"))
    as (_ & Hexact & Hfraction).
  - repeat constructor.
  - discriminate.
  - repeat constructor.
  - repeat constructor.
  - repeat constructor.
  - right. exists 32, (js "Ft"). split; reflexivity.
  - split.
    + apply Hexact. reflexivity.
    + etransitivity; [exact Hfraction | vm_compute; reflexivity].
Defined.

(** X3. [parseFloat] stops at a second period: where the first run of a price
    text begins [a.b.] for digit groups [a] and [b], not both empty, the value
    is the binary64 number nearest to [a.b], whatever follows the second
    period. *)
Theorem getPriceNumeric_second_period (before a b tail : jsstring) :
  Forall (fun x => isAmountChar x = false) before ->
  a ++ b <> [] ->
  Forall (fun x => isDigit x = true) a ->
  Forall (fun x => isDigit x = true) b ->
  getPriceNumeric (before ++ a ++ 46 :: b ++ 46 :: tail)
  = toDouble (Z.of_N (digitsValue (a ++ b))
              # Z.to_pos (10 ^ Z.of_nat (List.length b))).
Proof.
  intros Hbefore Hne Ha Hb. unfold getPriceNumeric.
  assert (Hhead : exists x t, a ++ 46 :: b ++ 46 :: tail = x :: t
                              /\ isAmountChar x = true).
  { destruct a as [|d ds].
    - exists 46, (b ++ 46 :: tail). split; reflexivity.
    - exists d, (ds ++ 46 :: b ++ 46 :: tail). split; [reflexivity|].
      inversion Ha; subst. now apply isDigit_amount. }
  destruct Hhead as (x & t & Heq & Hx). rewrite Heq.
  rewrite (regexMatch_skip _ _ _ _ Hbefore Hx), <- Heq.
  rewrite (takeWhile_app_all _ _ _ (digits_amount _ Ha)).
  simpl takeWhile at 1. change (isAmountChar 46) with true. cbv iota.
  rewrite (takeWhile_app_all _ _ _ (digits_amount _ Hb)).
  simpl takeWhile at 1. change (isAmountChar 46) with true. cbv iota.
  rewrite replaceAll_app, (replaceAll_keep _ a (digits_not_comma _ Ha)).
  change (46 :: b ++ 46 :: takeWhile isAmountChar tail)
    with ([46] ++ b ++ [46] ++ takeWhile isAmountChar tail).
  rewrite !replaceAll_app, (replaceAll_keep _ b (digits_not_comma _ Hb)).
  change (replaceAll isComma [46]) with [46]. simpl app.
  apply parseFloat_fraction; [exact Hne | exact Ha | exact Hb |].
  right. exists 46, (replaceAll isComma (takeWhile isAmountChar tail)).
  split; reflexivity.
Qed.

(** X3 (witness): the price text ["1.234.567 Ft"] has the value of
    ["1.234"]. *)
Lemma getPriceNumeric_second_period_witness :
  getPriceNumeric (js "1.234.567 Ft") = getPriceNumeric (js "1.234").
Proof.
  etransitivity.
  - apply (getPriceNumeric_second_period [] (js "1") (js "234") (js "567 Ft")).
    + constructor.
    + discriminate.
    + repeat constructor.
    + repeat constructor.
  - vm_compute. reflexivity.
Defined.

(** ** The price conversion and the fold of the second script of [index.ts] *)

Lemma priceNumber2_not_NaN (price : jsstring) : priceNumber2 price <> NaN.
Proof.
  unfold priceNumber2, orInfinity.
  destruct (parseFloat _) as [| |q]; try discriminate.
  destruct (Qeq_bool q 0); discriminate.
Qed.

(** X4. The conversion of the second script never returns [NaN], zero or a
    negative number: a price text without a readable number, and a price of
    zero as well, converts to [Infinity]. *)
Theorem priceNumber2_range (price : jsstring) :
  priceNumber2 price <> NaN
  /\ (forall q, priceNumber2 price = Num q -> (0 < q)%Q)
  /\ (parseFloat (replaceAll isNotDigitOrPeriod price) = NaN ->
      priceNumber2 price = Infinity)
  /\ (forall q, parseFloat (replaceAll isNotDigitOrPeriod price) = Num q ->
                (q == 0)%Q -> priceNumber2 price = Infinity).
Proof.
  split; [apply priceNumber2_not_NaN|]. unfold priceNumber2, orInfinity.
  split; [|split].
  - intros q.
    destruct (parseFloat (replaceAll isNotDigitOrPeriod price)) as [| |x] eqn:E;
      try discriminate.
    destruct (Qeq_bool x 0) eqn:Hz; [discriminate|].
    intros H; injection H as <-.
    apply parseFloat_nonneg in E. apply Qeq_bool_neq in Hz.
    apply Qle_lteq in E. destruct E as [E | E]; [exact E|].
    exfalso. apply Hz. symmetry. exact E.
  - intros ->. reflexivity.
  - intros q -> Hq. apply Qeq_bool_iff in Hq. now rewrite Hq.
Qed.

Section Cheapest2Proofs.
Variable Flight : Type.
Variable price : Flight -> jsstring.

Lemma cheaper2_cases (m f : Flight) :
  (numLt (priceNumber2 (price m)) (priceNumber2 (price f))
   /\ cheaper2 price m f = m)
  \/ (numLe (priceNumber2 (price f)) (priceNumber2 (price m))
      /\ cheaper2 price m f = f).
Proof.
  unfold cheaper2, numLt, numLe.
  destruct (ltNumber (priceNumber2 (price m)) (priceNumber2 (price f)));
    [left | right]; split; reflexivity.
Qed.

Lemma fold_cheaper2_last (first : Flight) (rest : list Flight) :
  exists before o after,
    first :: rest = before ++ o :: after
    /\ fold_left (cheaper2 price) rest first = o
    /\ (forall x, In x before ->
          numLe (priceNumber2 (price o)) (priceNumber2 (price x)))
    /\ (forall x, In x after ->
          numLt (priceNumber2 (price o)) (priceNumber2 (price x))).
Proof.
  induction rest as [|last rest IH] using rev_ind.
  - exists [], first, []. simpl. repeat split; intros x [].
  - destruct IH as (before & o & after & Hsplit & Hfold & Hbefore & Hafter).
    rewrite fold_left_app; simpl. rewrite Hfold.
    destruct (cheaper2_cases o last) as [[Hlt Heq] | [Hle Heq]]; rewrite Heq.
    + exists before, o, (after ++ [last]). repeat split.
      * rewrite app_comm_cons, Hsplit, <- app_assoc. reflexivity.
      * exact Hbefore.
      * intros x Hx. apply in_app_or in Hx.
        destruct Hx as [Hx | [<- | []]]; [now apply Hafter | exact Hlt].
    + exists (before ++ o :: after), last, []. repeat split.
      * rewrite app_comm_cons, Hsplit. reflexivity.
      * intros x Hx. apply in_app_or in Hx.
        destruct Hx as [Hx | [<- | Hx]].
        -- eapply numLe_trans;
             [apply priceNumber2_not_NaN | exact Hle | now apply Hbefore].
        -- exact Hle.
        -- apply numLt_le.
           eapply numLe_lt_trans;
             [apply priceNumber2_not_NaN | exact Hle | now apply Hafter].
      * intros x [].
Qed.

(** X5. The fold of the second script, whose conversion never yields [NaN],
    returns for every non-empty sequence of flights one of least price value,
    and among those of equal least value the last one: every flight before it
    costs at least as much, every flight after it strictly more. *)
Theorem cheapestFlight2_last_minimum (flights : list Flight) :
  flights <> [] ->
  exists before o after,
    flights = before ++ o :: after
    /\ cheapestFlight2 price flights = Some o
    /\ (forall x, In x before ->
          numLe (priceNumber2 (price o)) (priceNumber2 (price x)))
    /\ (forall x, In x after ->
          numLt (priceNumber2 (price o)) (priceNumber2 (price x))).
Proof.
  intros Hne. destruct flights as [|first rest]; [congruence|].
  destruct (fold_cheaper2_last first rest)
    as (before & o & after & Hsplit & Hfold & Hbefore & Hafter).
  exists before, o, after. simpl. rewrite Hfold. auto.
Qed.

End Cheapest2Proofs.

(** X5 (witness): the flights priced ["45 Ft"] and ["n.a."]. *)
Lemma cheapestFlight2_last_minimum_witness :
  Sample.unparsableOffers <> []
  /\ exists before o after,
       Sample.unparsableOffers = before ++ o :: after
       /\ cheapestFlight2 FlightData.price Sample.unparsableOffers = Some o
       /\ (forall x, In x before ->
             numLe (priceNumber2 (FlightData.price o))
                   (priceNumber2 (FlightData.price x)))
       /\ (forall x, In x after ->
             numLt (priceNumber2 (FlightData.price o))
                   (priceNumber2 (FlightData.price x))).
Proof.
  assert (H : Sample.unparsableOffers <> []) by discriminate.
  split; [exact H|].
  exact (cheapestFlight2_last_minimum FlightData.t FlightData.price
           Sample.unparsableOffers H).
Defined.

Section MembershipProofs.
Variable Flight : Type.
Variable price : Flight -> jsstring.

Lemma fold_cheaper_In (rest : list Flight) (first : Flight) :
  In (fold_left (cheaper price) rest first) (first :: rest).
Proof.
  revert first. induction rest as [|f rest IH]; intros first; simpl.
  - now left.
  - specialize (IH (cheaper price first f)). simpl in IH.
    destruct IH as [IH | IH]; [|right; now right].
    rewrite <- IH. unfold cheaper.
    destruct (ltNumber _ _); [now left | right; now left].
Qed.

(** X6. Whatever the price texts are, unparsable ones included, the cheapest
    flight is one of the flights of the sequence, and there is none only when
    the sequence is empty. *)
Theorem cheapestFlight_member (flights : list Flight) :
  match cheapestFlight price flights with
  | Some o => In o flights
  | None => flights = []
  end.
Proof.
  destruct flights as [|first rest]; simpl; [reflexivity|].
  apply fold_cheaper_In.
Qed.

End MembershipProofs.

(** ** The offers of the result, path by path *)

Lemma orElse_nonempty (a : option jsstring) (d : jsstring) :
  d <> [] -> orElse a d <> [].
Proof.
  intros Hd. destruct a as [[|c t]|]; simpl; try assumption. discriminate.
Qed.

Lemma NA_nonempty : js "N/A" <> [].
Proof. discriminate. Qed.

Section ResultProofs.
Context `{D : Dom}.

(** Every offer of the result comes from a flight card, from a container of
    the alternative selectors, from the selected date price or from a time
    slot. *)
Lemma result_offer_cases (origin destination : jsstring) (o : FlightData.t) :
  In o (FlightPriceResult.flights (extractResult origin destination)) ->
  (exists card, In card flightCards /\ o = flightOf destination origin card)
  \/ (exists container,
         In container allFlightContainers
         /\ alternativeFlightOf container = Some o)
  \/ (exists selected,
         In selected datePrices
         /\ DatePrice.isSelected selected = true
         /\ o = genericFlight origin destination selected)
  \/ (exists slot,
         In slot timeSlots
         /\ o = flightOfTimeOption origin destination (timeOptionOf slot)).
Proof.
  unfold extractResult; simpl. unfold withTimeOptions.
  destruct (onlyGenericEntry _).
  - intros Hin. unfold timeOptions in Hin. rewrite map_map in Hin.
    apply in_map_iff in Hin. destruct Hin as (slot & <- & Hslot).
    right; right; right. now exists slot.
  - unfold cardFlights. destruct flightCards as [|card cards] eqn:Hcards.
    + simpl map. rewrite withAlternative_nil.
      destruct moreFlights as [|f rest] eqn:Hmore.
      * rewrite withSelectedDatePrice_nil.
        destruct (find DatePrice.isSelected datePrices) as [selected|] eqn:E;
          [|intros []].
        intros [<- | []]. right; right; left.
        exists selected. apply find_some in E. tauto.
      * rewrite withSelectedDatePrice_cons, <- Hmore. intros Hin.
        right; left. unfold moreFlights in Hin.
        apply in_filterNotNull in Hin. apply in_map_iff in Hin.
        destruct Hin as (container & Hsome & Hin). now exists container.
    + simpl map. rewrite withAlternative_cons, withSelectedDatePrice_cons.
      intros Hin.
      change (In o (map (flightOf destination origin) (card :: cards))) in Hin.
      apply in_map_iff in Hin. destruct Hin as (c & <- & Hc).
      left. now exists c.
Qed.

Lemma getTextMultiSelector_nonempty (container : Element)
  (selectors : list string) :
  value (getTextMultiSelector container selectors) <> [].
Proof.
  induction selectors as [|s more IH]; [discriminate|].
  destruct (yields_dichotomy container s) as [Hmiss | (text & Hhit)].
  - now rewrite (getTextMultiSelector_miss _ _ _ Hmiss).
  - rewrite (getTextMultiSelector_hit _ _ more _ Hhit). simpl.
    destruct Hhit as (_ & _ & _ & Hne). exact Hne.
Qed.

Lemma alternativeFlightOf_fields (container : Element) (o : FlightData.t) :
  alternativeFlightOf container = Some o ->
  FlightData.flightNumber o
  = value (getTextMultiSelector container Sel.flightNumberSelectors)
  /\ FlightData.departureTime o
     = orElse (textAt (querySelectorAll container (Sel.join Sel.timeSelectors)) 0)
              (js "N/A")
  /\ FlightData.price o
     = value (getTextMultiSelector container Sel.priceSelectors)
  /\ FlightData.currency o = currencyOf (FlightData.price o)
  /\ FlightData.duration o
     = value (getTextMultiSelector container Sel.durationSelectors)
  /\ FlightData.containerText o = Some (firstn 100 (trimmedText container)).
Proof.
  unfold alternativeFlightOf.
  destruct (querySelector container (Sel.join Sel.timeSelectors));
    [|discriminate].
  destruct (querySelector container (Sel.join Sel.priceSelectors));
    [|discriminate].
  intros H; injection H as <-. repeat split; reflexivity.
Qed.

(** X7. In every offer of the result, from whichever of the four paths it
    comes, the flight number, the departure time and the duration are not
    empty. *)
Theorem result_fields_nonempty (origin destination : jsstring)
  (o : FlightData.t) :
  In o (FlightPriceResult.flights (extractResult origin destination)) ->
  FlightData.flightNumber o <> []
  /\ FlightData.departureTime o <> []
  /\ FlightData.duration o <> [].
Proof.
  intros Hin.
  destruct (result_offer_cases _ _ _ Hin)
    as [(card & _ & ->) | [(container & _ & Hsome)
        | [(selected & _ & _ & ->) | (slot & _ & ->)]]].
  - repeat split; apply orElse_nonempty, NA_nonempty.
  - destruct (alternativeFlightOf_fields _ _ Hsome)
      as (Hn & Hd & _ & _ & Hdur & _).
    rewrite Hn, Hd, Hdur. repeat split.
    + apply getTextMultiSelector_nonempty.
    + apply orElse_nonempty, NA_nonempty.
    + apply getTextMultiSelector_nonempty.
  - unfold genericFlight.
    cbn [FlightData.flightNumber FlightData.departureTime FlightData.duration].
    split; [|split]; [|discriminate | discriminate].
    apply orElse_nonempty. discriminate.
  - unfold flightOfTimeOption, timeOptionOf.
    cbn [FlightData.flightNumber FlightData.departureTime FlightData.duration
         TimeOption.flightNumber TimeOption.departureTime].
    split; [|split]; [| |discriminate].
    + apply orElse_nonempty. discriminate.
    + apply orElse_nonempty, NA_nonempty.
Qed.

Lemma currencyOf_chars (price : jsstring) :
  Forall (fun c => isCurrencyChar c = true) (currencyOf price).
Proof.
  destruct (leftmostRun_chars _ _ _ _ (currencyOf_leftmost price))
    as [-> | [_ H]]; [constructor | exact H].
Qed.

Lemma replaceAll_currency_chars (s : jsstring) :
  Forall (fun c => isCurrencyChar c = true) (replaceAll isAmountOrSpace s).
Proof.
  pose proof (replaceAll_chars isAmountOrSpace s) as H.
  eapply Forall_impl; [|exact H].
  intros c Hc. unfold isCurrencyChar. now rewrite Hc.
Qed.

(** X8. The currency field of every offer of the result and of every date
    price holds no digit, white space, comma or period. *)
Theorem result_currency_chars (origin destination : jsstring) :
  (forall o,
      In o (FlightPriceResult.flights (extractResult origin destination)) ->
      Forall (fun c => isCurrencyChar c = true) (FlightData.currency o))
  /\ (forall p,
        In p (FlightPriceResult.datePrices (extractResult origin destination)) ->
        Forall (fun c => isCurrencyChar c = true) (DatePrice.currency p)).
Proof.
  split.
  - intros o Hin.
    destruct (result_offer_cases _ _ _ Hin)
      as [(card & _ & ->) | [(container & _ & Hsome)
          | [(selected & _ & _ & ->) | (slot & _ & ->)]]].
    + apply currencyOf_chars.
    + destruct (alternativeFlightOf_fields _ _ Hsome) as (_ & _ & _ & -> & _).
      apply currencyOf_chars.
    + apply replaceAll_currency_chars.
    + unfold flightOfTimeOption. cbn [FlightData.currency].
      pose proof (replaceAll_currency_chars
                    (TimeOption.price (timeOptionOf slot))) as H.
      destruct (replaceAll isAmountOrSpace (TimeOption.price (timeOptionOf slot)));
        [repeat constructor | exact H].
  - intros p Hin. simpl in Hin. unfold datePrices in Hin.
    apply in_map_iff in Hin. destruct Hin as (item & <- & _).
    pose proof (priceAndCurrency_currency (datePriceText item)) as H.
    unfold datePriceOf.
    destruct (priceAndCurrency (datePriceText item)) as [price currency].
    simpl in *.
    destruct (leftmostRun_chars _ _ _ _ H) as [-> | [_ Hall]];
      [repeat constructor | exact Hall].
Qed.

(** X9. The result holds no flight exactly when no flight card is found, no
    scanned container has both a time-like and a price-like element, and no
    date price is selected; time slots alone never produce an offer. *)
Theorem result_empty_iff (origin destination : jsstring) :
  FlightPriceResult.flights (extractResult origin destination) = []
  <-> (flightCards = []
       /\ filter hasTimeAndPrice allFlightContainers = []
       /\ forall p, In p datePrices -> DatePrice.isSelected p = false).
Proof.
  assert (Hmore : moreFlights = []
                  <-> filter hasTimeAndPrice allFlightContainers = []).
  { pose proof (filterNotNull_map alternativeFlightOf hasTimeAndPrice
                  allFlightContainers alternativeFlightOf_some) as Hmap.
    fold moreFlights in Hmap. split; intros H.
    - rewrite H in Hmap. simpl in Hmap.
      destruct (filter hasTimeAndPrice allFlightContainers); [reflexivity|].
      discriminate.
    - rewrite H in Hmap. simpl in Hmap.
      destruct moreFlights; [reflexivity | discriminate]. }
  unfold extractResult; simpl. unfold withTimeOptions, cardFlights.
  split.
  - destruct (onlyGenericEntry _) eqn:Hgen.
    + unfold onlyGenericEntry in Hgen. intros Hnil.
      apply map_eq_nil in Hnil. rewrite Hnil in Hgen.
      rewrite andb_false_r in Hgen. discriminate.
    + destruct flightCards as [|card cards]; [|discriminate].
      simpl map. rewrite withAlternative_nil.
      destruct moreFlights as [|f rest] eqn:E; [|discriminate].
      rewrite withSelectedDatePrice_nil.
      destruct (find DatePrice.isSelected datePrices) eqn:Hfind; [discriminate|].
      intros _. split; [reflexivity|]. split; [now apply Hmore|].
      intros p Hp. exact (find_none _ _ Hfind p Hp).
  - intros (Hcards & Hfilter & Hsel). rewrite Hcards. simpl map.
    rewrite withAlternative_nil. apply Hmore in Hfilter. rewrite Hfilter.
    rewrite withSelectedDatePrice_nil.
    destruct (find DatePrice.isSelected datePrices) as [s|] eqn:Hfind.
    + apply find_some in Hfind. destruct Hfind as [Hin Htrue].
      rewrite (Hsel s Hin) in Htrue. discriminate.
    + reflexivity.
Qed.

(** X10. When two or more flight cards are found, the flights of the result
    are the offers of the cards, one per card in document order, whatever
    else is on the page. *)
Theorem result_of_cards (origin destination : jsstring) :
  (2 <= List.length flightCards)%nat ->
  FlightPriceResult.flights (extractResult origin destination)
  = map (flightOf destination origin) flightCards.
Proof.
  intros Hlen. unfold extractResult; simpl. unfold cardFlights.
  destruct flightCards as [|c1 [|c2 cards]]; simpl in Hlen; try lia.
  reflexivity.
Qed.

End ResultProofs.

(** X7 (witness): the first offer of the page with two flight cards. *)
Lemma result_fields_nonempty_witness :
  In (flightOf (D := Sample.cardsDom) (js "MAN") (js "BUD") 1%nat)
     (FlightPriceResult.flights
        (extractResult (D := Sample.cardsDom) (js "BUD") (js "MAN")))
  /\ FlightData.flightNumber
       (flightOf (D := Sample.cardsDom) (js "MAN") (js "BUD") 1%nat) <> []
  /\ FlightData.departureTime
       (flightOf (D := Sample.cardsDom) (js "MAN") (js "BUD") 1%nat) <> []
  /\ FlightData.duration
       (flightOf (D := Sample.cardsDom) (js "MAN") (js "BUD") 1%nat) <> [].
Proof.
  assert (Hin : In (flightOf (D := Sample.cardsDom) (js "MAN") (js "BUD") 1%nat)
                   (FlightPriceResult.flights
                      (extractResult (D := Sample.cardsDom)
                                         (js "BUD") (js "MAN"))))
    by (left; reflexivity).
  split; [exact Hin|].
  exact (result_fields_nonempty (D := Sample.cardsDom) (js "BUD") (js "MAN") _ Hin).
Defined.

(** X10 (witness): the page with two flight cards and a time slot. *)
Lemma result_of_cards_witness :
  (2 <= List.length (flightCards (D := Sample.cardsDom)))%nat
  /\ FlightPriceResult.flights
       (extractResult (D := Sample.cardsDom) (js "BUD") (js "MAN"))
     = map (flightOf (D := Sample.cardsDom) (js "MAN") (js "BUD"))
           (flightCards (D := Sample.cardsDom)).
Proof.
  assert (H : (2 <= List.length (flightCards (D := Sample.cardsDom)))%nat)
    by (vm_compute; lia).
  split; [exact H|].
  exact (result_of_cards (D := Sample.cardsDom) (js "BUD") (js "MAN") H).
Defined.

(** ** Date prices and the synthetic offer *)

Lemma regexMatch_some_run (cls : char -> bool) (s m : jsstring) :
  regexMatch cls s = Some m -> m <> [] /\ Forall (fun c => cls c = true) m.
Proof.
  unfold regexMatch.
  destruct (dropWhile (fun c => negb (cls c)) s) as [|x r] eqn:E; [discriminate|].
  intros H; injection H as <-.
  apply dropWhile_head in E. apply negb_false_iff in E.
  split; [simpl; rewrite E; discriminate | exact (takeWhile_all cls (x :: r))].
Qed.

Lemma priceAndCurrency_fst_value (text : jsstring) :
  getPriceNumeric (fst (priceAndCurrency text)) = getPriceNumeric text.
Proof.
  unfold priceAndCurrency; simpl. unfold getPriceNumeric at 2.
  destruct (regexMatch isAmountChar text) as [m|] eqn:E; [|reflexivity].
  destruct (regexMatch_some_run _ _ _ E) as [Hne Hall].
  unfold getPriceNumeric. now rewrite (regexMatch_run _ _ Hne Hall).
Qed.

Section DatePriceProofs.
Context `{D : Dom}.

Lemma datePriceOf_price (item : Element) :
  DatePrice.price (datePriceOf item) = fst (priceAndCurrency (datePriceText item)).
Proof.
  unfold datePriceOf.
  destruct (priceAndCurrency (datePriceText item)); reflexivity.
Qed.

Lemma datePriceOf_currency (item : Element) :
  DatePrice.currency (datePriceOf item)
  = snd (priceAndCurrency (datePriceText item)).
Proof.
  unfold datePriceOf.
  destruct (priceAndCurrency (datePriceText item)); reflexivity.
Qed.

(** X11. Cutting the price of a date item down to its numeric run does not
    change its value: the price of the date price, and the price of the
    synthetic offer made from it, convert to the same number as the price
    text of the date item. *)
Theorem datePrice_value_kept (origin destination : jsstring) (item : Element) :
  getPriceNumeric (DatePrice.price (datePriceOf item))
  = getPriceNumeric (datePriceText item)
  /\ getPriceNumeric
       (FlightData.price (genericFlight origin destination (datePriceOf item)))
     = getPriceNumeric (datePriceText item).
Proof.
  unfold genericFlight. cbn [FlightData.price].
  rewrite datePriceOf_price. split; apply priceAndCurrency_fst_value.
Qed.

(** X12. No field of a date price is empty: the date holds at least the
    space between day and month, and price and currency are a run of the
    price text or ["N/A"]. *)
Theorem datePrice_fields_nonempty (item : Element) :
  DatePrice.date (datePriceOf item) <> []
  /\ DatePrice.price (datePriceOf item) <> []
  /\ DatePrice.currency (datePriceOf item) <> [].
Proof.
  split; [|split].
  - unfold datePriceOf.
    destruct (priceAndCurrency (datePriceText item)).
    cbn [DatePrice.date]. intros H. apply app_eq_nil in H.
    destruct H as [_ H]. discriminate.
  - rewrite datePriceOf_price.
    destruct (leftmostRun_chars _ _ _ _ (priceAndCurrency_price (datePriceText item)))
      as [-> | [H _]]; [discriminate | exact H].
  - rewrite datePriceOf_currency.
    destruct (leftmostRun_chars _ _ _ _
                (priceAndCurrency_currency (datePriceText item)))
      as [-> | [H _]]; [discriminate | exact H].
Qed.

(** X13. The synthetic offer of [index.ts] does not carry the currency of the
    date price it is made from: its currency field is computed from the
    price, which is already cut down to the numeric run, so it is empty, or
    ["N/A"] when the price is ["N/A"]. *)
Theorem genericFlight_currency (origin destination : jsstring) (item : Element) :
  (exists m, regexMatch isAmountChar (datePriceText item) = Some m
             /\ FlightData.price (genericFlight origin destination (datePriceOf item))
                = m
             /\ FlightData.currency
                  (genericFlight origin destination (datePriceOf item)) = [])
  \/ (regexMatch isAmountChar (datePriceText item) = None
      /\ FlightData.price (genericFlight origin destination (datePriceOf item))
         = js "N/A"
      /\ FlightData.currency (genericFlight origin destination (datePriceOf item))
         = js "N/A").
Proof.
  unfold genericFlight. cbn [FlightData.price FlightData.currency].
  rewrite datePriceOf_price. unfold priceAndCurrency. cbn [fst].
  destruct (regexMatch isAmountChar (datePriceText item)) as [m|] eqn:E.
  - left. exists m. repeat split.
    destruct (regexMatch_some_run _ _ _ E) as [_ Hall].
    apply replaceAll_drop. eapply Forall_impl; [|exact Hall].
    apply isAmountChar_amountOrSpace.
  - right. repeat split.
Qed.

End DatePriceProofs.

(** ** The selector cascades *)

Section CascadeGeneralProofs.
Context `{D : Dom}.

Lemma getTextMultiSelector_prefix (container : Element)
  (selectors : list string) :
  exists n,
    queries (getTextMultiSelector container selectors)
    = map (pair container) (firstn n selectors).
Proof.
  induction selectors as [|s more IH].
  - exists 0%nat. reflexivity.
  - destruct (yields_dichotomy container s) as [Hmiss | (text & Hhit)].
    + destruct IH as (n & IH). exists (S n).
      rewrite (getTextMultiSelector_miss _ _ _ Hmiss). simpl. now rewrite IH.
    + exists 1%nat. now rewrite (getTextMultiSelector_hit _ _ more _ Hhit).
Qed.

(** X14. For every container and every list of selectors the text that
    [getTextMultiSelector] returns is not empty, and the [querySelector]
    calls it makes are those of an initial part of the list, in order, each
    under the container: no selector is queried twice or out of turn. *)
Theorem getTextMultiSelector_general (container : Element)
  (selectors : list string) :
  value (getTextMultiSelector container selectors) <> []
  /\ exists n,
       queries (getTextMultiSelector container selectors)
       = map (pair container) (firstn n selectors).
Proof.
  split; [apply getTextMultiSelector_nonempty | apply getTextMultiSelector_prefix].
Qed.

(** X15. The card cascade of the analysis script, on any list of selectors:
    either it finds no card, and then every selector of the list was queried
    and matched nothing and the found selector is the empty string; or the
    cards are all the matches of the found selector, which is the first
    selector of the list that matches anything, and no later selector was
    queried. *)
Theorem cardCascade_result (cardSelectors : list string) :
  (value (cardCascade cardSelectors) = ([], EmptyString)
   /\ Forall (fun s => querySelectorAll document s = []) cardSelectors
   /\ queries (cardCascade cardSelectors) = map (pair document) cardSelectors)
  \/ (exists before s after,
        cardSelectors = before ++ s :: after
        /\ Forall (fun s' => querySelectorAll document s' = []) before
        /\ querySelectorAll document s <> []
        /\ value (cardCascade cardSelectors) = (querySelectorAll document s, s)
        /\ queries (cardCascade cardSelectors)
           = map (pair document) (before ++ [s])).
Proof.
  induction cardSelectors as [|s more IH].
  - left. repeat split. constructor.
  - destruct (querySelectorAll document s) as [|e l] eqn:E.
    + assert (Hstep : cardCascade (s :: more)
                      = (value (cardCascade more),
                         (document, s) :: queries (cardCascade more))).
      { simpl. rewrite E. simpl.
        destruct (cardCascade more) as [v q]. reflexivity. }
      rewrite Hstep.
      destruct IH as [(Hv & Hall & Hq)
                     | (before & s' & after & Heq & Hall & Hne & Hv & Hq)].
      * left. cbn [value queries fst snd] in *. rewrite Hv, Hq.
        repeat split. now constructor.
      * right. exists (s :: before), s', after.
        cbn [value queries fst snd] in *. rewrite Hv, Hq, Heq.
        repeat split; try assumption. now constructor.
    + right. exists [], s, more. simpl. rewrite E. simpl.
      repeat split; [constructor | discriminate].
Qed.

End CascadeGeneralProofs.

(** ** Trimmed texts *)

Lemma trim_isTrimmed (s : jsstring) : isTrimmed (trim s).
Proof.
  unfold isTrimmed, trim. split.
  - intros c t H.
    pose proof (takeWhile_dropWhile isWhiteSpace
                  (rev (dropWhile isWhiteSpace s))) as Hsplit.
    apply (f_equal (@rev char)) in Hsplit.
    rewrite rev_app_distr, rev_involutive, H in Hsplit.
    simpl in Hsplit. symmetry in Hsplit.
    eapply dropWhile_head. exact Hsplit.
  - intros c t H. rewrite rev_involutive in H.
    eapply dropWhile_head. exact H.
Qed.

Lemma NA_isTrimmed : isTrimmed (js "N/A").
Proof.
  split; intros c t H; vm_compute in H; injection H as <- _; reflexivity.
Qed.

Lemma orElse_isTrimmed (a : option jsstring) (d : jsstring) :
  (forall s, a = Some s -> isTrimmed s) -> isTrimmed d -> isTrimmed (orElse a d).
Proof.
  intros Ha Hd. destruct a as [[|c t]|]; simpl; try assumption.
  now apply Ha.
Qed.

Section TrimmedProofs.
Context `{D : Dom}.

Lemma option_trimmedText_isTrimmed (q : option Element) (s : jsstring) :
  option_map trimmedText q = Some s -> isTrimmed s.
Proof.
  destruct q as [e|]; [|discriminate].
  intros H; injection H as <-. apply trim_isTrimmed.
Qed.

(** X16. The text fields of the offer of a flight card neither begin nor end
    with white space: each is the trimmed text of an element, or ["N/A"]. *)
Theorem flightOf_fields_trimmed (origin destination : jsstring)
  (card : Element) :
  isTrimmed (FlightData.flightNumber (flightOf destination origin card))
  /\ isTrimmed (FlightData.departureTime (flightOf destination origin card))
  /\ isTrimmed (FlightData.arrivalTime (flightOf destination origin card))
  /\ isTrimmed (FlightData.price (flightOf destination origin card))
  /\ isTrimmed (FlightData.duration (flightOf destination origin card)).
Proof.
  unfold flightOf.
  cbn [FlightData.flightNumber FlightData.departureTime FlightData.arrivalTime
       FlightData.price FlightData.duration].
  repeat split;
    try (apply orElse_isTrimmed;
         [apply option_trimmedText_isTrimmed | apply NA_isTrimmed]).
  - unfold cardPriceText.
    destruct (querySelector card Sel.cardPrice) as [e|];
      [|apply NA_isTrimmed].
    apply orElse_isTrimmed; [|apply NA_isTrimmed].
    intros s H; injection H as <-. apply trim_isTrimmed.
  - unfold cardPriceText.
    destruct (querySelector card Sel.cardPrice) as [e|];
      [|apply NA_isTrimmed].
    apply orElse_isTrimmed; [|apply NA_isTrimmed].
    intros s H; injection H as <-. apply trim_isTrimmed.
Qed.

(** X17. The debugging text [containerText] is present only on the offers of
    the alternative-selector extractor, where it is the first 100 code units
    of the trimmed text of the container: it is never longer than 100. *)
Theorem containerText_bound (origin destination : jsstring)
  (o : FlightData.t) (text : jsstring) :
  In o (FlightPriceResult.flights (extractResult origin destination)) ->
  FlightData.containerText o = Some text ->
  (List.length text <= 100)%nat
  /\ exists container,
       In container allFlightContainers
       /\ alternativeFlightOf container = Some o
       /\ text = firstn 100 (trimmedText container).
Proof.
  intros Hin Htext.
  destruct (result_offer_cases _ _ _ Hin)
    as [(card & _ & ->) | [(container & Hc & Hsome)
        | [(selected & _ & _ & ->) | (slot & _ & ->)]]];
    try discriminate.
  destruct (alternativeFlightOf_fields _ _ Hsome) as (_ & _ & _ & _ & _ & Ht).
  rewrite Ht in Htext. apply Some_eq in Htext. rewrite <- Htext.
  split; [apply firstn_le_length|]. exists container. auto.
Qed.

End TrimmedProofs.

(** X17 (witness): the offer of the first container of the sample page. *)
Lemma containerText_bound_witness :
  exists o text,
    In o (FlightPriceResult.flights
            (extractResult (D := Sample.containersDom) (js "BUD") (js "MAN")))
    /\ FlightData.containerText o = Some text
    /\ text = js "06:10 08:05 45 Ft"
    /\ (List.length text <= 100)%nat.
Proof.
  destruct (alternativeFlightOf (D := Sample.containersDom) 1%nat)
    as [o|] eqn:E; [|discriminate E].
  exists o, (js "06:10 08:05 45 Ft").
  assert (Hin : In o (FlightPriceResult.flights
                        (extractResult (D := Sample.containersDom)
                                           (js "BUD") (js "MAN")))).
  { vm_compute in E. injection E as <-. left. reflexivity. }
  assert (Ht : FlightData.containerText o = Some (js "06:10 08:05 45 Ft")).
  { vm_compute in E. injection E as <-. reflexivity. }
  split; [exact Hin | split; [exact Ht | split; [reflexivity|]]].
  exact (proj1 (containerText_bound (D := Sample.containersDom)
                  (js "BUD") (js "MAN") o _ Hin Ht)).
Defined.

(** ** The variant of [index3.ts], continued *)

Section Index3MoreProofs.
Context `{D : Dom}.

Lemma index3_result_cases (o : Index3.FlightData.t) :
  In o (Index3.FlightPriceResult.flights Index3.extractResult) ->
  (exists card, o = Index3.flightOf card)
  \/ (exists item, o = Index3.genericFlight (Index3.datePriceOf item)).
Proof.
  unfold Index3.extractResult, Index3.withSelectedDatePrice; simpl.
  unfold Index3.cardFlights.
  destruct (querySelectorAll document Index3.Sel3.flightCards) as [|c cs].
  - simpl.
    destruct (0 <? List.length Index3.datePrices)%nat; [|intros []].
    destruct (find Index3.DatePrice.isSelected Index3.datePrices) as [s|] eqn:E;
      [|intros []].
    intros [<- | []]. right.
    apply find_some in E. destruct E as [Hin _].
    unfold Index3.datePrices in Hin. apply in_map_iff in Hin.
    destruct Hin as (item & <- & _). now exists item.
  - intros Hin.
    change (In o (map Index3.flightOf (c :: cs))) in Hin.
    apply in_map_iff in Hin. destruct Hin as (card & <- & _).
    left. now exists card.
Qed.

(** X18. In [index3.ts] every text field of every offer of the result other
    than the currency is non-empty: a missing element, and an element without
    text, give ["N/A"]. *)
Theorem index3_fields_nonempty (o : Index3.FlightData.t) :
  In o (Index3.FlightPriceResult.flights Index3.extractResult) ->
  Index3.FlightData.flightNumber o <> []
  /\ Index3.FlightData.departureTime o <> []
  /\ Index3.FlightData.arrivalTime o <> []
  /\ Index3.FlightData.price o <> []
  /\ Index3.FlightData.duration o <> [].
Proof.
  intros Hin.
  destruct (index3_result_cases o Hin) as [(card & ->) | (item & ->)].
  - unfold Index3.flightOf.
    cbn [Index3.FlightData.flightNumber Index3.FlightData.departureTime
         Index3.FlightData.arrivalTime Index3.FlightData.price
         Index3.FlightData.duration].
    repeat split; apply orElse_nonempty, NA_nonempty.
  - unfold Index3.genericFlight, Index3.datePriceOf.
    cbn [Index3.FlightData.flightNumber Index3.FlightData.departureTime
         Index3.FlightData.arrivalTime Index3.FlightData.price
         Index3.FlightData.duration Index3.DatePrice.price].
    repeat split; try discriminate.
    apply orElse_nonempty, NA_nonempty.
Qed.

(** X19. In [index3.ts] the result holds no flight exactly when no flight
    card is found and no date price is selected. *)
Theorem index3_result_empty_iff :
  Index3.FlightPriceResult.flights Index3.extractResult = []
  <-> (querySelectorAll document Index3.Sel3.flightCards = []
       /\ forall p, In p Index3.datePrices ->
                    Index3.DatePrice.isSelected p = false).
Proof.
  unfold Index3.extractResult, Index3.withSelectedDatePrice; simpl.
  unfold Index3.cardFlights.
  destruct (querySelectorAll document Index3.Sel3.flightCards) as [|c cs].
  - simpl. split.
    + intros H. split; [reflexivity|]. intros p Hp.
      destruct Index3.datePrices as [|d ds] eqn:Hd; [destruct Hp|].
      change (0 <? List.length (d :: ds))%nat with true in H. cbv iota in H.
      destruct (find Index3.DatePrice.isSelected (d :: ds)) eqn:E;
        [simpl in H; discriminate|].
      exact (find_none _ _ E p Hp).
    + intros [_ Hsel].
      destruct (0 <? List.length Index3.datePrices)%nat; [|reflexivity].
      destruct (find Index3.DatePrice.isSelected Index3.datePrices) as [s|] eqn:E;
        [|reflexivity].
      apply find_some in E. destruct E as [Hin Htrue].
      rewrite (Hsel s Hin) in Htrue. discriminate.
  - split; [discriminate | intros [H _]; discriminate].
Qed.

End Index3MoreProofs.

(** X18 (witness): the synthetic offer on the page of the date strip. *)
Lemma index3_fields_nonempty_witness :
  In (Index3.genericFlight (Index3.datePriceOf (D := Sample.datesDom) 2%nat))
     (Index3.FlightPriceResult.flights
        (Index3.extractResult (D := Sample.datesDom)))
  /\ Index3.FlightData.price
       (Index3.genericFlight (Index3.datePriceOf (D := Sample.datesDom) 2%nat))
     <> [].
Proof.
  assert (Hin : In (Index3.genericFlight
                      (Index3.datePriceOf (D := Sample.datesDom) 2%nat))
                   (Index3.FlightPriceResult.flights
                      (Index3.extractResult (D := Sample.datesDom))))
    by (left; reflexivity).
  split; [exact Hin|].
  destruct (index3_fields_nonempty (D := Sample.datesDom) _ Hin)
    as (_ & _ & _ & H & _).
  exact H.
Defined.

(** ** The second script of [index.ts] *)

Section Script2Proofs.
Context `{D : Dom}.

(** X20. In the second script every field of every extracted flight is
    non-empty, the currency included, which falls back to the pound sign;
    and its cheapest flight is one of the extracted flights, there being none
    only when no card is found. *)
Theorem script2_flights :
  (forall o, In o Script2.flights ->
     Script2.FlightData.flightNumber o <> []
     /\ Script2.FlightData.departureTime o <> []
     /\ Script2.FlightData.arrivalTime o <> []
     /\ Script2.FlightData.price o <> []
     /\ Script2.FlightData.currency o <> [])
  /\ match cheapestFlight2 Script2.FlightData.price Script2.flights with
     | Some o => In o Script2.flights
     | None => Script2.flightCards = []
     end.
Proof.
  split.
  - intros o Hin. unfold Script2.flights in Hin. apply in_map_iff in Hin.
    destruct Hin as (card & <- & _). unfold Script2.flightOf.
    cbn [Script2.FlightData.flightNumber Script2.FlightData.departureTime
         Script2.FlightData.arrivalTime Script2.FlightData.price
         Script2.FlightData.currency].
    split; [|split; [|split; [|split]]];
      try (apply orElse_nonempty, NA_nonempty).
    + destruct (querySelector card Script2.Sel2.price);
        [apply orElse_nonempty|]; apply NA_nonempty.
    + apply orElse_nonempty. discriminate.
  - unfold Script2.flights.
    destruct Script2.flightCards as [|c cs]; [reflexivity|].
    simpl map. unfold cheapestFlight2.
    generalize (Script2.flightOf c) (map Script2.flightOf cs).
    intros first rest. revert first.
    induction rest as [|f rest IH]; intros first; simpl; [now left|].
    specialize (IH (cheaper2 Script2.FlightData.price first f)).
    simpl in IH. destruct IH as [IH | IH]; [|right; now right].
    rewrite <- IH. unfold cheaper2.
    destruct (ltNumber _ _); [now left | right; now left].
Qed.

End Script2Proofs.

(** ** The day cell selector *)

Lemma isDigit_not_hyphen (c : char) : isDigit c = true -> (c =? 45) = false.
Proof.
  intros H. apply isDigit_range in H. apply N.eqb_neq. lia.
Qed.

Lemma isDigit_in (c : char) : isDigit c = true -> In c digitChars.
Proof.
  intros H. apply isDigit_range in H.
  assert (Hc : c = 48 \/ c = 49 \/ c = 50 \/ c = 51 \/ c = 52 \/ c = 53
               \/ c = 54 \/ c = 55 \/ c = 56 \/ c = 57) by lia.
  unfold digitChars. simpl. intuition.
Qed.

Lemma splitOn_part (current ds rest : jsstring) :
  Forall (fun c => isDigit c = true) ds ->
  splitOn 45 current (ds ++ 45 :: rest)
  = (rev current ++ ds) :: splitOn 45 [] rest.
Proof.
  intros H. revert current.
  induction H as [|c ds Hc _ IH]; intros current; simpl.
  - now rewrite app_nil_r.
  - rewrite (isDigit_not_hyphen c Hc), IH. simpl.
    now rewrite <- app_assoc.
Qed.

Lemma splitOn_last (current ds : jsstring) :
  Forall (fun c => isDigit c = true) ds ->
  splitOn 45 current ds = [rev current ++ ds].
Proof.
  intros H. revert current.
  induction H as [|c ds Hc _ IH]; intros current; simpl.
  - now rewrite app_nil_r.
  - rewrite (isDigit_not_hyphen c Hc), IH. simpl.
    now rewrite <- app_assoc.
Qed.

Lemma year_round_trip (y1 y2 y3 y4 : char) :
  isDigit y1 = true -> y1 <> 48 ->
  isDigit y2 = true -> isDigit y3 = true -> isDigit y4 = true ->
  intToString (parseInt [y1; y2; y3; y4]) = [y1; y2; y3; y4].
Proof.
  intros H1 Hnz H2 H3 H4.
  assert (Hall :
    forallb (fun a => (a =? 48) ||
      forallb (fun b => forallb (fun c => forallb (fun d =>
        jsstring_eqb (intToString (parseInt [a; b; c; d])) [a; b; c; d])
        digitChars) digitChars) digitChars) digitChars = true)
    by (vm_compute; reflexivity).
  rewrite forallb_forall in Hall.
  specialize (Hall y1 (isDigit_in _ H1)).
  apply orb_true_iff in Hall. destruct Hall as [Hz | Hall].
  - apply N.eqb_eq in Hz. congruence.
  - rewrite forallb_forall in Hall. specialize (Hall y2 (isDigit_in _ H2)).
    rewrite forallb_forall in Hall. specialize (Hall y3 (isDigit_in _ H3)).
    rewrite forallb_forall in Hall. specialize (Hall y4 (isDigit_in _ H4)).
    unfold jsstring_eqb in Hall.
    destruct (list_eq_dec N.eq_dec _ _) as [E|]; [exact E | discriminate].
Qed.

Lemma two_digits_round_trip (a b : char) :
  isDigit a = true -> isDigit b = true ->
  padStart 2 48 (intToString (parseInt [a; b])) = [a; b]
  /\ padStart 2 48 (intToString (parseInt [b])) = [48; b].
Proof.
  intros Ha Hb.
  assert (Hall :
    forallb (fun a => forallb (fun b =>
      jsstring_eqb (padStart 2 48 (intToString (parseInt [a; b]))) [a; b]
      && jsstring_eqb (padStart 2 48 (intToString (parseInt [b]))) [48; b])
      digitChars) digitChars = true)
    by (vm_compute; reflexivity).
  rewrite forallb_forall in Hall. specialize (Hall a (isDigit_in _ Ha)).
  rewrite forallb_forall in Hall. specialize (Hall b (isDigit_in _ Hb)).
  apply andb_true_iff in Hall. destruct Hall as [H1 H2].
  unfold jsstring_eqb in H1, H2.
  destruct (list_eq_dec N.eq_dec _ [a; b]) as [E1|]; [|discriminate].
  destruct (list_eq_dec N.eq_dec _ [48; b]) as [E2|]; [|discriminate].
  split; assumption.
Qed.

(** Beyond 2^53 [parseInt] rounds, and from 10^21 on the number prints in
    exponent form. *)
Example parseInt_rounds :
  intToString (parseInt (js "  -42px")) = js "-42"
  /\ intToString (parseInt (js "px")) = js "NaN"
  /\ intToString (parseInt (js "9007199254740993")) = js "9007199254740992"
  /\ intToString (parseInt (js "999999999999999999999")) = js "1e+21"
  /\ intToString (parseInt (js "123456789012345678901234567890"))
     = js "1.2345678901234568e+29"
  /\ intToString (parseInt (repeat 57 310)) = js "Infinity".
Proof. repeat split; vm_compute; reflexivity. Qed.

(** X21. For a date written [YYYY-MM-DD], with a year from 1000 to 9999,
    splitting it, reading the parts with [parseInt] and printing them again
    gives the date back: the selector of the day cell carries the date as it
    was given.  A month and a day of one digit are padded to two. *)
Theorem daySelector_round_trip (y1 y2 y3 y4 m1 m2 d1 d2 : char) :
  isDigit y1 = true -> y1 <> 48 ->
  isDigit y2 = true -> isDigit y3 = true -> isDigit y4 = true ->
  isDigit m1 = true -> isDigit m2 = true ->
  isDigit d1 = true -> isDigit d2 = true ->
  daySelector ([y1; y2; y3; y4] ++ 45 :: [m1; m2] ++ 45 :: [d1; d2])
  = Some (js "div[data-id=" ++ [34]
          ++ ([y1; y2; y3; y4] ++ 45 :: [m1; m2] ++ 45 :: [d1; d2])
          ++ [34] ++ js "] .calendar-body__cell")
  /\ daySelector ([y1; y2; y3; y4] ++ 45 :: [m2] ++ 45 :: [d2])
     = Some (js "div[data-id=" ++ [34]
             ++ ([y1; y2; y3; y4] ++ 45 :: [48; m2] ++ 45 :: [48; d2])
             ++ [34] ++ js "] .calendar-body__cell").
Proof.
  intros H1 Hnz H2 H3 H4 Hm1 Hm2 Hd1 Hd2.
  assert (Hy : Forall (fun c => isDigit c = true) [y1; y2; y3; y4])
    by (repeat constructor; assumption).
  pose proof (year_round_trip y1 y2 y3 y4 H1 Hnz H2 H3 H4) as Hyear.
  destruct (two_digits_round_trip m1 m2 Hm1 Hm2) as [Hmm Hm].
  destruct (two_digits_round_trip d1 d2 Hd1 Hd2) as [Hdd Hd].
  unfold daySelector. split.
  - rewrite (splitOn_part [] _ _ Hy).
    rewrite (splitOn_part [] [m1; m2] [d1; d2])
      by (repeat constructor; assumption).
    rewrite (splitOn_last [] [d1; d2]) by (repeat constructor; assumption).
    cbn [map rev app]. rewrite Hyear, Hmm, Hdd. reflexivity.
  - rewrite (splitOn_part [] _ _ Hy).
    rewrite (splitOn_part [] [m2] [d2]) by (repeat constructor; assumption).
    rewrite (splitOn_last [] [d2]) by (repeat constructor; assumption).
    cbn [map rev app]. rewrite Hyear, Hm, Hd. reflexivity.
Qed.

(** X21 (witness): the default date of the script, [2025-08-22]. *)
Lemma daySelector_round_trip_witness :
  daySelector (js "2025-08-22")
  = Some (js "div[data-id=" ++ [34] ++ js "2025-08-22" ++ [34]
          ++ js "] .calendar-body__cell")
  /\ daySelector (js "2025-8-2")
     = Some (js "div[data-id=" ++ [34] ++ js "2025-08-02" ++ [34]
             ++ js "] .calendar-body__cell").
Proof.
  apply (daySelector_round_trip 50 48 50 53 48 56 50 50);
    try reflexivity.
  discriminate.
Defined.

(** X20 (witness): the second card of the sample results page, which has a
    price element only. *)
Lemma script2_flights_witness :
  In (Script2.flightOf (D := Sample.wrappersDom) 2%nat)
     (Script2.flights (D := Sample.wrappersDom))
  /\ Script2.FlightData.currency (Script2.flightOf (D := Sample.wrappersDom) 2%nat)
     <> [].
Proof.
  assert (Hin : In (Script2.flightOf (D := Sample.wrappersDom) 2%nat)
                   (Script2.flights (D := Sample.wrappersDom)))
    by (right; left; reflexivity).
  split; [exact Hin|].
  destruct (proj1 (script2_flights (D := Sample.wrappersDom)) _ Hin)
    as (_ & _ & _ & _ & H).
  exact H.
Defined.

(** ** The first selected date *)

Lemma find_first {A} (f : A -> bool) (before : list A) (x : A) (after : list A) :
  Forall (fun y => f y = false) before ->
  f x = true ->
  find f (before ++ x :: after) = Some x.
Proof.
  induction 1 as [|y before Hy _ IH]; intros Hx; simpl.
  - now rewrite Hx.
  - rewrite Hy. now apply IH.
Qed.

Section FirstSelectedProofs.
Context `{D : Dom}.

(** X22. When several date items are marked selected, the synthetic offer is
    made from the first of them in document order; the later ones have no
    effect on it. *)
Theorem first_selected_date (origin destination : jsstring)
  (before : list DatePrice.t) (selected : DatePrice.t)
  (after : list DatePrice.t) :
  tier1 origin destination = [] ->
  datePrices = before ++ selected :: after ->
  Forall (fun p => DatePrice.isSelected p = false) before ->
  DatePrice.isSelected selected = true ->
  tier2 origin destination = [genericFlight origin destination selected].
Proof.
  intros Htier Hsplit Hbefore Hsel. unfold tier2.
  rewrite Htier, withSelectedDatePrice_nil, Hsplit.
  now rewrite (find_first _ _ _ _ Hbefore Hsel).
Qed.

End FirstSelectedProofs.

(** X22 (witness): the date strip with two selected items, priced ["45 Ft"]
    and ["30 Ft"]; the offer carries the price of the first. *)
Lemma first_selected_date_witness :
  map FlightData.price
      (tier2 (D := Sample.twoSelectedDom) (js "BUD") (js "MAN"))
  = [js "45"].
Proof.
  rewrite (first_selected_date (D := Sample.twoSelectedDom) (js "BUD") (js "MAN")
             [datePriceOf (D := Sample.twoSelectedDom) 1%nat]
             (datePriceOf (D := Sample.twoSelectedDom) 2%nat)
             [datePriceOf (D := Sample.twoSelectedDom) 3%nat]).
  - reflexivity.
  - reflexivity.
  - reflexivity.
  - repeat constructor.
  - reflexivity.
Defined.

(** ** The wait for the date prices and the screenshot *)

Section OutcomeProofs.
Context `{D : Dom}.


End OutcomeProofs.

(** ** [parseInt] below 2^53 *)

Lemma isDigit_not_space (c : char) : isDigit c = true -> isWhiteSpace c = false.
Proof.
  intros H. apply isDigit_in in H. unfold digitChars in H. simpl in H.
  repeat (destruct H as [<- | H]; [reflexivity|]). contradiction.
Qed.

Lemma isDigit_not_plus (c : char) : isDigit c = true -> (c =? 43) = false.
Proof.
  intros H. apply isDigit_range in H. apply N.eqb_neq. lia.
Qed.

(** X24. [parseInt] reads a run of digits that ends the string or is
    followed by another character as the integer it writes, without
    rounding, when that integer is below 2^53; with a minus sign before the
    run, as its negation. *)
Theorem parseInt_exact (ds rest : jsstring) :
  ds <> [] ->
  Forall (fun c => isDigit c = true) ds ->
  rest = [] \/ (exists x t, rest = x :: t /\ isDigit x = false) ->
  (Z.of_N (digitsValue ds) < 2 ^ 53)%Z ->
  parseInt (ds ++ rest) = Integer (Z.of_N (digitsValue ds))
  /\ parseInt (45 :: ds ++ rest) = Integer (- Z.of_N (digitsValue ds)).
Proof.
  intros Hne Hds Hrest Hsmall.
  assert (Hrun : takeWhile isDigit (ds ++ rest) = ds).
  { rewrite (takeWhile_app_all _ _ _ Hds), (takeWhile_stop _ _ Hrest).
    apply app_nil_r. }
  assert (Hvalue : toDouble (inject_Z (Z.of_N (digitsValue ds)))
                   = Num (inject_Z (Z.of_N (digitsValue ds)))).
  { apply toDouble_integer. split; [apply N2Z.is_nonneg | exact Hsmall]. }
  destruct ds as [|d ds']; [congruence|].
  assert (Hd : isDigit d = true) by (inversion Hds; assumption).
  split.
  - unfold parseInt. cbn [app dropWhile].
    rewrite (isDigit_not_space d Hd), (isDigit_not_hyphen d Hd),
      (isDigit_not_plus d Hd).
    change (d :: ds' ++ rest) with ((d :: ds') ++ rest). rewrite Hrun, Hvalue.
    cbn [Qnum Qden inject_Z]. now rewrite Z.div_1_r.
  - unfold parseInt. cbn [dropWhile]. change (isWhiteSpace 45) with false.
    cbv iota. change (45 =? 45) with true. cbv iota.
    rewrite Hrun, Hvalue.
    cbn [Qnum Qden inject_Z]. now rewrite Z.div_1_r.
Qed.

(** X24 (witness): the texts ["42px"] and ["-42px"]. *)
Lemma parseInt_exact_witness :
  parseInt (js "42px") = Integer 42 /\ parseInt (js "-42px") = Integer (- 42).
Proof.
  apply (parseInt_exact (js "42") (js "px")).
  - discriminate.
  - repeat constructor.
  - right. exists 112, (js "x"). split; reflexivity.
  - reflexivity.
Defined.
